(** * Tool-invocation gateways of the weather and GitHub-diff MCP servers

    A shallow embedding of the two CallTool request handlers
    ([src/index.ts], the weather server, and the GitHub-diff server) and of
    the JavaScript operations they use, followed by the properties of the
    dispatch / error-isolation layer.

    Conventions of the embedding:
    - a JavaScript string is the sequence of the bytes of its WTF-8
      encoding ([string]): UTF-8, with an unpaired surrogate written as the
      three bytes ED A0..BF 80..BF. The handlers only concatenate strings
      around ASCII text, where concatenating the bytes is concatenating
      the strings;
    - a JavaScript number is a binary64 value ([spec_float] with 53 bits of
      precision and the exponent bound 1024, in canonical form), with its
      infinities, its signed zeros and NaN;
    - an object is the list of its own properties, each name once, in
      enumeration order; the values are those of parsed JSON, so that no
      property is callable;
    - an [async] function is a computation over the log of outbound HTTP
      requests that either yields a value or throws; a rejected promise is
      a thrown value. *)

From Stdlib Require Import String Ascii List ZArith Bool Lia.
From Stdlib Require Import DecimalString SpecFloat.
Import ListNotations.
Local Open Scope list_scope.
Local Open Scope string_scope.

(** ** JavaScript values *)

Set Warnings "-register-all".

Definition JsNumber : Type := spec_float.

Inductive JsVal : Type :=
| JUndefined
| JNull
| JBool (b : bool)
| JNum (n : JsNumber)
| JStr (s : string)
| JArr (items : list JsVal)
| JObj (props : list (string * JsVal)).

(** What is thrown: an [Error] instance with its [message], or any other
    value (the [catch] blocks distinguish the two with [instanceof]). *)
Inductive Thrown : Type :=
| ErrorObj (message : string)
| NonError.

Inductive Result (A : Type) : Type :=
| Ok (a : A)
| Throw (e : Thrown).
Arguments Ok {A} a.
Arguments Throw {A} e.

Definition bindR {A B : Type} (r : Result A) (k : A -> Result B) : Result B :=
  match r with
  | Ok a => k a
  | Throw e => Throw e
  end.

Notation "x <~ r ;; k" := (bindR r (fun x => k))
  (at level 61, r at next level, right associativity).

(** The parts of the JavaScript engine that the source relies on but does
    not contain: the text of the [TypeError] raised when [v.k] cannot be
    read or called, of the [TypeError] raised when an object cannot be
    converted to a primitive value, and of the [URIError] of
    [encodeURIComponent]; the numeric value of a string; and the text of a
    number that is not an integer of at most 2^53 in magnitude. *)
Record Engine : Type := {
  type_error_message : JsVal -> string -> string;
  primitive_error_message : string;
  uri_error_message : string;
  string_to_number : string -> JsNumber;
  number_to_string : JsNumber -> string
}.

(** ** Strings *)

Definition nl : string := String (ascii_of_nat 10) EmptyString.

Fixpoint join (sep : string) (parts : list string) : string :=
  match parts with
  | [] => ""
  | [p] => p
  | p :: rest => p ++ sep ++ join sep rest
  end.

(** [s.split(sep)] for a one-character ASCII separator. *)
Fixpoint split (sep : ascii) (s : string) : list string :=
  match s with
  | EmptyString => [""]
  | String c rest =>
      if Ascii.eqb c sep then "" :: split sep rest
      else match split sep rest with
           | [] => [String c ""]
           | p :: ps => String c p :: ps
           end
  end.

(** [s.startsWith(pre)] for an ASCII [pre]. *)
Definition startsWith (s pre : string) : bool := String.prefix pre s.

Fixpoint contains (s sub : string) : bool :=
  String.prefix sub s ||
  match s with
  | EmptyString => false
  | String _ rest => contains rest sub
  end.

(** Upper-case hexadecimal digit, as in percent-encoding. *)
Definition hex_digit (n : N) : ascii :=
  ascii_of_N (if (n <? 10)%N then 48 + n else 55 + n)%N.

(** Lower-case hexadecimal digit, as in the escapes of JSON text. *)
Definition hex_digit_lower (n : N) : ascii :=
  ascii_of_N (if (n <? 10)%N then 48 + n else 87 + n)%N.

Definition is_uri_unreserved (c : ascii) : bool :=
  let n := N_of_ascii c in
  ((65 <=? n) && (n <=? 90) || (97 <=? n) && (n <=? 122) ||
   (48 <=? n) && (n <=? 57))%N ||
  existsb (Ascii.eqb c) (list_ascii_of_string "-_.!~*'()").

(** The bytes that stand for an unpaired surrogate start with ED and a
    byte of A0..BF. *)
Definition starts_lone_surrogate (c1 c2 : ascii) : bool :=
  ((N_of_ascii c1 =? 237) && (160 <=? N_of_ascii c2)
   && (N_of_ascii c2 <=? 191))%N.

Fixpoint has_lone_surrogate (s : string) : bool :=
  match s with
  | String c1 rest =>
      match rest with
      | String c2 _ => starts_lone_surrogate c1 c2
      | EmptyString => false
      end || has_lone_surrogate rest
  | EmptyString => false
  end.

(** Every byte outside the unreserved set becomes [%XX] with upper-case
    hexadecimal digits. *)
Fixpoint percent_encode (s : string) : string :=
  match s with
  | EmptyString => ""
  | String c rest =>
      if is_uri_unreserved c then String c (percent_encode rest)
      else
        let n := N_of_ascii c in
        String "%" (String (hex_digit (n / 16)) (String (hex_digit (n mod 16))
          (percent_encode rest)))
  end.

(** *** Counting UTF-16 code units on WTF-8 bytes *)

Definition is_continuation (c : ascii) : bool :=
  ((128 <=? N_of_ascii c) && (N_of_ascii c <=? 191))%N.

(** The code units of the character led by the byte [c]: two for the lead
    byte of a four-byte sequence, none for a continuation byte. *)
Definition units_of_byte (c : ascii) : nat :=
  let n := N_of_ascii c in
  if (n <? 128)%N then 1
  else if (n <? 192)%N then 0
  else if (n <? 240)%N then 1
  else 2.

(** [s.length]. *)
Fixpoint code_units (s : string) : nat :=
  match s with
  | EmptyString => 0
  | String c rest => units_of_byte c + code_units rest
  end.

(** The continuation bytes at the head of [s], at most [k] of them, and
    what follows them. *)
Fixpoint take_continuation (k : nat) (s : string) : string * string :=
  match k, s with
  | S k', String c rest =>
      if is_continuation c then
        let (taken, left) := take_continuation k' rest in
        (String c taken, left)
      else ("", s)
  | _, _ => ("", s)
  end.

(** The first code unit of a character outside the basic plane, given by
    its four bytes: the high surrogate, as three WTF-8 bytes. *)
Definition high_surrogate (c1 : ascii) (cont : string) : string :=
  let b (i : nat) : N :=
    match String.get i cont with
    | Some c => (N_of_ascii c mod 64)%N
    | None => 0%N
    end in
  let cp := ((N_of_ascii c1 mod 8) * 262144 + b 0%nat * 4096 + b 1%nat * 64
             + b 2%nat)%N in
  let hi := (55296 + (cp - 65536) / 1024)%N in
  String (ascii_of_N 237)
    (String (ascii_of_N (128 + (hi / 64) mod 64))
       (String (ascii_of_N (128 + hi mod 64)) "")).

(** [s.substring(0, n)]: the first [n] code units of [s]. A character
    outside the basic plane counts for two; when only its first unit fits,
    the result ends with its high surrogate. *)
Fixpoint substring_units (n : nat) (s : string) : string :=
  match n, s with
  | S n', String c rest =>
      if (N_of_ascii c <? 192)%N then String c (substring_units n' rest)
      else if (N_of_ascii c <? 224)%N then
        let (cont, left) := take_continuation 1 rest in
        String c cont ++ substring_units n' left
      else if (N_of_ascii c <? 240)%N then
        let (cont, left) := take_continuation 2 rest in
        String c cont ++ substring_units n' left
      else
        let (cont, left) := take_continuation 3 rest in
        match n' with
        | O => high_surrogate c cont
        | S n'' => String c cont ++ substring_units n'' left
        end
  | _, _ => ""
  end.

(** ** Numbers *)

Definition Z_to_string (z : Z) : string := NilZero.string_of_int (Z.to_int z).

(** The binary64 value of an integer (exact up to 2^53 in magnitude). *)
Definition num_of_Z (z : Z) : JsNumber := binary_normalize 53 1024 z 0 false.

Definition num_sub (a b : JsNumber) : JsNumber := SFsub 53 1024 a b.

Definition num_mul (a b : JsNumber) : JsNumber := SFmul 53 1024 a b.

Definition num_div (a b : JsNumber) : JsNumber := SFdiv 53 1024 a b.

Definition Math_abs (n : JsNumber) : JsNumber := SFabs n.

(** [a > b]; false as soon as one side is NaN. *)
Definition num_gt (a b : JsNumber) : bool := SFltb b a.

(** The integer that a finite number is, if it is one. *)
Definition integer_value (n : JsNumber) : option Z :=
  match n with
  | S754_zero _ => Some 0%Z
  | S754_finite s m (Zneg p) =>
      let d := (2 ^ Zpos p)%Z in
      if (Zpos m mod d =? 0)%Z then Some (cond_Zopp s (Zpos m / d))
      else None
  | S754_finite s m e => Some (cond_Zopp s (Zpos m * 2 ^ e))
  | _ => None
  end.

(** [Math.round]: the nearest integer, ties towards +infinity; a result
    that is zero keeps the sign of the argument. *)
Definition Math_round (n : JsNumber) : JsNumber :=
  match n with
  | S754_finite s m (Zneg p) =>
      let d := (2 ^ Zpos p)%Z in
      let r := ((2 * cond_Zopp s (Zpos m) + d) / (2 * d))%Z in
      if (r =? 0)%Z then S754_zero s else num_of_Z r
  | _ => n
  end.

Inductive IntegerOrInfinity : Type :=
| Finite (z : Z)
| PlusInfinity
| MinusInfinity.

(** [ToIntegerOrInfinity]: NaN is 0, a finite number is truncated towards
    zero. *)
Definition ToIntegerOrInfinity (n : JsNumber) : IntegerOrInfinity :=
  match n with
  | S754_nan | S754_zero _ => Finite 0
  | S754_infinity false => PlusInfinity
  | S754_infinity true => MinusInfinity
  | S754_finite s m (Zneg p) => Finite (cond_Zopp s (Zpos m / 2 ^ Zpos p))
  | S754_finite s m e => Finite (cond_Zopp s (Zpos m * 2 ^ e))
  end.

(** ** Conversions and property access *)

Section Semantics.

Variable eng : Engine.

(** [Number::toString]: an integer of at most 2^53 in magnitude is its
    decimal text (up to there the shortest digits that identify the number
    are all its digits); the text of any other finite number is left to the
    engine. *)
Definition NumberToString (n : JsNumber) : string :=
  match n with
  | S754_nan => "NaN"
  | S754_infinity false => "Infinity"
  | S754_infinity true => "-Infinity"
  | _ =>
      match integer_value n with
      | Some z =>
          if (Z.abs z <=? 2 ^ 53)%Z then Z_to_string z
          else number_to_string eng n
      | None => number_to_string eng n
      end
  end.

Definition has_own (key : string) (props : list (string * JsVal)) : bool :=
  existsb (fun kv => fst kv =? key) props.

(** [ToString], as applied by template literals and by
    [encodeURIComponent]. An array is the [join(",")] of its elements. An
    object is converted by the inherited [toString], unless it has an own
    property of that name: such a property is not callable, the inherited
    [valueOf] returns the object itself, and the conversion throws. *)
Fixpoint ToString (v : JsVal) : Result string :=
  match v with
  | JUndefined => Ok "undefined"
  | JNull => Ok "null"
  | JBool b => Ok (if b then "true" else "false")
  | JNum n => Ok (NumberToString n)
  | JStr s => Ok s
  | JArr items =>
      parts <~ (fix elements (l : list JsVal) : Result (list string) :=
                  match l with
                  | [] => Ok []
                  | x :: rest =>
                      s <~ match x with
                           | JUndefined | JNull => Ok ""
                           | _ => ToString x
                           end ;;
                      ss <~ elements rest ;;
                      Ok (s :: ss)
                  end) items ;;
      Ok (join "," parts)
  | JObj props =>
      if has_own "toString" props
      then Throw (ErrorObj (primitive_error_message eng))
      else Ok "[object Object]"
  end.

(** [ToNumber]: arrays and objects go through their string. *)
Definition ToNumber (v : JsVal) : Result JsNumber :=
  match v with
  | JUndefined => Ok S754_nan
  | JNull => Ok (S754_zero false)
  | JBool b => Ok (if b then num_of_Z 1 else S754_zero false)
  | JNum n => Ok n
  | JStr s => Ok (string_to_number eng s)
  | JArr _ | JObj _ => s <~ ToString v ;; Ok (string_to_number eng s)
  end.

(** [ToBoolean]: what [!v] and [v || d] test. *)
Definition truthy (v : JsVal) : bool :=
  match v with
  | JUndefined | JNull => false
  | JBool b => b
  | JNum (S754_nan | S754_zero _) => false
  | JNum _ => true
  | JStr s => negb (s =? "")
  | JArr _ | JObj _ => true
  end.

Definition TypeError (base : JsVal) (key : string) : Thrown :=
  ErrorObj (type_error_message eng base key).

(** [encodeURIComponent(s)] of a string: a [URIError] when [s] holds an
    unpaired surrogate. *)
Definition encodeURIComponent (s : string) : Result string :=
  if has_lone_surrogate s then Throw (ErrorObj (uri_error_message eng))
  else Ok (percent_encode s).

(** [encodeURIComponent(v)] of any value. *)
Definition encode_value (v : JsVal) : Result string :=
  s <~ ToString v ;; encodeURIComponent s.

Fixpoint lookup (key : string) (props : list (string * JsVal)) : JsVal :=
  match props with
  | [] => JUndefined
  | (k, v) :: rest => if k =? key then v else lookup key rest
  end.

(** [base.key] and [base[0]] for the property names the source reads
    (none of them is inherited from a prototype): reading from [undefined]
    or [null] throws, an object yields its own property, an array its
    first element and a string its first code unit under the key [0],
    anything else [undefined]. *)
Definition getProp (base : JsVal) (key : string) : Result JsVal :=
  match base with
  | JUndefined | JNull => Throw (TypeError base key)
  | JObj props => Ok (lookup key props)
  | JArr items => Ok (if key =? "0" then hd JUndefined items else JUndefined)
  | JStr (String c rest) =>
      Ok (if key =? "0" then JStr (substring_units 1 (String c rest))
          else JUndefined)
  | _ => Ok JUndefined
  end.

(** A chain of property reads, [base.k1.k2...], left to right. *)
Fixpoint getPath (base : JsVal) (path : list string) : Result JsVal :=
  match path with
  | [] => Ok base
  | key :: rest => v <~ getProp base key ;; getPath v rest
  end.

(** [v === s] for a string [s]. *)
Definition strict_equals_string (v : JsVal) (s : string) : bool :=
  match v with
  | JStr t => t =? s
  | _ => false
  end.

(** The receiver of a string method ([split], [startsWith], [substring]):
    calling it on anything but a string throws a [TypeError]. *)
Definition string_receiver (v : JsVal) (method : string) : Result string :=
  match v with
  | JStr s => Ok s
  | _ => Throw (TypeError v method)
  end.

(** The receiver of an array method ([filter], [reduce], [forEach]). *)
Definition array_receiver (v : JsVal) (method : string)
  : Result (list JsVal) :=
  match v with
  | JArr items => Ok items
  | _ => Throw (TypeError v method)
  end.

(** [items.slice(0, end)]: an [undefined] end is the length, a negative
    one counts from the end. *)
Definition slice_to {A : Type} (items : list A) (end_ : JsVal)
  : Result (list A) :=
  let len := Z.of_nat (List.length items) in
  rel <~ match end_ with
         | JUndefined => Ok (Finite len)
         | _ => n <~ ToNumber end_ ;; Ok (ToIntegerOrInfinity n)
         end ;;
  let final := match rel with
               | MinusInfinity => 0%Z
               | PlusInfinity => len
               | Finite k => if (k <? 0)%Z then Z.max (len + k) 0
                             else Z.min k len
               end in
  Ok (firstn (Z.to_nat final) items).

(** ** JSON.stringify(value, null, 2) *)

(** The escape of one unpaired surrogate, given by the low six bits of
    its second and third bytes. *)
Definition surrogate_escape (c2 c3 : ascii) : string :=
  let u := ((N_of_ascii c2 mod 64) * 64 + N_of_ascii c3 mod 64)%N in
  "\ud" ++ String (hex_digit_lower (u / 256))
             (String (hex_digit_lower ((u / 16) mod 16))
                (String (hex_digit_lower (u mod 16)) "")).

Definition json_escape (c : ascii) : string :=
  let n := N_of_ascii c in
  if (n =? 34)%N then "\" ++ String c ""
  else if (n =? 92)%N then "\\"
  else if (n =? 8)%N then "\b"
  else if (n =? 12)%N then "\f"
  else if (n =? 10)%N then "\n"
  else if (n =? 13)%N then "\r"
  else if (n =? 9)%N then "\t"
  else if (n <? 32)%N then
    "\u00" ++ String (hex_digit_lower (n / 16))
                (String (hex_digit_lower (n mod 16)) "")
  else String c "".

(** The characters of a JSON string: control characters, the quote and
    the backslash are escaped, and so is an unpaired surrogate. *)
Fixpoint json_chars (s : string) : string :=
  match s with
  | String c1 (String c2 (String c3 rest) as tail) =>
      if starts_lone_surrogate c1 c2
      then surrogate_escape c2 c3 ++ json_chars rest
      else json_escape c1 ++ json_chars tail
  | String c1 tail => json_escape c1 ++ json_chars tail
  | EmptyString => ""
  end.

Definition dq : string := String (ascii_of_nat 34) "".

Definition json_quote (s : string) : string := dq ++ json_chars s ++ dq.

(** [SerializeJSONProperty] with a gap of two spaces; [None] is the
    [undefined] result that drops a property and becomes [null] in an
    array. A number that is not finite is [null]. *)
Fixpoint stringify (indent : string) (v : JsVal) : option string :=
  let inner := indent ++ "  " in
  let sep := "," ++ nl ++ inner in
  match v with
  | JUndefined => None
  | JNull => Some "null"
  | JBool b => Some (if b then "true" else "false")
  | JNum (S754_nan | S754_infinity _) => Some "null"
  | JNum n => Some (NumberToString n)
  | JStr s => Some (json_quote s)
  | JArr items =>
      match items with
      | [] => Some "[]"
      | _ =>
          let parts := map (fun x => match stringify inner x with
                                     | Some t => t
                                     | None => "null"
                                     end) items in
          Some ("[" ++ nl ++ inner ++ join sep parts ++ nl ++ indent ++ "]")
      end
  | JObj props =>
      let parts := flat_map (fun kv => match stringify inner (snd kv) with
                                       | Some t => [json_quote (fst kv) ++ ": " ++ t]
                                       | None => []
                                       end) props in
      match parts with
      | [] => Some "{}"
      | _ => Some ("{" ++ nl ++ inner ++ join sep parts ++ nl ++ indent ++ "}")
      end
  end.

(** [JSON.stringify(v, null, 2)] of a value that is not [undefined]. *)
Definition JSON_stringify (v : JsVal) : string :=
  match stringify "" v with
  | Some t => t
  | None => "undefined"
  end.

End Semantics.

(** ** Outbound requests, responses and the process environment *)

Record HttpRequest : Type := {
  url : string;
  headers : list (string * string)
}.

(** What the handler reads of a [fetch] response; [json] is the outcome of
    [response.json()]. *)
Record Response : Type := {
  ok : bool;
  status : Z;
  statusText : string;
  json : Result JsVal
}.

(** The upstream as the weather server sees it: the outcome of the [n]-th
    outbound [fetch] of an invocation, and, for two fetches awaited with
    [Promise.all] that both reject, which rejection comes first. *)
Record WeatherNet : Type := {
  fetch_outcome : nat -> string -> Result Response;
  second_rejects_first : bool
}.

(** The upstream as the GitHub-diff server sees it: [axios.get] resolves
    with the parsed [data] of a 2xx response or rejects. *)
Record GitNet : Type := {
  axios_outcome : nat -> HttpRequest -> Result JsVal
}.

Record ProcessEnv : Type := {
  OPENWEATHER_API_KEY : option string;
  GITHUB_TOKEN : option string
}.

(** ** Requests and response envelopes *)

Record CallToolRequest : Type := {
  name : string;
  arguments : option (list (string * JsVal))
}.

Record ContentBlock : Type := {
  type : string;
  text : string
}.

Record Envelope : Type := {
  content : list ContentBlock;
  isError : option bool
}.

(** What the protocol library gets back from a request handler: the
    envelope it returned, or the error it threw (answered by the library
    with a protocol-level error response). *)
Inductive Outcome : Type :=
| Returned (env : Envelope)
| Rejected (e : Thrown).

(** ** Computations that log outbound requests and may throw *)

Definition M (A : Type) : Type :=
  list HttpRequest -> list HttpRequest * Result A.

Definition ret {A : Type} (a : A) : M A := fun log => (log, Ok a).

Definition throw {A : Type} (e : Thrown) : M A := fun log => (log, Throw e).

Definition bind {A B : Type} (m : M A) (k : A -> M B) : M B :=
  fun log =>
    match m log with
    | (log', Ok a) => k a log'
    | (log', Throw e) => (log', Throw e)
    end.

Definition lift {A : Type} (r : Result A) : M A := fun log => (log, r).

Notation "x <- m ;; k" := (bind m (fun x => k))
  (at level 61, m at next level, right associativity).

Fixpoint filterM {A : Type} (p : A -> M bool) (items : list A) : M (list A) :=
  match items with
  | [] => ret []
  | x :: rest =>
      keep <- p x ;;
      kept <- filterM p rest ;;
      ret (if keep then x :: kept else kept)
  end.

Fixpoint mapM {A B : Type} (f : A -> M B) (items : list A) : M (list B) :=
  match items with
  | [] => ret []
  | x :: rest =>
      y <- f x ;;
      ys <- mapM f rest ;;
      ret (y :: ys)
  end.

(** [Promise.all([p1, p2])] over two calls of an [async] function: both
    calls run up to their first suspension, so both outbound requests are
    issued, in order; the result pairs the two values positionally, or is
    the rejection that comes first. A call that throws without having
    issued a request has thrown before its first suspension and comes
    before any rejection that follows a request; between two rejections
    that follow a request the upstream decides. *)
Definition Promise_all2 {A : Type} (second_first : bool) (p1 p2 : M A)
  : M (A * A) :=
  fun log =>
    let (log1, r1) := p1 log in
    let (log2, r2) := p2 log1 in
    (log2,
     match r1, r2 with
     | Ok a, Ok b => Ok (a, b)
     | Throw e, Ok _ => Throw e
     | Ok _, Throw e => Throw e
     | Throw e1, Throw e2 =>
         if Nat.eqb (List.length log1) (List.length log) then Throw e1
         else if Nat.eqb (List.length log2) (List.length log1) then Throw e2
         else Throw (if second_first then e2 else e1)
     end).

(** ** The weather server ([src/index.ts]) *)

Record WeatherData : Type := {
  temperature : JsNumber;
  feels_like : JsNumber;
  condition : JsVal;
  description : JsVal;
  humidity : JsVal;
  wind_speed : JsNumber;
  city : JsVal;
  country : JsVal
}.

Definition WEATHER_API_BASE : string :=
  "https://api.openweathermap.org/data/2.5".

Definition rule : string := "━━━━━━━━━━━━━━━━━━━━━━━━━━━━━━━".

Definition text_block (t : string) : ContentBlock :=
  {| type := "text"; text := t |}.

(** The envelope of a successful branch: one text block, [isError] not set. *)
Definition success (t : string) : Envelope :=
  {| content := [text_block t]; isError := None |}.

(** The [catch] block of both handlers. *)
Definition errorMessage (error : Thrown) : string :=
  match error with
  | ErrorObj message => message
  | NonError => "Unknown error occurred"
  end.

Definition failure (error : Thrown) : Envelope :=
  {| content := [text_block ("Error: " ++ errorMessage error)];
     isError := Some true |}.

(** [try { body } catch (error) { ... }] around a handler body. *)
Definition try_catch (body : M Envelope) : M Envelope :=
  fun log =>
    match body log with
    | (log', Ok env) => (log', Ok env)
    | (log', Throw error) => (log', Ok (failure error))
    end.

(** The tools the weather server lists. *)
Definition weather_tools : JsVal :=
  JObj [("tools", JArr [
    JObj [("name", JStr "get_current_weather");
          ("description", JStr "Get the current weather for a specific city. Returns temperature, conditions, humidity, and wind speed.");
          ("inputSchema", JObj [
             ("type", JStr "object");
             ("properties", JObj [
                ("city", JObj [
                   ("type", JStr "string");
                   ("description", JStr "City name (e.g., 'London', 'New York', 'Tokyo'). Can include country code for precision (e.g., 'London,UK')")])]);
             ("required", JArr [JStr "city"])])];
    JObj [("name", JStr "get_weather_forecast");
          ("description", JStr "Get weather forecast for the next few days for a specific city.");
          ("inputSchema", JObj [
             ("type", JStr "object");
             ("properties", JObj [
                ("city", JObj [
                   ("type", JStr "string");
                   ("description", JStr "City name (e.g., 'London', 'New York', 'Tokyo')")]);
                ("days", JObj [
                   ("type", JStr "number");
                   ("description", JStr "Number of days to forecast (1-5, default: 3)");
                   ("default", JNum (num_of_Z 3))])]);
             ("required", JArr [JStr "city"])])];
    JObj [("name", JStr "compare_weather");
          ("description", JStr "Compare current weather between two cities.");
          ("inputSchema", JObj [
             ("type", JStr "object");
             ("properties", JObj [
                ("city1", JObj [
                   ("type", JStr "string");
                   ("description", JStr "First city name")]);
                ("city2", JObj [
                   ("type", JStr "string");
                   ("description", JStr "Second city name")])]);
             ("required", JArr [JStr "city1"; JStr "city2"])])]])].

Section WeatherServer.

Variable eng : Engine.
Variable env : ProcessEnv.
Variable net : WeatherNet.

(** [process.env.OPENWEATHER_API_KEY || ""]. *)
Definition WEATHER_API_KEY : string :=
  match OPENWEATHER_API_KEY env with
  | Some key => key
  | None => ""
  end.

(** [fetch(url)]: the request is logged, the upstream decides the outcome. *)
Definition fetch (u : string) : M Response :=
  fun log =>
    ((log ++ [{| url := u; headers := [] |}])%list,
     fetch_outcome net (List.length log) u).

Definition get (base : JsVal) (path : list string) : M JsVal :=
  lift (getPath eng base path).

(** The URL of [fetchWeather], for the encoded city [q]. *)
Definition weather_url (q : string) : string :=
  WEATHER_API_BASE ++ "/weather?q=" ++ q
  ++ "&appid=" ++ WEATHER_API_KEY ++ "&units=metric".

(** [3.6], the nearest binary64 value. *)
Definition three_point_six : JsNumber := num_div (num_of_Z 36) (num_of_Z 10).

Definition fetchWeather (city : JsVal) : M WeatherData :=
  q <- lift (encode_value eng city) ;;
  response <- fetch (weather_url q) ;;
  if negb (ok response) then
    throw (ErrorObj ("Weather API error: " ++ Z_to_string (status response)
                     ++ " " ++ statusText response))
  else
    data <- lift (json response) ;;
    temp <- get data ["main"; "temp"] ;;
    temp <- lift (ToNumber eng temp) ;;
    feels <- get data ["main"; "feels_like"] ;;
    feels <- lift (ToNumber eng feels) ;;
    cond <- get data ["weather"; "0"; "main"] ;;
    desc <- get data ["weather"; "0"; "description"] ;;
    hum <- get data ["main"; "humidity"] ;;
    speed <- get data ["wind"; "speed"] ;;
    speed <- lift (ToNumber eng speed) ;;
    name <- get data ["name"] ;;
    ctry <- get data ["sys"; "country"] ;;
    ret {| temperature := Math_round temp;
           feels_like := Math_round feels;
           condition := cond;
           description := desc;
           humidity := hum;
           wind_speed := Math_round (num_mul speed three_point_six);
           city := name;
           country := ctry |}.

(** The callback of [data.list.reduce]: the first item of each date is
    kept as that day's summary. *)
Definition add_day (acc : list JsVal) (item : JsVal) : M (list JsVal) :=
  dt_txt <- get item ["dt_txt"] ;;
  s <- lift (string_receiver eng dt_txt "split") ;;
  let date := hd "" (split " " s) in
  if existsb (fun d => match d with
                       | JObj props => strict_equals_string (lookup "date" props) date
                       | _ => false
                       end) acc
  then ret acc
  else
    temp_min <- get item ["main"; "temp_min"] ;;
    temp_max <- get item ["main"; "temp_max"] ;;
    cond <- get item ["weather"; "0"; "main"] ;;
    desc <- get item ["weather"; "0"; "description"] ;;
    ret (acc ++ [JObj [("date", JStr date);
                       ("temp_min", temp_min);
                       ("temp_max", temp_max);
                       ("condition", cond);
                       ("description", desc)]])%list.

Fixpoint reduce (acc : list JsVal) (items : list JsVal) : M (list JsVal) :=
  match items with
  | [] => ret acc
  | item :: rest => acc' <- add_day acc item ;; reduce acc' rest
  end.

(** The URL of [fetchForecast], for the encoded city [q] and the text
    [cnt] of [days * 8]. *)
Definition forecast_url (q cnt : string) : string :=
  WEATHER_API_BASE ++ "/forecast?q=" ++ q
  ++ "&appid=" ++ WEATHER_API_KEY ++ "&units=metric&cnt=" ++ cnt.

Definition fetchForecast (city days : JsVal) : M JsVal :=
  let days := match days with JUndefined => JNum (num_of_Z 5) | _ => days end in
  q <- lift (encode_value eng city) ;;
  n <- lift (ToNumber eng days) ;;
  response <- fetch (forecast_url q (NumberToString eng (num_mul n (num_of_Z 8)))) ;;
  if negb (ok response) then
    throw (ErrorObj ("Forecast API error: " ++ Z_to_string (status response)
                     ++ " " ++ statusText response))
  else
    data <- lift (json response) ;;
    list <- get data ["list"] ;;
    items <- lift (array_receiver eng list "reduce") ;;
    dailyData <- reduce [] items ;;
    name <- get data ["city"; "name"] ;;
    ctry <- get data ["city"; "country"] ;;
    forecast <- lift (slice_to eng dailyData days) ;;
    ret (JObj [("city", name);
               ("country", ctry);
               ("forecast", JArr forecast)]).

Definition api_key_message : string :=
  "Error: OPENWEATHER_API_KEY environment variable not set. Please get a free API key from https://openweathermap.org/api".

(** The text of get_current_weather; the interpolated values are converted
    in the order of the template. *)
Definition current_weather_text (weather : WeatherData) : Result string :=
  name <~ ToString eng (city weather) ;;
  ctry <~ ToString eng (country weather) ;;
  cond <~ ToString eng (condition weather) ;;
  desc <~ ToString eng (description weather) ;;
  hum <~ ToString eng (humidity weather) ;;
  Ok ("Current Weather in " ++ name ++ ", " ++ ctry ++ ":" ++ nl
      ++ rule ++ nl
      ++ "🌡️  Temperature: " ++ NumberToString eng (temperature weather)
      ++ "°C (feels like " ++ NumberToString eng (feels_like weather) ++ "°C)" ++ nl
      ++ "☁️  Condition: " ++ cond ++ " - " ++ desc ++ nl
      ++ "💧 Humidity: " ++ hum ++ "%" ++ nl
      ++ "💨 Wind Speed: " ++ NumberToString eng (wind_speed weather) ++ " km/h").

(** The body of [forecast.forecast.forEach]: three lines appended per day. *)
Definition day_text (index : nat) (day : JsVal) : M string :=
  date <- get day ["date"] ;;
  date <- lift (ToString eng date) ;;
  temp_min <- get day ["temp_min"] ;;
  temp_min <- lift (ToNumber eng temp_min) ;;
  temp_max <- get day ["temp_max"] ;;
  temp_max <- lift (ToNumber eng temp_max) ;;
  cond <- get day ["condition"] ;;
  cond <- lift (ToString eng cond) ;;
  desc <- get day ["description"] ;;
  desc <- lift (ToString eng desc) ;;
  ret ("Day " ++ Z_to_string (Z.of_nat index + 1) ++ " (" ++ date
       ++ "):" ++ nl
       ++ "  🌡️  " ++ NumberToString eng (Math_round temp_min)
       ++ "°C - " ++ NumberToString eng (Math_round temp_max)
       ++ "°C" ++ nl
       ++ "  ☁️  " ++ cond ++ " - " ++ desc
       ++ nl ++ nl).

Fixpoint forEach_day (index : nat) (days : list JsVal) (result : string)
  : M string :=
  match days with
  | [] => ret result
  | day :: rest =>
      t <- day_text index day ;;
      forEach_day (S index) rest (result ++ t)
  end.

Definition tempDiff (weather1 weather2 : WeatherData) : JsNumber :=
  Math_abs (num_sub (temperature weather1) (temperature weather2)).

Definition warmer (weather1 weather2 : WeatherData) : JsVal :=
  if num_gt (temperature weather1) (temperature weather2)
  then city weather1
  else city weather2.

(** The text of compare_weather; the interpolated values are converted in
    the order of the template. *)
Definition comparison_text (weather1 weather2 : WeatherData) : Result string :=
  name1 <~ ToString eng (city weather1) ;;
  ctry1 <~ ToString eng (country weather1) ;;
  cond1 <~ ToString eng (condition weather1) ;;
  desc1 <~ ToString eng (description weather1) ;;
  hum1 <~ ToString eng (humidity weather1) ;;
  name2 <~ ToString eng (city weather2) ;;
  ctry2 <~ ToString eng (country weather2) ;;
  cond2 <~ ToString eng (condition weather2) ;;
  desc2 <~ ToString eng (description weather2) ;;
  hum2 <~ ToString eng (humidity weather2) ;;
  name <~ ToString eng (warmer weather1 weather2) ;;
  Ok ("Weather Comparison:" ++ nl
      ++ rule ++ nl
      ++ nl
      ++ name1 ++ ", " ++ ctry1 ++ ":" ++ nl
      ++ "  🌡️  " ++ NumberToString eng (temperature weather1)
      ++ "°C (feels like " ++ NumberToString eng (feels_like weather1) ++ "°C)" ++ nl
      ++ "  ☁️  " ++ cond1 ++ " - " ++ desc1 ++ nl
      ++ "  💧 " ++ hum1 ++ "% humidity" ++ nl
      ++ nl
      ++ name2 ++ ", " ++ ctry2 ++ ":" ++ nl
      ++ "  🌡️  " ++ NumberToString eng (temperature weather2)
      ++ "°C (feels like " ++ NumberToString eng (feels_like weather2) ++ "°C)" ++ nl
      ++ "  ☁️  " ++ cond2 ++ " - " ++ desc2 ++ nl
      ++ "  💧 " ++ hum2 ++ "% humidity" ++ nl
      ++ nl
      ++ "📊 Comparison:" ++ nl
      ++ "  " ++ name ++ " is " ++ NumberToString eng (tempDiff weather1 weather2)
      ++ "°C warmer").

(** The [try] block of the CallTool handler: the API-key guard, then the
    [switch] on the tool name. *)
Definition weather_handler (name : string) (args : list (string * JsVal))
  : M Envelope :=
  if WEATHER_API_KEY =? "" then ret (success api_key_message)
  else if name =? "get_current_weather" then
    weather <- fetchWeather (lookup "city" args) ;;
    result <- lift (current_weather_text weather) ;;
    ret (success result)
  else if name =? "get_weather_forecast" then
    let days := if truthy (lookup "days" args) then lookup "days" args
                else JNum (num_of_Z 3) in
    forecast <- fetchForecast (lookup "city" args) days ;;
    days_text <- lift (ToString eng days) ;;
    fcity <- get forecast ["city"] ;;
    fcity <- lift (ToString eng fcity) ;;
    fcountry <- get forecast ["country"] ;;
    fcountry <- lift (ToString eng fcountry) ;;
    let result := days_text ++ "-Day Weather Forecast for "
                  ++ fcity ++ ", " ++ fcountry ++ ":"
                  ++ nl ++ rule ++ nl ++ nl in
    list <- get forecast ["forecast"] ;;
    items <- lift (array_receiver eng list "forEach") ;;
    result <- forEach_day 0 items result ;;
    ret (success result)
  else if name =? "compare_weather" then
    both <- Promise_all2 (second_rejects_first net)
              (fetchWeather (lookup "city1" args))
              (fetchWeather (lookup "city2" args)) ;;
    result <- lift (comparison_text (fst both) (snd both)) ;;
    ret (success result)
  else throw (ErrorObj ("Unknown tool: " ++ name)).

(** The CallTool request handler of the weather server. The arguments
    guard stands before the [try] block. *)
Definition weather_CallTool (request : CallToolRequest)
  : list HttpRequest * Outcome :=
  match arguments request with
  | None => ([], Rejected (ErrorObj "Arguments are required for this tool"))
  | Some args =>
      match try_catch (weather_handler (name request) args) [] with
      | (log, Ok env) => (log, Returned env)
      | (log, Throw error) => (log, Rejected error)
      end
  end.

End WeatherServer.

(** ** The GitHub-diff server *)

(** The tools the GitHub-diff server lists. *)
Definition git_tools : JsVal :=
  JObj [("tools", JArr [
    JObj [("name", JStr "git_changes_between_versions");
          ("description", JStr "Get GitHub commit changes between two versions or tags of a repository");
          ("inputSchema", JObj [
             ("type", JStr "object");
             ("properties", JObj [
                ("repo", JObj [
                   ("type", JStr "string");
                   ("description", JStr "Repository in owner/repo format")]);
                ("fromVersion", JObj [
                   ("type", JStr "string");
                   ("description", JStr "Older/base version or tag")]);
                ("toVersion", JObj [
                   ("type", JStr "string");
                   ("description", JStr "Newer/target version or tag")])]);
             ("required", JArr [JStr "repo"; JStr "fromVersion"; JStr "toVersion"])])]])].

Section GitServer.

Variable eng : Engine.
Variable env : ProcessEnv.
Variable net : GitNet.

(** [axios.get(url, { headers })]: the request is logged; the result is
    [response.data], or the rejection. *)
Definition axios_get (u : string) (hs : list (string * string)) : M JsVal :=
  fun log =>
    let request := {| url := u; headers := hs |} in
    ((log ++ [request])%list, axios_outcome net (List.length log) request).

(** The compare address, for the texts of the four interpolated values. *)
Definition compare_url (owner repoName fromVersion toVersion : string)
  : string :=
  "https://api.github.com/repos/" ++ owner ++ "/" ++ repoName ++ "/compare/"
  ++ fromVersion ++ "..." ++ toVersion.

Definition git_headers : list (string * string) :=
  [("Authorization",
    "Bearer " ++ match GITHUB_TOKEN env with
                 | Some token => token
                 | None => "undefined"
                 end);
   ("Accept", "application/vnd.github+json")].

(** The [filter] callback: [!c.commit.message.startsWith("Merge")]. *)
Definition is_not_merge (c : JsVal) : M bool :=
  message <- lift (getPath eng c ["commit"; "message"]) ;;
  m <- lift (string_receiver eng message "startsWith") ;;
  ret (negb (startsWith m "Merge")).

(** The [map] callback: the summary of one commit. *)
Definition summary (c : JsVal) : M JsVal :=
  sha <- lift (getPath eng c ["sha"]) ;;
  s <- lift (string_receiver eng sha "substring") ;;
  author <- lift (getPath eng c ["commit"; "author"; "name"]) ;;
  message <- lift (getPath eng c ["commit"; "message"]) ;;
  m <- lift (string_receiver eng message "split") ;;
  html_url <- lift (getPath eng c ["html_url"]) ;;
  ret (JObj [("sha", JStr (substring_units 7 s));
             ("author", author);
             ("message", JStr (hd "" (split (ascii_of_nat 10) m)));
             ("url", html_url)]).

(** [response.data.commits.filter(...).map(...)]. *)
Definition list_commits (data : JsVal) : M (list JsVal) :=
  list <- lift (getPath eng data ["commits"]) ;;
  items <- lift (array_receiver eng list "filter") ;;
  kept <- filterM is_not_merge items ;;
  mapM summary kept.

(** The object that the handler serialises. *)
Definition response_document (repo fromVersion toVersion : JsVal)
  (commits : list JsVal) : JsVal :=
  JObj [("repository", repo);
        ("fromVersion", fromVersion);
        ("toVersion", toVersion);
        ("totalCommits", JNum (num_of_Z (Z.of_nat (List.length commits))));
        ("commits", JArr commits)].

(** The [try] block of the CallTool handler up to the object it
    serialises; [repo], [fromVersion] and [toVersion] are destructured
    from the arguments before it. *)
Definition git_document (args : list (string * JsVal)) : M JsVal :=
  let repo := lookup "repo" args in
  let fromVersion := lookup "fromVersion" args in
  let toVersion := lookup "toVersion" args in
  r <- lift (string_receiver eng repo "split") ;;
  let parts := split "/" r in
  let owner := match nth_error parts 0 with
               | Some p => JStr p
               | None => JUndefined
               end in
  let repoName := match nth_error parts 1 with
                  | Some p => JStr p
                  | None => JUndefined
                  end in
  if negb (truthy owner) || negb (truthy repoName) then
    throw (ErrorObj "Invalid repo format. Use owner/repo")
  else
    o <- lift (ToString eng owner) ;;
    n <- lift (ToString eng repoName) ;;
    f <- lift (ToString eng fromVersion) ;;
    t <- lift (ToString eng toVersion) ;;
    data <- axios_get (compare_url o n f t) git_headers ;;
    commits <- list_commits data ;;
    ret (response_document repo fromVersion toVersion commits).

Definition git_handler (args : list (string * JsVal)) : M Envelope :=
  document <- git_document args ;;
  ret (success (JSON_stringify eng document)).

(** The CallTool request handler of the GitHub-diff server; the tool name
    of the request is not read. *)
Definition git_CallTool (request : CallToolRequest)
  : list HttpRequest * Outcome :=
  match arguments request with
  | None => ([], Rejected (ErrorObj "Arguments are required for this tool"))
  | Some args =>
      match try_catch (git_handler args) [] with
      | (log, Ok env) => (log, Returned env)
      | (log, Throw error) => (log, Rejected error)
      end
  end.

End GitServer.

(** ** Reading the tool listings *)

(** The names of the tools of a listing. *)
Definition tool_names (listing : JsVal) : list string :=
  match listing with
  | JObj props =>
      match lookup "tools" props with
      | JArr tools =>
          flat_map (fun tool => match tool with
                                | JObj p => match lookup "name" p with
                                            | JStr n => [n]
                                            | _ => []
                                            end
                                | _ => []
                                end) tools
      | _ => []
      end
  | _ => []
  end.

(** The fields a listing marks as required for the tool [tool_name]. *)
Definition required_fields (listing : JsVal) (tool_name : string) : list string :=
  match listing with
  | JObj props =>
      match lookup "tools" props with
      | JArr tools =>
          flat_map (fun tool =>
            match tool with
            | JObj p =>
                if strict_equals_string (lookup "name" p) tool_name then
                  match lookup "inputSchema" p with
                  | JObj schema =>
                      match lookup "required" schema with
                      | JArr fields =>
                          flat_map (fun f => match f with
                                             | JStr s => [s]
                                             | _ => []
                                             end) fields
                      | _ => []
                      end
                  | _ => []
                  end
                else []
            | _ => []
            end) tools
      | _ => []
      end
  | _ => []
  end.

(** A field is omitted when the arguments object has no such property. *)
Definition omits (args : list (string * JsVal)) (field : string) : Prop :=
  ~ In field (map fst args).

(** ** Shapes of outcomes *)

Definition GET (u : string) : HttpRequest := {| url := u; headers := [] |}.

(** The handler answered with an envelope flagged as an error. *)
Definition is_error_envelope (o : Outcome) : Prop :=
  exists env, o = Returned env /\ isError env = Some true.

(** No outbound request, and an error envelope whose text names [field]. *)
Definition reports_missing_field (field : string)
  (r : list HttpRequest * Outcome) : Prop :=
  fst r = [] /\
  exists t, snd r = Returned {| content := [text_block t]; isError := Some true |}
            /\ contains t field = true.

(** A computation that issues no outbound request. *)
Definition silent {A : Type} (m : M A) : Prop :=
  forall log, fst (m log) = log.

(** A computation that appends exactly [requests] to the log, whether it
    throws or not. *)
Definition issues {A : Type} (m : M A) (requests : list HttpRequest) : Prop :=
  forall log, fst (m log) = (log ++ requests)%list.

(** ** Shapes used by the further properties *)

(** The date of a day summary built by [fetchForecast]. *)
Definition entry_date (d : JsVal) : option string :=
  match d with
  | JObj props =>
      match lookup "date" props with
      | JStr s => Some s
      | _ => None
      end
  | _ => None
  end.

(** Day summaries: each carries a string date, and no date occurs twice. *)
Definition distinct_days (entries : list JsVal) : Prop :=
  exists dates, map entry_date entries = map Some dates /\ NoDup dates.

(** The owner and the repository name that the GitHub-diff handler takes
    from [repo]: the first two parts between slashes, both non-empty. *)
Definition repo_parts (r : string) : option (string * string) :=
  match split "/" r with
  | owner :: repoName :: _ =>
      if (owner =? "") || (repoName =? "") then None
      else Some (owner, repoName)
  | _ => None
  end.

(** A commit of a compare document as the upstream sends it. *)
Definition upstream_commit (sha author message html_url : string) : JsVal :=
  JObj [("sha", JStr sha);
        ("commit", JObj [("author", JObj [("name", JStr author)]);
                         ("message", JStr message)]);
        ("html_url", JStr html_url)].

(** What the upstream says of one commit. *)
Record CommitInfo : Type := {
  commit_sha : string;
  commit_author : string;
  commit_message : string;
  commit_url : string
}.

Definition upstream_commit_of (c : CommitInfo) : JsVal :=
  upstream_commit (commit_sha c) (commit_author c) (commit_message c)
                  (commit_url c).

(** The summary the handler lists for one commit. *)
Definition summary_of (c : CommitInfo) : JsVal :=
  JObj [("sha", JStr (substring_units 7 (commit_sha c)));
        ("author", JStr (commit_author c));
        ("message", JStr (hd "" (split (ascii_of_nat 10) (commit_message c))));
        ("url", JStr (commit_url c))].

Definition is_merge (c : CommitInfo) : bool :=
  startsWith (commit_message c) "Merge".

(** A string without the character [sep]. *)
Definition free_of (sep : ascii) (s : string) : Prop :=
  ~ In sep (list_ascii_of_string s).

(** What the upstream says of one three-hour slot of a forecast. *)
Record ForecastItem : Type := {
  item_dt_txt : string;
  item_temp_min : JsVal;
  item_temp_max : JsVal;
  item_condition : JsVal;
  item_description : JsVal
}.

Definition upstream_item (i : ForecastItem) : JsVal :=
  JObj [("dt_txt", JStr (item_dt_txt i));
        ("main", JObj [("temp_min", item_temp_min i);
                       ("temp_max", item_temp_max i)]);
        ("weather", JArr [JObj [("main", item_condition i);
                                ("description", item_description i)]])].

(** The date of a slot: its [dt_txt] up to the first blank. *)
Definition item_date (i : ForecastItem) : string :=
  hd "" (split " " (item_dt_txt i)).

(** The day summary made of one slot. *)
Definition day_of (i : ForecastItem) : JsVal :=
  JObj [("date", JStr (item_date i));
        ("temp_min", item_temp_min i);
        ("temp_max", item_temp_max i);
        ("condition", item_condition i);
        ("description", item_description i)].

(** The slots that open a date not among [seen], in order. *)
Fixpoint first_per_date (seen : list string) (items : list ForecastItem)
  : list ForecastItem :=
  match items with
  | [] => []
  | i :: rest =>
      if existsb (fun s => s =? item_date i) seen
      then first_per_date seen rest
      else i :: first_per_date (seen ++ [item_date i]) rest
  end.


(** A string of ASCII characters. *)
Definition is_ascii (s : string) : Prop :=
  Forall (fun c => (N_of_ascii c < 128)%N) (list_ascii_of_string s).

(** The two numbers are comparable and different. *)
Definition different_numbers (a b : JsNumber) : Prop :=
  SFcompare a b = Some Lt \/ SFcompare a b = Some Gt.

(** A number that is neither NaN nor infinite. *)
Definition is_finite_number (n : JsNumber) : bool :=
  match n with
  | S754_zero _ | S754_finite _ _ _ => true
  | _ => false
  end.

(** ** Sample engine, environments and upstreams *)

(** An engine to run the examples on; its error texts follow V8, it reads
    no string as a number and prints the numbers left to it as a question
    mark. The theorems hold for every engine. *)
Definition sample_engine : Engine := {|
  type_error_message := fun v k =>
    match v with
    | JUndefined => "Cannot read properties of undefined (reading '" ++ k ++ "')"
    | JNull => "Cannot read properties of null (reading '" ++ k ++ "')"
    | _ => k ++ " is not a function"
    end;
  primitive_error_message := "Cannot convert object to primitive value";
  uri_error_message := "URI malformed";
  string_to_number := fun _ => S754_nan;
  number_to_string := fun _ => "?"
|}.

Definition env_with_key : ProcessEnv :=
  {| OPENWEATHER_API_KEY := Some "k"; GITHUB_TOKEN := Some "t" |}.

Definition env_without_key : ProcessEnv :=
  {| OPENWEATHER_API_KEY := None; GITHUB_TOKEN := None |}.

(** The number [n / d]. *)
Definition ratio (n d : Z) : JsNumber := num_div (num_of_Z n) (num_of_Z d).

(** A current-weather document as the upstream sends it. *)
Definition upstream_weather (name ctry : string)
  (temp feels hum speed : JsNumber) (cond desc : string) : JsVal :=
  JObj [("main", JObj [("temp", JNum temp);
                       ("feels_like", JNum feels);
                       ("humidity", JNum hum)]);
        ("weather", JArr [JObj [("main", JStr cond);
                                ("description", JStr desc)]]);
        ("wind", JObj [("speed", JNum speed)]);
        ("name", JStr name);
        ("sys", JObj [("country", JStr ctry)])].

Definition ok_response (data : JsVal) : Response :=
  {| ok := true; status := 200; statusText := "OK"; json := Ok data |}.

Definition not_found_response : Response :=
  {| ok := false; status := 404; statusText := "Not Found";
     json := Ok (JObj [("cod", JStr "404"); ("message", JStr "city not found")]) |}.

(** Every fetch is answered with 404. *)
Definition net_not_found : WeatherNet :=
  {| fetch_outcome := fun _ _ => Ok not_found_response;
     second_rejects_first := false |}.

Definition document_A : JsVal :=
  upstream_weather "A" "XX" (num_of_Z 10) (num_of_Z 9) (num_of_Z 40)
                   (ratio 5 4) "Clouds" "few clouds".

Definition document_B : JsVal :=
  upstream_weather "B" "YY" (num_of_Z 15) (num_of_Z 14) (num_of_Z 50)
                   (num_of_Z 2) "Clear" "clear sky".

(** The first fetch is answered with city A at 10 degrees, every later
    one with city B at 15 degrees. *)
Definition net_A10_B15 : WeatherNet :=
  {| fetch_outcome := fun n _ =>
       Ok (ok_response (if Nat.eqb n 0 then document_A else document_B));
     second_rejects_first := false |}.

Definition git_net_rejects : GitNet :=
  {| axios_outcome := fun _ _ =>
       Throw (ErrorObj "Request failed with status code 404") |}.

Definition git_net_two_commits : GitNet :=
  {| axios_outcome := fun _ _ =>
       Ok (JObj [("commits", JArr [
             upstream_commit "0123456789abcdef" "Al" "Fix the parser" "https://github.com/o/r/commit/0123456789abcdef";
             upstream_commit "fedcba9876543210" "Bo" "Merge branch 'main'" "https://github.com/o/r/commit/fedcba9876543210"])]) |}.

(** Every fetch is answered with a city at 12.4 degrees (12 when rounded)
    or at 11.9 degrees (12 as well): the first with city A, every later one
    with city B. *)
Definition net_equal_temperatures : WeatherNet :=
  {| fetch_outcome := fun n _ =>
       Ok (ok_response
             (if Nat.eqb n 0
              then upstream_weather "A" "XX" (ratio 124 10) (num_of_Z 11)
                     (num_of_Z 40) (num_of_Z 1) "Clouds" "few clouds"
              else upstream_weather "B" "YY" (ratio 119 10) (num_of_Z 12)
                     (num_of_Z 50) (num_of_Z 2) "Clear" "clear sky"));
     second_rejects_first := false |}.

(** Every fetch is answered with a city whose temperature is the number
    that JSON text such as 1e999 is read as: +Infinity. *)
Definition net_infinite_temperatures : WeatherNet :=
  {| fetch_outcome := fun n _ =>
       Ok (ok_response
             (if Nat.eqb n 0
              then upstream_weather "A" "XX" (S754_infinity false) (num_of_Z 11)
                     (num_of_Z 40) (num_of_Z 1) "Clouds" "few clouds"
              else upstream_weather "B" "YY" (S754_infinity false) (num_of_Z 12)
                     (num_of_Z 50) (num_of_Z 2) "Clear" "clear sky"));
     second_rejects_first := false |}.

(** The first fetch is answered with 404, every later one with city B at 15
    degrees. *)
Definition net_first_not_found : WeatherNet :=
  {| fetch_outcome := fun n _ =>
       Ok (if Nat.eqb n 0 then not_found_response else ok_response document_B);
     second_rejects_first := false |}.

(** Every fetch fails in the network layer. *)
Definition net_unreachable : WeatherNet :=
  {| fetch_outcome := fun _ _ => Throw (ErrorObj "fetch failed");
     second_rejects_first := false |}.

(** Every fetch is answered with 200 and an empty JSON object. *)
Definition net_empty_document : WeatherNet :=
  {| fetch_outcome := fun _ _ => Ok (ok_response (JObj []));
     second_rejects_first := false |}.

(** Every fetch is rejected with a value that is not an [Error]. *)
Definition net_throws_non_error : WeatherNet :=
  {| fetch_outcome := fun _ _ => Throw NonError;
     second_rejects_first := false |}.

Definition sample_slot (dt : string) (lo hi : JsNumber) : ForecastItem :=
  {| item_dt_txt := dt;
     item_temp_min := JNum lo;
     item_temp_max := JNum hi;
     item_condition := JStr "Rain";
     item_description := JStr "light rain" |}.

Definition sample_slots : list ForecastItem :=
  [sample_slot "2024-01-01 00:00:00" (num_of_Z 1) (ratio 5 2);
   sample_slot "2024-01-01 03:00:00" (num_of_Z 2) (num_of_Z 3);
   sample_slot "2024-01-02 00:00:00" (ratio (-7) 2) (num_of_Z 3);
   sample_slot "2024-01-03 00:00:00" (num_of_Z 0) (num_of_Z 1)].

(** Every fetch is answered with a forecast of four slots over three
    dates, for Paris. *)
Definition net_forecast : WeatherNet :=
  {| fetch_outcome := fun _ _ =>
       Ok (ok_response
             (JObj [("list", JArr (map upstream_item sample_slots));
                    ("city", JObj [("name", JStr "Paris");
                                   ("country", JStr "FR")])]));
     second_rejects_first := false |}.

(** Every fetch is answered with a forecast without any slot. *)
Definition net_empty_forecast : WeatherNet :=
  {| fetch_outcome := fun _ _ =>
       Ok (ok_response
             (JObj [("list", JArr []);
                    ("city", JObj [("name", JStr "Paris");
                                   ("country", JStr "FR")])]));
     second_rejects_first := false |}.

(** Every fetch is answered with a current-weather document whose
    containers are there and whose leaves are all missing. *)
Definition net_no_leaves : WeatherNet :=
  {| fetch_outcome := fun _ _ =>
       Ok (ok_response
             (JObj [("main", JObj []); ("weather", JArr [JObj []]);
                    ("wind", JObj []); ("sys", JObj [])]));
     second_rejects_first := false |}.

Definition sample_commits : list CommitInfo :=
  [{| commit_sha := "0123456789abcdef"; commit_author := "Al";
      commit_message := "Fix the parser" ++ nl ++ nl ++ "Details follow.";
      commit_url := "https://github.com/o/r/commit/0123456789abcdef" |};
   {| commit_sha := "fedcba9876543210"; commit_author := "Bo";
      commit_message := "Merge branch 'main'";
      commit_url := "https://github.com/o/r/commit/fedcba9876543210" |};
   {| commit_sha := "abc"; commit_author := "Cy";
      commit_message := "merge the two tables";
      commit_url := "https://github.com/o/r/commit/abc" |}].

Definition git_net_three_commits : GitNet :=
  {| axios_outcome := fun _ _ =>
       Ok (JObj [("commits", JArr (map upstream_commit_of sample_commits))]) |}.

Definition sample_weather (name : string) (temp : Z) : WeatherData :=
  {| temperature := num_of_Z temp; feels_like := num_of_Z temp;
     condition := JStr "Clear"; description := JStr "clear sky";
     humidity := JNum (num_of_Z 50); wind_speed := num_of_Z 7;
     city := JStr name; country := JStr "XX" |}.

(** An object that cannot be converted to a string or to a number: the
    value of the JSON text that has the one property toString, set to 1. *)
Definition unprintable : JsVal := JObj [("toString", JNum (num_of_Z 1))].

(** A string that is one unpaired surrogate, U+D800. *)
Definition lone_surrogate : string :=
  String (ascii_of_nat 237) (String (ascii_of_nat 160) (String (ascii_of_nat 128) "")).

(** ** Requests of a fetch *)

(** The request that [fetchWeather] issues for a city: none when the city
    cannot be converted and encoded. *)
Definition weather_requests (eng : Engine) (env : ProcessEnv) (c : JsVal)
  : list HttpRequest :=
  match encode_value eng c with
  | Ok q => [GET (weather_url env q)]
  | Throw _ => []
  end.

(** The request that [fetchForecast] issues: none when the city cannot be
    converted and encoded or the days cannot be converted to a number. *)
Definition forecast_requests (eng : Engine) (env : ProcessEnv) (c days : JsVal)
  : list HttpRequest :=
  match encode_value eng c, ToNumber eng days with
  | Ok q, Ok n =>
      [GET (forecast_url env q (NumberToString eng (num_mul n (num_of_Z 8))))]
  | _, _ => []
  end.

(** The outcome is a success envelope whose text ends with the line that
    names [name] as warmer by 0 degrees. *)
Definition names_warmer_by_zero (name : string) (o : Outcome) : Prop :=
  exists prefix,
    o = Returned (success (prefix ++ "  " ++ name ++ " is 0°C warmer")).

(** The log holds the two requests of a comparison. *)
Definition issues_two_fetches (r : list HttpRequest * Outcome) : Prop :=
  exists u1 u2, fst r = [GET u1; GET u2].

(** * Properties *)

Section Properties.

Variable eng : Engine.

(** ** The catch boundary *)

Lemma try_catch_never_throws (body : M Envelope) (log : list HttpRequest) :
  exists log' env, try_catch body log = (log', Ok env).
Proof.
  unfold try_catch. destruct (body log) as [log' [env | error]]; eauto.
Qed.

(** With an arguments object the weather handler answers with the envelope
    of its [try] block, or with the envelope of its [catch] block. *)
Lemma weather_CallTool_with_args env net tool args :
  weather_CallTool eng env net {| name := tool; arguments := Some args |} =
  let r := weather_handler eng env net tool args [] in
  (fst r, Returned match snd r with
                   | Ok e => e
                   | Throw error => failure error
                   end).
Proof.
  unfold weather_CallTool, try_catch. simpl.
  destruct (weather_handler eng env net tool args []) as [log [e | error]];
    reflexivity.
Qed.

Lemma git_CallTool_with_args env net tool args :
  git_CallTool eng env net {| name := tool; arguments := Some args |} =
  let r := git_handler eng env net args [] in
  (fst r, Returned match snd r with
                   | Ok e => e
                   | Throw error => failure error
                   end).
Proof.
  unfold git_CallTool, try_catch. simpl.
  destruct (git_handler eng env net args []) as [log [e | error]];
    reflexivity.
Qed.

(** The GitHub-diff handler never reads the tool name. *)
Lemma git_CallTool_ignores_name env net tool tool' args :
  git_CallTool eng env net {| name := tool; arguments := args |} =
  git_CallTool eng env net {| name := tool'; arguments := args |}.
Proof. reflexivity. Qed.

(** C1. In both servers, when the handler body of a CallTool invocation
    that carries an arguments object fails with some thrown value, the
    invocation still returns an envelope: exactly one text block reading
    "Error: " followed by the failure message, with isError = true. With an
    arguments object present no invocation is ever rejected towards the
    protocol library. *)
Theorem handler_failure_becomes_error_envelope :
  forall env wnet gnet tool args,
    (forall log error,
        weather_handler eng env wnet tool args [] = (log, Throw error) ->
        weather_CallTool eng env wnet {| name := tool; arguments := Some args |} =
        (log, Returned {| content := [{| type := "text";
                                         text := "Error: " ++ errorMessage error |}];
                          isError := Some true |}))
    /\ (forall log error,
        git_handler eng env gnet args [] = (log, Throw error) ->
        git_CallTool eng env gnet {| name := tool; arguments := Some args |} =
        (log, Returned {| content := [{| type := "text";
                                         text := "Error: " ++ errorMessage error |}];
                          isError := Some true |}))
    /\ (exists log e,
        weather_CallTool eng env wnet {| name := tool; arguments := Some args |} =
        (log, Returned e))
    /\ (exists log e,
        git_CallTool eng env gnet {| name := tool; arguments := Some args |} =
        (log, Returned e)).
Proof.
  intros env wnet gnet tool args. repeat split.
  - intros log error H. rewrite weather_CallTool_with_args, H. reflexivity.
  - intros log error H. rewrite git_CallTool_with_args, H. reflexivity.
  - rewrite weather_CallTool_with_args. eauto.
  - rewrite git_CallTool_with_args. eauto.
Qed.

(** C2 (as amended). In both servers a CallTool invocation without an
    arguments object is rejected before any handler logic runs: the
    handler throws "Arguments are required for this tool" outside its
    catch boundary, so no envelope is built and no outbound request is
    issued. *)
Theorem missing_arguments_are_rejected :
  forall env wnet gnet tool,
    weather_CallTool eng env wnet {| name := tool; arguments := None |} =
    ([], Rejected (ErrorObj "Arguments are required for this tool"))
    /\ git_CallTool eng env gnet {| name := tool; arguments := None |} =
       ([], Rejected (ErrorObj "Arguments are required for this tool")).
Proof. intros. split; reflexivity. Qed.

Lemma not_in_cons {A : Type} (x y : A) (l : list A) :
  ~ In x (y :: l) -> y <> x /\ ~ In x l.
Proof. simpl. intros H. split; intro; apply H; auto. Qed.

Lemma eqb_neq_sym (a b : string) : b <> a -> (a =? b) = false.
Proof. intros H. apply String.eqb_neq. congruence. Qed.

(** C4 (as amended). In the weather server, when the API key is not
    empty, a CallTool invocation that carries an arguments object and names
    a tool outside the catalog returns the envelope with the single text
    "Error: Unknown tool: <name>" and isError = true, and no outbound
    request is issued. *)
Theorem unknown_tool_is_reported :
  forall env net tool args,
    WEATHER_API_KEY env <> "" ->
    ~ In tool (tool_names weather_tools) ->
    weather_CallTool eng env net {| name := tool; arguments := Some args |} =
    ([], Returned {| content := [{| type := "text";
                                    text := "Error: Unknown tool: " ++ tool |}];
                     isError := Some true |}).
Proof.
  intros env net tool args Hkey Hout.
  change (tool_names weather_tools)
    with ["get_current_weather"; "get_weather_forecast"; "compare_weather"]
    in Hout.
  apply not_in_cons in Hout as [H1 Hout].
  apply not_in_cons in Hout as [H2 Hout].
  apply not_in_cons in Hout as [H3 _].
  rewrite weather_CallTool_with_args. unfold weather_handler.
  apply String.eqb_neq in Hkey. rewrite Hkey.
  rewrite !eqb_neq_sym by assumption.
  reflexivity.
Qed.

(** C7. When OPENWEATHER_API_KEY is unset or empty, get_current_weather
    called with a city argument returns the informational text that asks
    for an API key, with isError not set, and no outbound request is
    issued. *)
Theorem current_weather_without_key :
  forall env net args city,
    OPENWEATHER_API_KEY env = None \/ OPENWEATHER_API_KEY env = Some "" ->
    In ("city", city) args ->
    weather_CallTool eng env net
      {| name := "get_current_weather"; arguments := Some args |} =
    ([], Returned {| content := [{| type := "text";
                                    text := "Error: OPENWEATHER_API_KEY environment variable not set. Please get a free API key from https://openweathermap.org/api" |}];
                     isError := None |}).
Proof.
  intros env net args c Hkey _.
  rewrite weather_CallTool_with_args. unfold weather_handler, WEATHER_API_KEY.
  destruct Hkey as [-> | ->]; reflexivity.
Qed.


(** ** Which outbound requests a computation issues *)

Lemma silent_ret {A : Type} (a : A) : silent (ret a).
Proof. intro log. reflexivity. Qed.

Lemma silent_throw {A : Type} (e : Thrown) : silent (@throw A e).
Proof. intro log. reflexivity. Qed.

Lemma silent_lift {A : Type} (r : Result A) : silent (lift r).
Proof. intro log. reflexivity. Qed.

Lemma silent_bind {A B : Type} (m : M A) (k : A -> M B) :
  silent m -> (forall a, silent (k a)) -> silent (bind m k).
Proof.
  intros Hm Hk log. unfold bind. specialize (Hm log).
  destruct (m log) as [log' [a | e]]; simpl in *; subst.
  - apply Hk.
  - reflexivity.
Qed.

Lemma issues_then_silent {A B : Type} (m : M A) (k : A -> M B) requests :
  issues m requests -> (forall a, silent (k a)) -> issues (bind m k) requests.
Proof.
  intros Hm Hk log. unfold bind. specialize (Hm log).
  destruct (m log) as [log' [a | e]]; simpl in *; subst.
  - apply Hk.
  - reflexivity.
Qed.

Lemma silent_issues_nothing {A : Type} (m : M A) : silent m -> issues m [].
Proof. intros H log. rewrite app_nil_r. apply H. Qed.

(** A conversion that precedes the first request decides whether there is
    one. *)
Lemma lift_then_issues {A B : Type} (r : Result A) (k : A -> M B) requests :
  (forall a, r = Ok a -> issues (k a) (requests a)) ->
  issues (bind (lift r) k)
         match r with Ok a => requests a | Throw _ => [] end.
Proof.
  intros Hk log. unfold bind, lift. destruct r as [a | e].
  - now apply Hk.
  - cbn. now rewrite app_nil_r.
Qed.

Ltac silence :=
  repeat first
    [ apply silent_ret
    | apply silent_throw
    | apply silent_lift
    | apply silent_bind; [ | intros ]
    | match goal with
      | |- silent (if ?b then _ else _) => destruct b
      end ].

Lemma silent_get base path : silent (get eng base path).
Proof. apply silent_lift. Qed.

Lemma silent_add_day acc item : silent (add_day eng acc item).
Proof. unfold add_day. silence; apply silent_get. Qed.

Lemma silent_reduce items :
  forall acc, silent (reduce eng acc items).
Proof.
  induction items as [| item rest IH]; intro acc; simpl.
  - apply silent_ret.
  - apply silent_bind; [apply silent_add_day | intro; apply IH].
Qed.

Lemma silent_forEach_day days :
  forall index result, silent (forEach_day eng index days result).
Proof.
  induction days as [| day rest IH]; intros index result; simpl.
  - apply silent_ret.
  - apply silent_bind; [ | intro; apply IH].
    unfold day_text. silence; apply silent_get.
Qed.

Lemma silent_filterM {A : Type} (p : A -> M bool) items :
  (forall x, silent (p x)) -> silent (filterM p items).
Proof.
  intro Hp. induction items as [| x rest IH]; simpl; silence; auto.
Qed.

Lemma silent_mapM {A B : Type} (f : A -> M B) items :
  (forall x, silent (f x)) -> silent (mapM f items).
Proof.
  intro Hf. induction items as [| x rest IH]; simpl; silence; auto.
Qed.

Lemma fetch_issues net u : issues (fetch net u) [GET u].
Proof. intro log. reflexivity. Qed.

Lemma fetchWeather_issues env net c :
  issues (fetchWeather eng env net c) (weather_requests eng env c).
Proof.
  unfold fetchWeather, weather_requests.
  apply (lift_then_issues (encode_value eng c) _
           (fun q => [GET (weather_url env q)])).
  intros q _.
  apply issues_then_silent; [apply fetch_issues | ].
  intro response. silence; apply silent_get.
Qed.

Lemma fetchForecast_issues env net c days :
  days <> JUndefined ->
  issues (fetchForecast eng env net c days) (forecast_requests eng env c days).
Proof.
  intro Hdays. unfold fetchForecast, forecast_requests.
  replace (match days with JUndefined => JNum (num_of_Z 5) | _ => days end)
    with days by (destruct days; congruence).
  apply (lift_then_issues (encode_value eng c) _
           (fun q => match ToNumber eng days with
                     | Ok n => [GET (forecast_url env q
                                       (NumberToString eng (num_mul n (num_of_Z 8))))]
                     | Throw _ => []
                     end)).
  intros q _.
  apply (lift_then_issues (ToNumber eng days) _
           (fun n => [GET (forecast_url env q
                             (NumberToString eng (num_mul n (num_of_Z 8))))])).
  intros n _.
  apply issues_then_silent; [apply fetch_issues | ].
  intro response. silence; try apply silent_get. apply silent_reduce.
Qed.

Lemma Promise_all2_issues {A : Type} b (p1 p2 : M A) r1 r2 :
  issues p1 r1 -> issues p2 r2 -> issues (Promise_all2 b p1 p2) (r1 ++ r2).
Proof.
  intros H1 H2 log. unfold Promise_all2. specialize (H1 log).
  destruct (p1 log) as [log1 res1]. specialize (H2 log1).
  destruct (p2 log1) as [log2 res2]. simpl in *. subst.
  now rewrite app_assoc.
Qed.

Lemma omitted_is_undefined args field :
  omits args field -> lookup field args = JUndefined.
Proof.
  unfold omits. induction args as [| [k v] rest IH]; simpl; intro H.
  - reflexivity.
  - destruct (String.eqb_spec k field) as [-> | Hne].
    + exfalso. apply H. now left.
    + apply IH. intro Hin. apply H. now right.
Qed.

(** The [days] that get_weather_forecast asks for. *)
Lemma forecast_days_defined args :
  (if truthy (lookup "days" args) then lookup "days" args
   else JNum (num_of_Z 3)) <> JUndefined.
Proof.
  destruct (truthy (lookup "days" args)) eqn:Ht; [ | discriminate].
  intro Hu. rewrite Hu in Ht. discriminate.
Qed.

Lemma weather_handler_current env net args :
  WEATHER_API_KEY env <> "" ->
  weather_handler eng env net "get_current_weather" args =
  (weather <- fetchWeather eng env net (lookup "city" args) ;;
   result <- lift (current_weather_text eng weather) ;;
   ret (success result)).
Proof.
  intro Hkey. unfold weather_handler.
  apply String.eqb_neq in Hkey. rewrite Hkey. reflexivity.
Qed.

Lemma weather_handler_forecast env net args :
  WEATHER_API_KEY env <> "" ->
  weather_handler eng env net "get_weather_forecast" args =
  (let days := if truthy (lookup "days" args) then lookup "days" args
               else JNum (num_of_Z 3) in
   forecast <- fetchForecast eng env net (lookup "city" args) days ;;
   days_text <- lift (ToString eng days) ;;
   fcity <- get eng forecast ["city"] ;;
   fcity <- lift (ToString eng fcity) ;;
   fcountry <- get eng forecast ["country"] ;;
   fcountry <- lift (ToString eng fcountry) ;;
   let result := days_text ++ "-Day Weather Forecast for "
                 ++ fcity ++ ", " ++ fcountry ++ ":"
                 ++ nl ++ rule ++ nl ++ nl in
   list <- get eng forecast ["forecast"] ;;
   items <- lift (array_receiver eng list "forEach") ;;
   result <- forEach_day eng 0 items result ;;
   ret (success result)).
Proof.
  intro Hkey. unfold weather_handler.
  apply String.eqb_neq in Hkey. rewrite Hkey. reflexivity.
Qed.

Lemma weather_handler_compare env net args :
  WEATHER_API_KEY env <> "" ->
  weather_handler eng env net "compare_weather" args =
  (both <- Promise_all2 (second_rejects_first net)
             (fetchWeather eng env net (lookup "city1" args))
             (fetchWeather eng env net (lookup "city2" args)) ;;
   result <- lift (comparison_text eng (fst both) (snd both)) ;;
   ret (success result)).
Proof.
  intro Hkey. unfold weather_handler.
  apply String.eqb_neq in Hkey. rewrite Hkey. reflexivity.
Qed.

Lemma weather_handler_current_issues env net args :
  WEATHER_API_KEY env <> "" ->
  issues (weather_handler eng env net "get_current_weather" args)
         (weather_requests eng env (lookup "city" args)).
Proof.
  intro Hkey. rewrite (weather_handler_current env net args Hkey).
  apply issues_then_silent; [apply fetchWeather_issues | ].
  intro w. silence.
Qed.

Lemma weather_handler_forecast_issues env net args :
  WEATHER_API_KEY env <> "" ->
  issues (weather_handler eng env net "get_weather_forecast" args)
         (forecast_requests eng env (lookup "city" args)
            (if truthy (lookup "days" args) then lookup "days" args
             else JNum (num_of_Z 3))).
Proof.
  intro Hkey. rewrite (weather_handler_forecast env net args Hkey). cbv zeta.
  apply issues_then_silent.
  - apply fetchForecast_issues, forecast_days_defined.
  - intro forecast. silence; try apply silent_get. apply silent_forEach_day.
Qed.

Lemma weather_handler_compare_issues env net args :
  WEATHER_API_KEY env <> "" ->
  issues (weather_handler eng env net "compare_weather" args)
         (weather_requests eng env (lookup "city1" args)
          ++ weather_requests eng env (lookup "city2" args)).
Proof.
  intro Hkey. rewrite (weather_handler_compare env net args Hkey).
  apply issues_then_silent; [ | intro; silence].
  apply Promise_all2_issues; apply fetchWeather_issues.
Qed.

Lemma truthy_nonempty s : s <> "" -> truthy (JStr s) = true.
Proof. intro H. simpl. apply String.eqb_neq in H. now rewrite H. Qed.

(** ** The requests of the GitHub-diff server *)

Lemma silent_list_commits data : silent (list_commits eng data).
Proof.
  unfold list_commits. silence.
  - apply silent_filterM. intro c. unfold is_not_merge. silence.
  - apply silent_mapM. intro c. unfold summary. silence.
Qed.

(** The run of [git_document] once [repo] has a usable owner and name. *)
Lemma git_document_with_repo env net args r owner repoName log :
  lookup "repo" args = JStr r ->
  repo_parts r = Some (owner, repoName) ->
  git_document eng env net args log =
  (f <- lift (ToString eng (lookup "fromVersion" args)) ;;
   t <- lift (ToString eng (lookup "toVersion" args)) ;;
   data <- axios_get net (compare_url owner repoName f t) (git_headers env) ;;
   commits <- list_commits eng data ;;
   ret (response_document (JStr r) (lookup "fromVersion" args)
          (lookup "toVersion" args) commits)) log.
Proof.
  intros Hrepo Hparts. unfold git_document. rewrite Hrepo.
  unfold bind at 1. cbn [lift string_receiver]. unfold repo_parts in Hparts.
  destruct (split "/" r) as [| o [| n rest]]; try discriminate.
  cbn [nth_error truthy]. rewrite !negb_involutive.
  destruct (o =? ""); [discriminate | ].
  destruct (n =? ""); [discriminate | ].
  injection Hparts as -> ->. reflexivity.
Qed.

(** The run of [git_document] when [repo] is a string without a usable
    owner and name. *)
Lemma git_document_without_parts env net args r log :
  lookup "repo" args = JStr r ->
  repo_parts r = None ->
  git_document eng env net args log =
  (log, Throw (ErrorObj "Invalid repo format. Use owner/repo")).
Proof.
  intros Hrepo Hparts. unfold git_document.
  rewrite Hrepo. unfold bind at 1. cbn [lift string_receiver].
  unfold repo_parts in Hparts.
  destruct (split "/" r) as [| owner [| repoName rest]]; try reflexivity.
  - cbn [nth_error truthy negb orb]. destruct (owner =? ""); reflexivity.
  - cbn [nth_error truthy]. rewrite !negb_involutive.
    destruct (owner =? ""); [reflexivity | ].
    destruct (repoName =? ""); [reflexivity | discriminate Hparts].
Qed.

(** The requests of [git_document], read off the arguments. *)
Lemma git_document_log env net args :
  fst (git_document eng env net args []) =
  match lookup "repo" args with
  | JStr r =>
      match repo_parts r with
      | Some (owner, repoName) =>
          match ToString eng (lookup "fromVersion" args),
                ToString eng (lookup "toVersion" args) with
          | Ok f, Ok t =>
              [{| url := "https://api.github.com/repos/" ++ owner ++ "/"
                         ++ repoName ++ "/compare/" ++ f ++ "..." ++ t;
                  headers := git_headers env |}]
          | _, _ => []
          end
      | None => []
      end
  | _ => []
  end.
Proof.
  destruct (lookup "repo" args) as [| | b | n | r | items | props] eqn:Hrepo;
    try (unfold git_document; rewrite Hrepo; reflexivity).
  destruct (repo_parts r) as [[owner repoName] | ] eqn:Hparts.
  - rewrite (git_document_with_repo env net args r owner repoName []
               Hrepo Hparts).
    unfold bind at 1. cbn [lift].
    destruct (ToString eng (lookup "fromVersion" args)) as [f | e];
      [ | reflexivity].
    unfold bind at 1. cbn [lift].
    destruct (ToString eng (lookup "toVersion" args)) as [t | e];
      [ | reflexivity].
    exact (issues_then_silent
             (axios_get net (compare_url owner repoName f t) (git_headers env))
             _ [_]
             (fun log => eq_refl)
             (fun data => silent_bind _ _ (silent_list_commits data)
                            (fun commits => silent_ret _)) []).
  - now rewrite (git_document_without_parts env net args r [] Hrepo Hparts).
Qed.

Lemma git_CallTool_fst env net tool args :
  fst (git_CallTool eng env net {| name := tool; arguments := Some args |}) =
  fst (git_document eng env net args []).
Proof.
  rewrite git_CallTool_with_args. cbv zeta. cbn [fst].
  unfold git_handler, bind.
  destruct (git_document eng env net args []) as [log [d | e]]; reflexivity.
Qed.

(** ** Omitted required fields *)

Lemma fetchWeather_undefined env net :
  fetchWeather eng env net JUndefined = fetchWeather eng env net (JStr "undefined").
Proof. reflexivity. Qed.

Lemma fetchForecast_undefined env net days :
  fetchForecast eng env net JUndefined days =
  fetchForecast eng env net (JStr "undefined") days.
Proof. reflexivity. Qed.

Lemma weather_requests_undefined env :
  weather_requests eng env JUndefined =
  [GET ("https://api.openweathermap.org/data/2.5/weather?q=undefined&appid="
        ++ WEATHER_API_KEY env ++ "&units=metric")].
Proof. reflexivity. Qed.

(** C3 (as amended). Neither server checks that required fields are
    present: an omitted field reads as undefined and the handler goes on.
    In the weather server with a non-empty API key, a call of
    get_current_weather or get_weather_forecast without city, and a call of
    compare_weather without city1 or without city2, has exactly the
    requests and the outcome of the same call with the string "undefined"
    for that city; get_current_weather then issues the one request with
    q=undefined, and compare_weather issues the request with q=undefined
    first (city1 omitted) or last (city2 omitted). In the GitHub-diff
    server a call without repo returns an isError = true envelope carrying
    the engine's TypeError message for reading [split] of undefined, and
    issues no outbound request; with a usable repo, a call without
    fromVersion or toVersion whose other version can be converted to a
    string issues the one compare request, with "undefined" as the omitted
    version. *)
Theorem omitted_field_reads_as_undefined :
  forall env wnet gnet tool args,
    (WEATHER_API_KEY env <> "" ->
     (omits args "city" ->
      weather_CallTool eng env wnet
        {| name := "get_current_weather"; arguments := Some args |} =
      weather_CallTool eng env wnet
        {| name := "get_current_weather";
           arguments := Some (("city", JStr "undefined") :: args) |}
      /\ fst (weather_CallTool eng env wnet
                {| name := "get_current_weather"; arguments := Some args |}) =
         [GET ("https://api.openweathermap.org/data/2.5/weather?q=undefined&appid="
               ++ WEATHER_API_KEY env ++ "&units=metric")]
      /\ weather_CallTool eng env wnet
           {| name := "get_weather_forecast"; arguments := Some args |} =
         weather_CallTool eng env wnet
           {| name := "get_weather_forecast";
              arguments := Some (("city", JStr "undefined") :: args) |})
     /\ (omits args "city1" ->
         weather_CallTool eng env wnet
           {| name := "compare_weather"; arguments := Some args |} =
         weather_CallTool eng env wnet
           {| name := "compare_weather";
              arguments := Some (("city1", JStr "undefined") :: args) |}
         /\ exists rest,
           fst (weather_CallTool eng env wnet
                  {| name := "compare_weather"; arguments := Some args |}) =
           GET ("https://api.openweathermap.org/data/2.5/weather?q=undefined&appid="
                ++ WEATHER_API_KEY env ++ "&units=metric") :: rest)
     /\ (omits args "city2" ->
         weather_CallTool eng env wnet
           {| name := "compare_weather"; arguments := Some args |} =
         weather_CallTool eng env wnet
           {| name := "compare_weather";
              arguments := Some (("city2", JStr "undefined") :: args) |}
         /\ exists first,
           fst (weather_CallTool eng env wnet
                  {| name := "compare_weather"; arguments := Some args |}) =
           (first ++
            [GET ("https://api.openweathermap.org/data/2.5/weather?q=undefined&appid="
                  ++ WEATHER_API_KEY env ++ "&units=metric")])%list))
    /\ (omits args "repo" ->
        git_CallTool eng env gnet {| name := tool; arguments := Some args |} =
        ([], Returned {| content := [{| type := "text";
                                        text := "Error: " ++ type_error_message eng JUndefined "split" |}];
                         isError := Some true |}))
    /\ (forall r owner repoName,
        lookup "repo" args = JStr r ->
        repo_parts r = Some (owner, repoName) ->
        (omits args "fromVersion" ->
         forall t, ToString eng (lookup "toVersion" args) = Ok t ->
         fst (git_CallTool eng env gnet {| name := tool; arguments := Some args |}) =
         [{| url := "https://api.github.com/repos/" ++ owner ++ "/" ++ repoName
                    ++ "/compare/undefined..." ++ t;
             headers := git_headers env |}])
        /\ (omits args "toVersion" ->
            forall f, ToString eng (lookup "fromVersion" args) = Ok f ->
            fst (git_CallTool eng env gnet {| name := tool; arguments := Some args |}) =
            [{| url := "https://api.github.com/repos/" ++ owner ++ "/" ++ repoName
                       ++ "/compare/" ++ f ++ "...undefined";
                headers := git_headers env |}])).
Proof.
  intros env wnet gnet tool args. split; [ | split].
  - intro Hkey. split; [ | split].
    + intro Hom. apply omitted_is_undefined in Hom. split; [ | split].
      * rewrite !weather_CallTool_with_args.
        rewrite !(weather_handler_current env wnet _ Hkey).
        change (lookup "city" (("city", JStr "undefined") :: args))
          with (JStr "undefined").
        rewrite Hom, fetchWeather_undefined. reflexivity.
      * rewrite weather_CallTool_with_args. cbv zeta. cbn [fst].
        rewrite (weather_handler_current_issues env wnet args Hkey []).
        rewrite Hom. reflexivity.
      * rewrite !weather_CallTool_with_args.
        rewrite !(weather_handler_forecast env wnet _ Hkey).
        change (lookup "city" (("city", JStr "undefined") :: args))
          with (JStr "undefined").
        change (lookup "days" (("city", JStr "undefined") :: args))
          with (lookup "days" args).
        cbv zeta. rewrite Hom, fetchForecast_undefined. reflexivity.
    + intro Hom. apply omitted_is_undefined in Hom. split.
      * rewrite !weather_CallTool_with_args.
        rewrite !(weather_handler_compare env wnet _ Hkey).
        change (lookup "city1" (("city1", JStr "undefined") :: args))
          with (JStr "undefined").
        change (lookup "city2" (("city1", JStr "undefined") :: args))
          with (lookup "city2" args).
        rewrite Hom, fetchWeather_undefined. reflexivity.
      * rewrite weather_CallTool_with_args. cbv zeta. cbn [fst].
        rewrite (weather_handler_compare_issues env wnet args Hkey []).
        rewrite Hom, weather_requests_undefined. eexists. reflexivity.
    + intro Hom. apply omitted_is_undefined in Hom. split.
      * rewrite !weather_CallTool_with_args.
        rewrite !(weather_handler_compare env wnet _ Hkey).
        change (lookup "city2" (("city2", JStr "undefined") :: args))
          with (JStr "undefined").
        change (lookup "city1" (("city2", JStr "undefined") :: args))
          with (lookup "city1" args).
        rewrite Hom, fetchWeather_undefined. reflexivity.
      * rewrite weather_CallTool_with_args. cbv zeta. cbn [fst].
        rewrite (weather_handler_compare_issues env wnet args Hkey []).
        rewrite Hom, weather_requests_undefined. eexists. reflexivity.
  - intro Hom. apply omitted_is_undefined in Hom.
    rewrite git_CallTool_with_args. unfold git_handler, git_document.
    rewrite Hom. reflexivity.
  - intros r owner repoName Hrepo Hparts.
    split; intros Hom v Hv; apply omitted_is_undefined in Hom;
      rewrite git_CallTool_fst, git_document_log, Hrepo, Hparts, Hom, Hv;
      reflexivity.
Qed.

(** ** compare_weather *)

Lemma append_assoc (a b c : string) : (a ++ b) ++ c = a ++ b ++ c.
Proof. induction a as [| ch a IH]; simpl; [reflexivity | now rewrite IH]. Qed.

(** The run of the compare_weather branch, in terms of the runs of its two
    fetches. *)
Lemma compare_weather_run env net args :
  WEATHER_API_KEY env <> "" ->
  let p1 := fetchWeather eng env net (lookup "city1" args) [] in
  let p2 := fetchWeather eng env net (lookup "city2" args) (fst p1) in
  weather_handler eng env net "compare_weather" args [] =
  (fst p2,
   match snd p1, snd p2 with
   | Ok weather1, Ok weather2 =>
       match comparison_text eng weather1 weather2 with
       | Ok t => Ok (success t)
       | Throw e => Throw e
       end
   | Throw e, Ok _ => Throw e
   | Ok _, Throw e => Throw e
   | Throw e1, Throw e2 =>
       if Nat.eqb (List.length (fst p1)) 0 then Throw e1
       else if Nat.eqb (List.length (fst p2)) (List.length (fst p1))
            then Throw e2
            else Throw (if second_rejects_first net then e2 else e1)
   end).
Proof.
  intros Hkey p1 p2. subst p1 p2.
  rewrite (weather_handler_compare env net args Hkey).
  unfold bind, Promise_all2.
  destruct (fetchWeather eng env net (lookup "city1" args) []) as [log1 r1].
  cbn [fst snd].
  destruct (fetchWeather eng env net (lookup "city2" args) log1) as [log2 r2].
  cbn [fst snd List.length].
  destruct r1 as [w1 | e1], r2 as [w2 | e2]; try reflexivity.
  - unfold lift, ret. cbn [fst snd].
    destruct (comparison_text eng w1 w2); reflexivity.
  - destruct (Nat.eqb (List.length log1) 0); [reflexivity | ].
    destruct (Nat.eqb (List.length log2) (List.length log1)); reflexivity.
Qed.

(** What the invocation answers, in terms of the runs of its two fetches. *)
Lemma compare_weather_outcome env net args :
  WEATHER_API_KEY env <> "" ->
  let p1 := fetchWeather eng env net (lookup "city1" args) [] in
  let p2 := fetchWeather eng env net (lookup "city2" args) (fst p1) in
  snd (weather_CallTool eng env net
         {| name := "compare_weather"; arguments := Some args |}) =
  Returned
    match snd p1, snd p2 with
    | Ok weather1, Ok weather2 =>
        match comparison_text eng weather1 weather2 with
        | Ok t => success t
        | Throw e => failure e
        end
    | Throw e, Ok _ => failure e
    | Ok _, Throw e => failure e
    | Throw e1, Throw e2 =>
        if Nat.eqb (List.length (fst p1)) 0 then failure e1
        else if Nat.eqb (List.length (fst p2)) (List.length (fst p1))
             then failure e2
             else failure (if second_rejects_first net then e2 else e1)
    end.
Proof.
  intros Hkey p1 p2. rewrite weather_CallTool_with_args.
  rewrite (compare_weather_run env net args Hkey). cbv zeta. cbn [fst snd].
  fold p1. fold p2.
  destruct (snd p1) as [w1 | e1], (snd p2) as [w2 | e2]; try reflexivity.
  - destruct (comparison_text eng w1 w2); reflexivity.
  - destruct (Nat.eqb (List.length (fst p1)) 0); [reflexivity | ].
    destruct (Nat.eqb (List.length (fst p2)) (List.length (fst p1)));
      reflexivity.
Qed.

(** C8 (as amended). In compare_weather (API key set) the two fetches are
    started one after the other, city1's first, and neither waits for the
    outcome of the other: every city that can be converted to a string and
    encoded has its request issued, whatever happens to the other; a city
    that cannot gets no request. When both fetches succeed and the
    displayed fields convert to text, the envelope text reports the data
    fetched for city1 first and the data fetched for city2 second. When
    either fetch fails the invocation returns one error envelope (isError
    = true) carrying the message of a failed fetch. *)
Theorem compare_weather_joins_both_fetches :
  forall env net args,
    WEATHER_API_KEY env <> "" ->
    let city1 := lookup "city1" args in
    let city2 := lookup "city2" args in
    let p1 := fetchWeather eng env net city1 [] in
    let p2 := fetchWeather eng env net city2 (fst p1) in
    let r := weather_CallTool eng env net
               {| name := "compare_weather"; arguments := Some args |} in
    fst r = match encode_value eng city1, encode_value eng city2 with
            | Ok q1, Ok q2 =>
                [GET (WEATHER_API_BASE ++ "/weather?q=" ++ q1 ++ "&appid="
                      ++ WEATHER_API_KEY env ++ "&units=metric");
                 GET (WEATHER_API_BASE ++ "/weather?q=" ++ q2 ++ "&appid="
                      ++ WEATHER_API_KEY env ++ "&units=metric")]
            | Ok q1, Throw _ =>
                [GET (WEATHER_API_BASE ++ "/weather?q=" ++ q1 ++ "&appid="
                      ++ WEATHER_API_KEY env ++ "&units=metric")]
            | Throw _, Ok q2 =>
                [GET (WEATHER_API_BASE ++ "/weather?q=" ++ q2 ++ "&appid="
                      ++ WEATHER_API_KEY env ++ "&units=metric")]
            | Throw _, Throw _ => []
            end
    /\ (forall weather1 weather2 name1 ctry1 cond1 desc1 hum1
               name2 ctry2 cond2 desc2 hum2,
           snd p1 = Ok weather1 -> snd p2 = Ok weather2 ->
           ToString eng (city weather1) = Ok name1 ->
           ToString eng (country weather1) = Ok ctry1 ->
           ToString eng (condition weather1) = Ok cond1 ->
           ToString eng (description weather1) = Ok desc1 ->
           ToString eng (humidity weather1) = Ok hum1 ->
           ToString eng (city weather2) = Ok name2 ->
           ToString eng (country weather2) = Ok ctry2 ->
           ToString eng (condition weather2) = Ok cond2 ->
           ToString eng (description weather2) = Ok desc2 ->
           ToString eng (humidity weather2) = Ok hum2 ->
           snd r = Returned
             {| content :=
                  [{| type := "text";
                      text :=
                        "Weather Comparison:" ++ nl
                        ++ "━━━━━━━━━━━━━━━━━━━━━━━━━━━━━━━" ++ nl
                        ++ nl
                        ++ name1 ++ ", " ++ ctry1 ++ ":" ++ nl
                        ++ "  🌡️  " ++ NumberToString eng (temperature weather1)
                        ++ "°C (feels like "
                        ++ NumberToString eng (feels_like weather1) ++ "°C)" ++ nl
                        ++ "  ☁️  " ++ cond1 ++ " - " ++ desc1 ++ nl
                        ++ "  💧 " ++ hum1 ++ "% humidity" ++ nl
                        ++ nl
                        ++ name2 ++ ", " ++ ctry2 ++ ":" ++ nl
                        ++ "  🌡️  " ++ NumberToString eng (temperature weather2)
                        ++ "°C (feels like "
                        ++ NumberToString eng (feels_like weather2) ++ "°C)" ++ nl
                        ++ "  ☁️  " ++ cond2 ++ " - " ++ desc2 ++ nl
                        ++ "  💧 " ++ hum2 ++ "% humidity" ++ nl
                        ++ nl
                        ++ "📊 Comparison:" ++ nl
                        ++ "  "
                        ++ (if SFltb (temperature weather2) (temperature weather1)
                            then name1 else name2)
                        ++ " is "
                        ++ NumberToString eng
                             (SFabs (SFsub 53 1024 (temperature weather1)
                                       (temperature weather2)))
                        ++ "°C warmer" |}];
                isError := None |})
    /\ ((exists e, snd p1 = Throw e) \/ (exists e, snd p2 = Throw e) ->
        exists e, (snd p1 = Throw e \/ snd p2 = Throw e)
                  /\ snd r = Returned
                       {| content := [{| type := "text";
                                         text := "Error: " ++ errorMessage e |}];
                          isError := Some true |}).
Proof.
  intros env net args Hkey city1 city2 p1 p2 r.
  pose proof (compare_weather_outcome env net args Hkey) as Hr.
  cbv zeta in Hr. fold city1 city2 in Hr. fold p1 in Hr. fold p2 in Hr.
  fold r in Hr. split; [ | split].
  - subst r. rewrite weather_CallTool_with_args. cbv zeta. cbn [fst].
    rewrite (weather_handler_compare_issues env net args Hkey []).
    fold city1 city2. unfold weather_requests, weather_url.
    destruct (encode_value eng city1), (encode_value eng city2); reflexivity.
  - intros weather1 weather2 name1 ctry1 cond1 desc1 hum1
           name2 ctry2 cond2 desc2 hum2 H1 H2
           Hn1 Hk1 Hc1 Hd1 Hh1 Hn2 Hk2 Hc2 Hd2 Hh2.
    rewrite Hr, H1, H2. unfold comparison_text.
    rewrite Hn1, Hk1, Hc1, Hd1, Hh1, Hn2, Hk2, Hc2, Hd2, Hh2.
    cbn [bindR]. unfold warmer, num_gt, tempDiff, Math_abs, num_sub.
    destruct (SFltb (temperature weather2) (temperature weather1));
      [rewrite Hn1 | rewrite Hn2]; reflexivity.
  - intros [[e He] | [e He]]; rewrite Hr.
    + rewrite He. destruct (snd p2) as [w2 | e2].
      * exists e. split; [now left | reflexivity].
      * destruct (Nat.eqb (List.length (fst p1)) 0).
        { exists e. split; [now left | reflexivity]. }
        destruct (Nat.eqb (List.length (fst p2)) (List.length (fst p1))).
        { exists e2. split; [now right | reflexivity]. }
        destruct (second_rejects_first net).
        -- exists e2. split; [now right | reflexivity].
        -- exists e. split; [now left | reflexivity].
    + rewrite He. destruct (snd p1) as [w1 | e1].
      * exists e. split; [now right | reflexivity].
      * destruct (Nat.eqb (List.length (fst p1)) 0).
        { exists e1. split; [now left | reflexivity]. }
        destruct (Nat.eqb (List.length (fst p2)) (List.length (fst p1))).
        { exists e. split; [now right | reflexivity]. }
        destruct (second_rejects_first net).
        -- exists e. split; [now right | reflexivity].
        -- exists e1. split; [now left | reflexivity].
Qed.

(** ** Comparing and subtracting numbers *)

Lemma SFcompare_antisym (x y : JsNumber) :
  SFcompare y x = option_map CompOpp (SFcompare x y).
Proof.
  destruct x as [sx | sx | | sx mx ex], y as [sy | sy | | sy my ey];
    try reflexivity;
    try (destruct sx; reflexivity);
    try (destruct sy; reflexivity);
    try (destruct sx, sy; reflexivity).
  destruct sx, sy; try reflexivity; cbn [SFcompare option_map];
    rewrite (Z.compare_antisym ex ey);
    destruct (ex ?= ey)%Z; cbn [CompOpp]; try reflexivity;
    change (Pos.compare_cont Eq my mx) with (my ?= mx)%positive;
    change (Pos.compare_cont Eq mx my) with (mx ?= my)%positive;
    rewrite (Pos.compare_antisym mx my);
    now rewrite ?CompOpp_involutive.
Qed.

Lemma equal_is_not_greater (x y : JsNumber) :
  SFeqb x y = true -> num_gt x y = false.
Proof.
  unfold SFeqb, num_gt, SFltb. rewrite (SFcompare_antisym x y).
  destruct (SFcompare x y) as [[ | | ] | ]; simpl; congruence.
Qed.

Lemma shl_align_same m e : shl_align m e e = (m, e).
Proof. unfold shl_align. now rewrite Z.sub_diag. Qed.

(** The difference of two equal finite numbers is zero. *)
Lemma equal_finite_difference (x y : JsNumber) :
  SFeqb x y = true -> is_finite_number x = true ->
  Math_abs (num_sub x y) = S754_zero false.
Proof.
  unfold SFeqb, Math_abs, num_sub. intros H Hfin.
  destruct x as [sx | sx | | sx mx ex], y as [sy | sy | | sy my ey];
    cbn [SFcompare is_finite_number] in H, Hfin; try discriminate;
    try (destruct sx; simpl in H; discriminate);
    try (destruct sy; simpl in H; discriminate).
  - destruct sx, sy; reflexivity.
  - assert (Heq : sx = sy /\ ex = ey /\ mx = my).
    { destruct sx, sy; try discriminate;
        destruct (ex ?= ey)%Z eqn:He; try discriminate;
        apply Z.compare_eq in He;
        destruct (Pos.compare_cont Eq mx my) eqn:Hm; try discriminate;
        apply Pos.compare_eq in Hm; auto. }
    destruct Heq as (-> & -> & ->).
    cbn [SFsub]. rewrite Z.min_id, shl_align_same. cbn [fst].
    now rewrite Z.sub_diag.
Qed.

Lemma zero_text : NumberToString eng (S754_zero false) = "0".
Proof. reflexivity. Qed.

(** C9 (as amended). In compare_weather (API key set), when both fetches
    succeed, the two rounded temperatures are equal finite numbers and
    every displayed field of the two cities can be converted to text, the
    envelope is a success envelope whose comparison line names city2 as the
    warmer city with a difference of 0°C: city1 is chosen only when its
    temperature is strictly greater. *)
Theorem equal_temperatures_name_city2 :
  forall env net args weather1 weather2,
    WEATHER_API_KEY env <> "" ->
    let p1 := fetchWeather eng env net (lookup "city1" args) [] in
    snd p1 = Ok weather1 ->
    snd (fetchWeather eng env net (lookup "city2" args) (fst p1)) = Ok weather2 ->
    SFeqb (temperature weather1) (temperature weather2) = true ->
    is_finite_number (temperature weather1) = true ->
    (forall v,
        In v [city weather1; country weather1; condition weather1;
              description weather1; humidity weather1;
              city weather2; country weather2; condition weather2;
              description weather2; humidity weather2] ->
        exists s, ToString eng v = Ok s) ->
    warmer weather1 weather2 = city weather2
    /\ exists prefix name2,
      ToString eng (city weather2) = Ok name2
      /\ snd (weather_CallTool eng env net
                {| name := "compare_weather"; arguments := Some args |}) =
         Returned {| content := [{| type := "text";
                                    text := prefix ++ "📊 Comparison:" ++ nl ++ "  "
                                            ++ name2 ++ " is 0°C warmer" |}];
                     isError := None |}.
Proof.
  intros env net args weather1 weather2 Hkey p1 H1 H2 Heq Hfin Htext.
  assert (Hw : warmer weather1 weather2 = city weather2).
  { unfold warmer. now rewrite (equal_is_not_greater _ _ Heq). }
  split; [exact Hw | ].
  destruct (Htext (city weather1)) as [name1 Hn1]; [simpl; tauto | ].
  destruct (Htext (country weather1)) as [ctry1 Hk1]; [simpl; tauto | ].
  destruct (Htext (condition weather1)) as [cond1 Hc1]; [simpl; tauto | ].
  destruct (Htext (description weather1)) as [desc1 Hd1]; [simpl; tauto | ].
  destruct (Htext (humidity weather1)) as [hum1 Hh1]; [simpl; tauto | ].
  destruct (Htext (city weather2)) as [name2 Hn2]; [simpl; tauto | ].
  destruct (Htext (country weather2)) as [ctry2 Hk2]; [simpl; tauto | ].
  destruct (Htext (condition weather2)) as [cond2 Hc2]; [simpl; tauto | ].
  destruct (Htext (description weather2)) as [desc2 Hd2]; [simpl; tauto | ].
  destruct (Htext (humidity weather2)) as [hum2 Hh2]; [simpl; tauto | ].
  exists ("Weather Comparison:" ++ nl ++ rule ++ nl ++ nl
          ++ name1 ++ ", " ++ ctry1 ++ ":" ++ nl
          ++ "  🌡️  " ++ NumberToString eng (temperature weather1)
          ++ "°C (feels like " ++ NumberToString eng (feels_like weather1)
          ++ "°C)" ++ nl
          ++ "  ☁️  " ++ cond1 ++ " - " ++ desc1 ++ nl
          ++ "  💧 " ++ hum1 ++ "% humidity" ++ nl
          ++ nl
          ++ name2 ++ ", " ++ ctry2 ++ ":" ++ nl
          ++ "  🌡️  " ++ NumberToString eng (temperature weather2)
          ++ "°C (feels like " ++ NumberToString eng (feels_like weather2)
          ++ "°C)" ++ nl
          ++ "  ☁️  " ++ cond2 ++ " - " ++ desc2 ++ nl
          ++ "  💧 " ++ hum2 ++ "% humidity" ++ nl
          ++ nl), name2.
  split; [exact Hn2 | ].
  rewrite (compare_weather_outcome env net args Hkey). cbv zeta.
  fold p1. rewrite H1, H2. unfold comparison_text.
  rewrite Hn1, Hk1, Hc1, Hd1, Hh1, Hn2, Hk2, Hc2, Hd2, Hh2, Hw, Hn2.
  cbn [bindR]. unfold tempDiff.
  rewrite (equal_finite_difference _ _ Heq Hfin), zero_text.
  unfold success, text_block. do 4 f_equal.
  repeat rewrite append_assoc. reflexivity.
Qed.

(** What [fetchWeather] makes of a well-formed current-weather document. *)
Lemma fetchWeather_upstream env net c q log name ctry temp feels hum speed cond desc :
  encode_value eng c = Ok q ->
  fetch_outcome net (List.length log) (weather_url env q) =
    Ok (ok_response (upstream_weather name ctry temp feels hum speed cond desc)) ->
  fetchWeather eng env net c log =
  ((log ++ [GET (weather_url env q)])%list,
   Ok {| temperature := Math_round temp;
         feels_like := Math_round feels;
         condition := JStr cond;
         description := JStr desc;
         humidity := JNum hum;
         wind_speed := Math_round (num_mul speed three_point_six);
         city := JStr name;
         country := JStr ctry |}).
Proof.
  intros Hq H. unfold fetchWeather, bind, fetch, lift. rewrite Hq, H.
  reflexivity.
Qed.

(** C6. compare_weather called with city1 = "A" and city2 = "B" (API key
    set), the upstream reporting 10°C for the first city and 15°C for the
    second: the envelope is a success envelope whose comparison line names
    the second city, as the upstream calls it, as the warmer one, by 5°C. *)
Theorem compare_weather_10_15 :
  forall env net nameA ctryA feelsA humA speedA condA descA
         nameB ctryB feelsB humB speedB condB descB,
    WEATHER_API_KEY env <> "" ->
    fetch_outcome net 0 (weather_url env "A") =
      Ok (ok_response
            (upstream_weather nameA ctryA (num_of_Z 10) feelsA humA speedA
               condA descA)) ->
    fetch_outcome net 1 (weather_url env "B") =
      Ok (ok_response
            (upstream_weather nameB ctryB (num_of_Z 15) feelsB humB speedB
               condB descB)) ->
    exists prefix,
      weather_CallTool eng env net
        {| name := "compare_weather";
           arguments := Some [("city1", JStr "A"); ("city2", JStr "B")] |} =
      ([GET (weather_url env "A"); GET (weather_url env "B")],
       Returned {| content := [{| type := "text";
                                  text := prefix ++ "📊 Comparison:" ++ nl ++ "  "
                                          ++ nameB ++ " is 5°C warmer" |}];
                   isError := None |}).
Proof.
  intros env net nameA ctryA feelsA humA speedA condA descA
         nameB ctryB feelsB humB speedB condB descB Hkey HA HB.
  set (args := [("city1", JStr "A"); ("city2", JStr "B")]).
  pose proof (fetchWeather_upstream env net (JStr "A") "A" []
                _ _ _ _ _ _ _ _ eq_refl HA) as RA.
  pose proof (fetchWeather_upstream env net (JStr "B") "B"
                [GET (weather_url env "A")] _ _ _ _ _ _ _ _ eq_refl HB) as RB.
  exists ("Weather Comparison:" ++ nl ++ rule ++ nl ++ nl
          ++ nameA ++ ", " ++ ctryA ++ ":" ++ nl
          ++ "  🌡️  10°C (feels like "
          ++ NumberToString eng (Math_round feelsA) ++ "°C)" ++ nl
          ++ "  ☁️  " ++ condA ++ " - " ++ descA ++ nl
          ++ "  💧 " ++ NumberToString eng humA ++ "% humidity" ++ nl
          ++ nl
          ++ nameB ++ ", " ++ ctryB ++ ":" ++ nl
          ++ "  🌡️  15°C (feels like "
          ++ NumberToString eng (Math_round feelsB) ++ "°C)" ++ nl
          ++ "  ☁️  " ++ condB ++ " - " ++ descB ++ nl
          ++ "  💧 " ++ NumberToString eng humB ++ "% humidity" ++ nl
          ++ nl).
  rewrite weather_CallTool_with_args.
  rewrite (compare_weather_run env net args Hkey). cbv zeta.
  change (lookup "city1" args) with (JStr "A").
  change (lookup "city2" args) with (JStr "B").
  rewrite RA. cbn [fst snd app]. rewrite RB. cbn [fst snd app].
  unfold comparison_text.
  cbn [ToString bindR city country condition description humidity
       temperature feels_like].
  change (warmer _ _) with (JStr nameB).
  change (tempDiff _ _) with (num_of_Z 5).
  change (NumberToString eng (num_of_Z 5)) with "5".
  change (NumberToString eng (Math_round (num_of_Z 10))) with "10".
  change (NumberToString eng (Math_round (num_of_Z 15))) with "15".
  cbn [ToString bindR]. unfold success, text_block. do 5 f_equal.
  repeat rewrite append_assoc. reflexivity.
Qed.

(** ** git_changes_between_versions *)

Lemma is_not_merge_upstream sha author message html_url log :
  is_not_merge eng (upstream_commit sha author message html_url) log =
  (log, Ok (negb (startsWith message "Merge"))).
Proof. reflexivity. Qed.

Lemma summary_upstream sha author message html_url log :
  summary eng (upstream_commit sha author message html_url) log =
  (log, Ok (JObj [("sha", JStr (substring_units 7 sha));
                  ("author", JStr author);
                  ("message", JStr (hd "" (split (ascii_of_nat 10) message)));
                  ("url", JStr html_url)])).
Proof. reflexivity. Qed.

(** The JSON text of the document of scenario A with one commit. *)
Lemma one_commit_document_text sha author message html_url :
  JSON_stringify eng
    (response_document (JStr "o/r") (JStr "v1") (JStr "v2")
       [JObj [("sha", JStr sha); ("author", JStr author);
              ("message", JStr message); ("url", JStr html_url)]]) =
  "{" ++ nl
  ++ "  " ++ dq ++ "repository" ++ dq ++ ": " ++ dq ++ "o/r" ++ dq ++ "," ++ nl
  ++ "  " ++ dq ++ "fromVersion" ++ dq ++ ": " ++ dq ++ "v1" ++ dq ++ "," ++ nl
  ++ "  " ++ dq ++ "toVersion" ++ dq ++ ": " ++ dq ++ "v2" ++ dq ++ "," ++ nl
  ++ "  " ++ dq ++ "totalCommits" ++ dq ++ ": 1," ++ nl
  ++ "  " ++ dq ++ "commits" ++ dq ++ ": [" ++ nl
  ++ "    {" ++ nl
  ++ "      " ++ dq ++ "sha" ++ dq ++ ": " ++ json_quote sha ++ "," ++ nl
  ++ "      " ++ dq ++ "author" ++ dq ++ ": " ++ json_quote author ++ "," ++ nl
  ++ "      " ++ dq ++ "message" ++ dq ++ ": " ++ json_quote message ++ "," ++ nl
  ++ "      " ++ dq ++ "url" ++ dq ++ ": " ++ json_quote html_url ++ nl
  ++ "    }" ++ nl
  ++ "  ]" ++ nl
  ++ "}".
Proof.
  unfold JSON_stringify, response_document.
  cbn [stringify flat_map map join app snd fst List.length Z.of_nat].
  change (NumberToString eng (num_of_Z (Z.of_nat 1))) with "1".
  change (json_quote "repository") with (dq ++ "repository" ++ dq).
  change (json_quote "fromVersion") with (dq ++ "fromVersion" ++ dq).
  change (json_quote "toVersion") with (dq ++ "toVersion" ++ dq).
  change (json_quote "totalCommits") with (dq ++ "totalCommits" ++ dq).
  change (json_quote "commits") with (dq ++ "commits" ++ dq).
  change (json_quote "sha") with (dq ++ "sha" ++ dq).
  change (json_quote "author") with (dq ++ "author" ++ dq).
  change (json_quote "message") with (dq ++ "message" ++ dq).
  change (json_quote "url") with (dq ++ "url" ++ dq).
  change (json_quote "o/r") with (dq ++ "o/r" ++ dq).
  change (json_quote "v1") with (dq ++ "v1" ++ dq).
  change (json_quote "v2") with (dq ++ "v2" ++ dq).
  generalize (json_quote sha) (json_quote author) (json_quote message)
             (json_quote html_url).
  intros a b c d.
  unfold nl, dq. repeat first [rewrite append_assoc | progress simpl]. reflexivity.
Qed.

(** C5. git_changes_between_versions called with repo "o/r", fromVersion
    "v1" and toVersion "v2", the compare endpoint answering with two
    commits of which exactly one has a message that starts with "Merge"
    (in either position): one request is issued, and the envelope is a
    success envelope whose text is the JSON document that reports
    totalCommits as 1 and lists, under commits, the summary of the other
    commit alone: the first seven code units of its sha, its author, the
    first line of its message and its url. *)
Theorem merge_commit_is_filtered_out :
  forall env net (merge_first : bool)
         sha author message html_url shaM authorM messageM html_urlM,
    startsWith message "Merge" = false ->
    startsWith messageM "Merge" = true ->
    let request := {| url := "https://api.github.com/repos/o/r/compare/v1...v2";
                      headers := git_headers env |} in
    let kept := upstream_commit sha author message html_url in
    let merge := upstream_commit shaM authorM messageM html_urlM in
    axios_outcome net 0 request =
      Ok (JObj [("commits",
                 JArr (if merge_first then [merge; kept] else [kept; merge]))]) ->
    git_CallTool eng env net
      {| name := "git_changes_between_versions";
         arguments := Some [("repo", JStr "o/r");
                            ("fromVersion", JStr "v1");
                            ("toVersion", JStr "v2")] |} =
    ([request],
     Returned
       {| content :=
            [{| type := "text";
                text :=
                  "{" ++ nl
                  ++ "  " ++ dq ++ "repository" ++ dq ++ ": "
                  ++ dq ++ "o/r" ++ dq ++ "," ++ nl
                  ++ "  " ++ dq ++ "fromVersion" ++ dq ++ ": "
                  ++ dq ++ "v1" ++ dq ++ "," ++ nl
                  ++ "  " ++ dq ++ "toVersion" ++ dq ++ ": "
                  ++ dq ++ "v2" ++ dq ++ "," ++ nl
                  ++ "  " ++ dq ++ "totalCommits" ++ dq ++ ": 1," ++ nl
                  ++ "  " ++ dq ++ "commits" ++ dq ++ ": [" ++ nl
                  ++ "    {" ++ nl
                  ++ "      " ++ dq ++ "sha" ++ dq ++ ": "
                  ++ json_quote (substring_units 7 sha) ++ "," ++ nl
                  ++ "      " ++ dq ++ "author" ++ dq ++ ": "
                  ++ json_quote author ++ "," ++ nl
                  ++ "      " ++ dq ++ "message" ++ dq ++ ": "
                  ++ json_quote (hd "" (split (ascii_of_nat 10) message))
                  ++ "," ++ nl
                  ++ "      " ++ dq ++ "url" ++ dq ++ ": "
                  ++ json_quote html_url ++ nl
                  ++ "    }" ++ nl
                  ++ "  ]" ++ nl
                  ++ "}" |}];
          isError := None |}).
Proof.
  intros env net merge_first sha author message html_url
         shaM authorM messageM html_urlM Hkept Hmerge request kept merge Hnet.
  rewrite git_CallTool_with_args. cbv zeta.
  set (args := [("repo", JStr "o/r"); ("fromVersion", JStr "v1");
                ("toVersion", JStr "v2")]).
  assert (Hdoc : git_document eng env net args [] =
                 ([request],
                  Ok (response_document (JStr "o/r") (JStr "v1") (JStr "v2")
                        [JObj [("sha", JStr (substring_units 7 sha));
                               ("author", JStr author);
                               ("message",
                                JStr (hd "" (split (ascii_of_nat 10) message)));
                               ("url", JStr html_url)]]))).
  { rewrite (git_document_with_repo env net args "o/r" "o" "r" []
               eq_refl eq_refl).
    change (lookup "fromVersion" args) with (JStr "v1").
    change (lookup "toVersion" args) with (JStr "v2").
    unfold bind at 1. cbn [lift ToString].
    unfold bind at 1. cbn [lift ToString].
    unfold bind at 1. unfold axios_get.
    change (axios_outcome net (List.length []) _)
      with (axios_outcome net 0 request).
    rewrite Hnet. cbn [app].
    unfold list_commits.
    unfold bind at 1. cbn [lift getPath getProp lookup String.eqb Ascii.eqb
                           Bool.eqb bindR].
    unfold bind at 1. cbn [lift array_receiver].
    destruct merge_first; subst kept merge;
      unfold bind; cbn [lift filterM]; unfold bind;
      rewrite !is_not_merge_upstream, Hkept, Hmerge;
      cbn [negb ret mapM]; unfold bind;
      rewrite summary_upstream; reflexivity. }
  unfold git_handler, bind. rewrite Hdoc. cbn [fst snd ret].
  rewrite one_commit_document_text. reflexivity.
Qed.

(** * Further properties of the two servers *)

Lemma bind_ok_inv {A B : Type} (m : M A) (k : A -> M B) log log' b :
  bind m k log = (log', Ok b) ->
  exists a log1, m log = (log1, Ok a) /\ k a log1 = (log', Ok b).
Proof.
  unfold bind. destruct (m log) as [log1 [a | e]]; intro H.
  - eauto.
  - discriminate.
Qed.

Lemma ret_ok_inv {A : Type} (a b : A) log log' :
  ret a log = (log', Ok b) -> a = b /\ log = log'.
Proof. unfold ret. intro H. injection H as -> ->. auto. Qed.

Lemma lift_ok_inv {A : Type} (r : Result A) log log' a :
  lift r log = (log', Ok a) -> r = Ok a /\ log = log'.
Proof. unfold lift. intro H. injection H as -> ->. auto. Qed.

Ltac invert_binds :=
  repeat match goal with
    | H : bind _ _ _ = (_, Ok _) |- _ =>
        apply bind_ok_inv in H; destruct H as (? & ? & ? & H)
    | H : ret _ _ = (_, Ok _) |- _ =>
        apply ret_ok_inv in H; destruct H as [? ?]; subst
    | H : throw _ _ = (_, Ok _) |- _ => discriminate H
    end.

(** ** The shape of every envelope *)

Lemma weather_handler_succeeds_with_text env net tool args log log' e :
  weather_handler eng env net tool args log = (log', Ok e) ->
  exists t, e = success t.
Proof.
  unfold weather_handler.
  destruct (WEATHER_API_KEY env =? ""); [intro H; invert_binds; eauto | ].
  destruct (tool =? "get_current_weather"); [intro H; invert_binds; eauto | ].
  destruct (tool =? "get_weather_forecast"); [intro H; invert_binds; eauto | ].
  destruct (tool =? "compare_weather"); intro H; invert_binds; eauto.
Qed.

Lemma git_handler_succeeds_with_text env net args log log' e :
  git_handler eng env net args log = (log', Ok e) ->
  exists t, e = success t.
Proof. unfold git_handler. intro H. invert_binds. eauto. Qed.

(** X1. Every answer of the weather server to a CallTool invocation that
    carries an arguments object is an envelope with exactly one block, of
    type "text"; isError is either not set or true, never false. It is
    true exactly when the body of the handler threw, and the text is then
    "Error: " followed by the message of the very value that was thrown;
    otherwise the envelope is the one the body returned. *)
Theorem weather_envelope_shape :
  forall env net tool args,
  exists log t flag,
    weather_CallTool eng env net {| name := tool; arguments := Some args |} =
    (log, Returned {| content := [{| type := "text"; text := t |}];
                      isError := flag |})
    /\ (flag = None \/ flag = Some true)
    /\ (forall error,
           snd (weather_handler eng env net tool args []) = Throw error ->
           flag = Some true /\ t = "Error: " ++ errorMessage error)
    /\ (forall e,
           snd (weather_handler eng env net tool args []) = Ok e ->
           flag = None
           /\ e = {| content := [{| type := "text"; text := t |}];
                     isError := None |}).
Proof.
  intros env net tool args. rewrite weather_CallTool_with_args. cbv zeta.
  destruct (weather_handler eng env net tool args []) as [log [e | error]] eqn:H.
  - apply weather_handler_succeeds_with_text in H as [t ->].
    exists log, t, None. cbn [fst snd]. split; [reflexivity | ].
    split; [now left | ]. split.
    + intros error He. discriminate He.
    + intros e' He. injection He as <-. split; reflexivity.
  - exists log, ("Error: " ++ errorMessage error), (Some true).
    cbn [fst snd]. split; [reflexivity | ].
    split; [now right | ]. split.
    + intros error' He. injection He as <-. split; reflexivity.
    + intros e' He. discriminate He.
Qed.

(** X2. The same shape holds for every answer of the GitHub-diff server to
    an invocation that carries an arguments object. *)
Theorem git_envelope_shape :
  forall env net tool args,
  exists log t flag,
    git_CallTool eng env net {| name := tool; arguments := Some args |} =
    (log, Returned {| content := [{| type := "text"; text := t |}];
                      isError := flag |})
    /\ (flag = None \/ flag = Some true)
    /\ (forall error,
           snd (git_handler eng env net args []) = Throw error ->
           flag = Some true /\ t = "Error: " ++ errorMessage error)
    /\ (forall e,
           snd (git_handler eng env net args []) = Ok e ->
           flag = None
           /\ e = {| content := [{| type := "text"; text := t |}];
                     isError := None |}).
Proof.
  intros env net tool args. rewrite git_CallTool_with_args. cbv zeta.
  destruct (git_handler eng env net args []) as [log [e | error]] eqn:H.
  - apply git_handler_succeeds_with_text in H as [t ->].
    exists log, t, None. cbn [fst snd]. split; [reflexivity | ].
    split; [now left | ]. split.
    + intros error He. discriminate He.
    + intros e' He. injection He as <-. split; reflexivity.
  - exists log, ("Error: " ++ errorMessage error), (Some true).
    cbn [fst snd]. split; [reflexivity | ].
    split; [now right | ]. split.
    + intros error' He. injection He as <-. split; reflexivity.
    + intros e' He. discriminate He.
Qed.

(** ** Outbound requests *)

Lemma prefix_append (a b : string) : String.prefix a (a ++ b) = true.
Proof.
  induction a as [| c a IH]; simpl.
  - now destruct b.
  - destruct (Ascii.ascii_dec c c); [exact IH | congruence].
Qed.

Lemma weather_url_base env q :
  String.prefix WEATHER_API_BASE (weather_url env q) = true.
Proof. unfold weather_url. apply prefix_append. Qed.

Lemma forecast_url_base env q cnt :
  String.prefix WEATHER_API_BASE (forecast_url env q cnt) = true.
Proof. unfold forecast_url. apply prefix_append. Qed.

Lemma weather_handler_unknown_silent env net tool args :
  (tool =? "get_current_weather") = false ->
  (tool =? "get_weather_forecast") = false ->
  (tool =? "compare_weather") = false ->
  silent (weather_handler eng env net tool args).
Proof.
  intros H1 H2 H3. unfold weather_handler. rewrite H1, H2, H3.
  destruct (WEATHER_API_KEY env =? ""); [apply silent_ret | apply silent_throw].
Qed.

Lemma weather_requests_bounded env c :
  (List.length (weather_requests eng env c) <= 1)%nat
  /\ Forall (fun request =>
               String.prefix WEATHER_API_BASE (url request) = true
               /\ headers request = []) (weather_requests eng env c).
Proof.
  unfold weather_requests. destruct (encode_value eng c); cbn.
  - split; [lia | ]. repeat constructor; apply weather_url_base.
  - split; [lia | constructor].
Qed.

Lemma forecast_requests_bounded env c days :
  (List.length (forecast_requests eng env c days) <= 1)%nat
  /\ Forall (fun request =>
               String.prefix WEATHER_API_BASE (url request) = true
               /\ headers request = []) (forecast_requests eng env c days).
Proof.
  unfold forecast_requests.
  destruct (encode_value eng c); [destruct (ToNumber eng days) | ]; cbn.
  - split; [lia | ]. repeat constructor; apply forecast_url_base.
  - split; [lia | constructor].
  - split; [lia | constructor].
Qed.

(** X3. Whatever the tool name, the arguments and the upstream, one
    CallTool invocation of the weather server issues at most two outbound
    requests, each a header-less request to a URL under the OpenWeatherMap
    base address. *)
Theorem weather_requests_are_bounded :
  forall env net tool args,
    let log := fst (weather_CallTool eng env net
                      {| name := tool; arguments := Some args |}) in
    (List.length log <= 2)%nat
    /\ Forall (fun request =>
                 String.prefix WEATHER_API_BASE (url request) = true
                 /\ headers request = []) log.
Proof.
  intros env net tool args. cbv zeta.
  rewrite weather_CallTool_with_args. cbv zeta. cbn [fst].
  destruct (String.eqb_spec (WEATHER_API_KEY env) "") as [Hkey | Hkey].
  { unfold weather_handler. apply String.eqb_eq in Hkey. rewrite Hkey.
    cbn. split; [lia | constructor]. }
  destruct (String.eqb_spec tool "get_current_weather") as [-> | H1].
  { rewrite (weather_handler_current_issues env net args Hkey []). cbn [app].
    destruct (weather_requests_bounded env (lookup "city" args)) as [Hl Hf].
    split; [lia | exact Hf]. }
  destruct (String.eqb_spec tool "get_weather_forecast") as [-> | H2].
  { rewrite (weather_handler_forecast_issues env net args Hkey []). cbn [app].
    destruct (forecast_requests_bounded env (lookup "city" args)
                (if truthy (lookup "days" args) then lookup "days" args
                 else JNum (num_of_Z 3))) as [Hl Hf].
    split; [lia | exact Hf]. }
  destruct (String.eqb_spec tool "compare_weather") as [-> | H3].
  { rewrite (weather_handler_compare_issues env net args Hkey []). cbn [app].
    destruct (weather_requests_bounded env (lookup "city1" args)) as [Hl1 Hf1].
    destruct (weather_requests_bounded env (lookup "city2" args)) as [Hl2 Hf2].
    split; [rewrite length_app; lia | apply Forall_app; auto]. }
  apply String.eqb_neq in H1, H2, H3.
  rewrite (weather_handler_unknown_silent env net tool args H1 H2 H3 []).
  cbn. split; [lia | constructor].
Qed.

(** X4. The GitHub-diff server issues an outbound request exactly when
    [repo] is a string whose first two parts between slashes are both
    non-empty and both fromVersion and toVersion can be converted to a
    string; it then issues one request only, to the compare address built
    from these two parts (further parts are ignored) and from the text of
    fromVersion and toVersion, whatever else is wrong with the arguments
    or the upstream. *)
Theorem git_requests_are_determined_by_repo :
  forall env net tool args,
    fst (git_CallTool eng env net {| name := tool; arguments := Some args |}) =
    match lookup "repo" args with
    | JStr r =>
        match repo_parts r with
        | Some (owner, repoName) =>
            match ToString eng (lookup "fromVersion" args),
                  ToString eng (lookup "toVersion" args) with
            | Ok f, Ok t =>
                [{| url := "https://api.github.com/repos/" ++ owner ++ "/"
                           ++ repoName ++ "/compare/" ++ f ++ "..." ++ t;
                    headers := git_headers env |}]
            | _, _ => []
            end
        | None => []
        end
    | _ => []
    end.
Proof.
  intros env net tool args. rewrite git_CallTool_fst. apply git_document_log.
Qed.

(** X5. When [repo] is a string without a usable owner and repository
    name, the GitHub-diff server answers "Error: Invalid repo format. Use
    owner/repo" with isError = true and issues no outbound request. *)
Theorem invalid_repo_is_rejected :
  forall env net tool args r,
    lookup "repo" args = JStr r ->
    repo_parts r = None ->
    git_CallTool eng env net {| name := tool; arguments := Some args |} =
    ([], Returned {| content := [{| type := "text";
                                    text := "Error: Invalid repo format. Use owner/repo" |}];
                     isError := Some true |}).
Proof.
  intros env net tool args r Hrepo Hparts.
  rewrite git_CallTool_with_args. unfold git_handler, bind.
  rewrite (git_document_without_parts env net args r [] Hrepo Hparts).
  reflexivity.
Qed.

(** ** Strings: [substring] and [split] *)

Lemma substring_prefix n : forall s, String.prefix (substring 0 n s) s = true.
Proof.
  induction n as [| n IH]; intros [| c s]; simpl; try reflexivity.
  destruct (Ascii.ascii_dec c c); [apply IH | congruence].
Qed.

Lemma code_units_append a b : code_units (a ++ b) = (code_units a + code_units b)%nat.
Proof. induction a as [| c a IH]; simpl; [reflexivity | rewrite IH; lia]. Qed.

Lemma continuation_has_no_unit c : is_continuation c = true -> units_of_byte c = 0%nat.
Proof.
  unfold is_continuation, units_of_byte. intro H.
  apply andb_true_iff in H as [H1 H2].
  apply N.leb_le in H1, H2.
  destruct (N.ltb_spec (N_of_ascii c) 128); [lia | ].
  destruct (N.ltb_spec (N_of_ascii c) 192); [reflexivity | lia].
Qed.

Lemma take_continuation_units k :
  forall s taken left,
    take_continuation k s = (taken, left) -> code_units taken = 0%nat.
Proof.
  induction k as [| k IH]; intros s taken left H.
  - destruct s; injection H as <- _; reflexivity.
  - destruct s as [| c rest]; [injection H as <- _; reflexivity | ].
    simpl in H. destruct (is_continuation c) eqn:E.
    + destruct (take_continuation k rest) as [t l] eqn:Et.
      injection H as <- _. simpl.
      rewrite (continuation_has_no_unit c E), (IH rest t l Et). reflexivity.
    + injection H as <- _. reflexivity.
Qed.

Lemma continuation_byte_units (y : N) :
  units_of_byte (ascii_of_N (128 + y mod 64)) = 0%nat.
Proof.
  apply continuation_has_no_unit. unfold is_continuation.
  assert (Hy : (y mod 64 < 64)%N) by (apply N.mod_lt; discriminate).
  set (k := (y mod 64)%N) in *. clearbody k.
  rewrite N_ascii_embedding by lia.
  apply andb_true_iff. split; apply N.leb_le; lia.
Qed.

Lemma high_surrogate_units c cont : code_units (high_surrogate c cont) = 1%nat.
Proof.
  unfold high_surrogate. cbv zeta. cbn [code_units].
  rewrite !continuation_byte_units. reflexivity.
Qed.

(** [substring(0, n)] has at most [n] code units. *)
Lemma substring_units_length n :
  forall s, (code_units (substring_units n s) <= n)%nat.
Proof.
  induction n as [n IH] using lt_wf_ind. intro s.
  destruct n as [| n']; [destruct s; simpl; lia | ].
  destruct s as [| c rest]; [simpl; lia | ].
  cbn [substring_units]. unfold units_of_byte.
  destruct (N.ltb_spec (N_of_ascii c) 192) as [H192 | H192].
  { cbn [code_units]. specialize (IH n' ltac:(lia) rest).
    unfold units_of_byte.
    destruct (N.ltb_spec (N_of_ascii c) 128); [lia | ].
    destruct (N.ltb_spec (N_of_ascii c) 192); lia. }
  destruct (N.ltb_spec (N_of_ascii c) 224) as [H224 | H224].
  { destruct (take_continuation 1 rest) as [cont left] eqn:Et.
    rewrite code_units_append. cbn [code_units].
    rewrite (take_continuation_units _ _ _ _ Et).
    specialize (IH n' ltac:(lia) left). unfold units_of_byte.
    destruct (N.ltb_spec (N_of_ascii c) 128); [lia | ].
    destruct (N.ltb_spec (N_of_ascii c) 192); [lia | ].
    destruct (N.ltb_spec (N_of_ascii c) 240); lia. }
  destruct (N.ltb_spec (N_of_ascii c) 240) as [H240 | H240].
  { destruct (take_continuation 2 rest) as [cont left] eqn:Et.
    rewrite code_units_append. cbn [code_units].
    rewrite (take_continuation_units _ _ _ _ Et).
    specialize (IH n' ltac:(lia) left). unfold units_of_byte.
    destruct (N.ltb_spec (N_of_ascii c) 128); [lia | ].
    destruct (N.ltb_spec (N_of_ascii c) 192); [lia | ].
    destruct (N.ltb_spec (N_of_ascii c) 240); lia. }
  destruct (take_continuation 3 rest) as [cont left] eqn:Et.
  destruct n' as [| n''].
  - rewrite high_surrogate_units. lia.
  - rewrite code_units_append. cbn [code_units].
    rewrite (take_continuation_units _ _ _ _ Et).
    specialize (IH n'' ltac:(lia) left). unfold units_of_byte.
    destruct (N.ltb_spec (N_of_ascii c) 128); [lia | ].
    destruct (N.ltb_spec (N_of_ascii c) 192); [lia | ].
    destruct (N.ltb_spec (N_of_ascii c) 240); lia.
Qed.

(** On ASCII text the code units are the characters. *)
Lemma substring_units_ascii n :
  forall s, is_ascii s -> substring_units n s = substring 0 n s.
Proof.
  unfold is_ascii.
  induction n as [| n IH]; intros [| c rest] H; try reflexivity.
  simpl in H. inversion H as [| c' l Hc Hrest]; subst.
  cbn [substring_units substring].
  destruct (N.ltb_spec (N_of_ascii c) 192); [ | lia].
  now rewrite (IH rest Hrest).
Qed.

Lemma split_not_nil sep s : split sep s <> [].
Proof.
  destruct s as [| c s]; simpl; [discriminate | ].
  destruct (Ascii.eqb c sep); [discriminate | ].
  destruct (split sep s); discriminate.
Qed.

Lemma split_hd_free sep s : free_of sep (hd "" (split sep s)).
Proof.
  unfold free_of. induction s as [| c s IH]; simpl; [tauto | ].
  destruct (Ascii.eqb_spec c sep) as [-> | Hne]; simpl; [tauto | ].
  destruct (split sep s) as [| p ps]; simpl in *; intuition congruence.
Qed.

Lemma split_hd_prefix sep s : String.prefix (hd "" (split sep s)) s = true.
Proof.
  induction s as [| c s IH]; simpl; [reflexivity | ].
  destruct (Ascii.eqb c sep); simpl; [reflexivity | ].
  pose proof (split_not_nil sep s) as Hnn.
  destruct (split sep s) as [| p ps]; [congruence | ]. simpl in *.
  destruct (Ascii.ascii_dec c c); [exact IH | congruence].
Qed.

Lemma split_append sep a b :
  free_of sep a -> split sep (a ++ String sep b) = a :: split sep b.
Proof.
  unfold free_of. induction a as [| c a IH]; simpl; intro H.
  - now rewrite Ascii.eqb_refl.
  - destruct (Ascii.eqb_spec c sep) as [-> | Hne]; [tauto | ].
    rewrite IH by tauto. reflexivity.
Qed.

Lemma split_free sep s : free_of sep s -> split sep s = [s].
Proof.
  unfold free_of. induction s as [| c s IH]; simpl; intro H; [reflexivity | ].
  destruct (Ascii.eqb_spec c sep) as [-> | Hne]; [tauto | ].
  rewrite IH by tauto. reflexivity.
Qed.

(** The parts of [owner/repoName] are [owner] and [repoName]. *)
Lemma repo_parts_of_pair owner repoName :
  free_of "/" owner -> free_of "/" repoName ->
  owner <> "" -> repoName <> "" ->
  repo_parts (owner ++ "/" ++ repoName) = Some (owner, repoName).
Proof.
  intros Ho Hr Hno Hnr. unfold repo_parts.
  change (owner ++ "/" ++ repoName) with (owner ++ String "/" repoName).
  rewrite (split_append _ _ _ Ho), (split_free _ _ Hr).
  apply String.eqb_neq in Hno, Hnr. now rewrite Hno, Hnr.
Qed.

(** X6. For a [repo] of the form owner/name, with neither part empty nor
    containing a slash, and versions that can be converted to the strings
    from and to, the one outbound request of the GitHub-diff server goes
    to .../repos/owner/name/compare/from...to: the repository and the
    versions are used verbatim. *)
Theorem wellformed_repo_is_requested_verbatim :
  forall env net tool args owner repoName f t,
    free_of "/" owner -> free_of "/" repoName ->
    owner <> "" -> repoName <> "" ->
    lookup "repo" args = JStr (owner ++ "/" ++ repoName) ->
    ToString eng (lookup "fromVersion" args) = Ok f ->
    ToString eng (lookup "toVersion" args) = Ok t ->
    fst (git_CallTool eng env net {| name := tool; arguments := Some args |}) =
    [{| url := "https://api.github.com/repos/" ++ owner ++ "/" ++ repoName
               ++ "/compare/" ++ f ++ "..." ++ t;
        headers := git_headers env |}].
Proof.
  intros env net tool args owner repoName f t Ho Hr Hno Hnr Hrepo Hf Ht.
  rewrite git_CallTool_fst, git_document_log, Hrepo.
  now rewrite (repo_parts_of_pair owner repoName Ho Hr Hno Hnr), Hf, Ht.
Qed.

(** ** The commits listed by git_changes_between_versions *)

Lemma string_receiver_inv v method s :
  string_receiver eng v method = Ok s -> v = JStr s.
Proof. destruct v; simpl; intro H; try discriminate. now injection H as ->. Qed.

Lemma filterM_upstream (cs : list CommitInfo) log :
  filterM (is_not_merge eng) (map upstream_commit_of cs) log =
  (log, Ok (map upstream_commit_of (filter (fun c => negb (is_merge c)) cs))).
Proof.
  induction cs as [| c cs IH]; simpl; [reflexivity | ].
  unfold bind. unfold upstream_commit_of at 1.
  rewrite is_not_merge_upstream. rewrite IH. unfold is_merge.
  destruct (negb (startsWith (commit_message c) "Merge")); reflexivity.
Qed.

Lemma mapM_upstream (cs : list CommitInfo) log :
  mapM (summary eng) (map upstream_commit_of cs) log =
  (log, Ok (map summary_of cs)).
Proof.
  induction cs as [| c cs IH]; simpl; [reflexivity | ].
  unfold bind. unfold upstream_commit_of at 1.
  rewrite summary_upstream, IH. reflexivity.
Qed.

(** X7. For a usable [repo], versions that can be converted to strings and
    an upstream that answers the compare request with any list of commits,
    the invocation issues the one compare request and returns a success
    envelope; the object that the handler serialises into its text lists,
    in upstream order, the summaries of exactly the commits whose message
    does not start with "Merge", and its totalCommits is their number. *)
Theorem commits_are_filtered_and_counted :
  forall env net tool args r owner repoName f t props (cs : list CommitInfo),
    lookup "repo" args = JStr r ->
    repo_parts r = Some (owner, repoName) ->
    ToString eng (lookup "fromVersion" args) = Ok f ->
    ToString eng (lookup "toVersion" args) = Ok t ->
    let request :=
      {| url := "https://api.github.com/repos/" ++ owner ++ "/" ++ repoName
                ++ "/compare/" ++ f ++ "..." ++ t;
         headers := git_headers env |} in
    let kept := filter (fun c => negb (is_merge c)) cs in
    axios_outcome net 0 request = Ok (JObj props) ->
    lookup "commits" props = JArr (map upstream_commit_of cs) ->
    git_document eng env net args [] =
    ([request],
     Ok (JObj [("repository", JStr r);
               ("fromVersion", lookup "fromVersion" args);
               ("toVersion", lookup "toVersion" args);
               ("totalCommits", JNum (num_of_Z (Z.of_nat (List.length kept))));
               ("commits", JArr (map summary_of kept))]))
    /\ exists text,
      git_CallTool eng env net {| name := tool; arguments := Some args |} =
      ([request],
       Returned {| content := [{| type := "text"; text := text |}];
                   isError := None |}).
Proof.
  intros env net tool args r owner repoName f t props cs Hrepo Hparts Hf Ht
         request kept Hnet Hcommits.
  assert (Hdoc : git_document eng env net args [] =
                 ([request],
                  Ok (JObj [("repository", JStr r);
                            ("fromVersion", lookup "fromVersion" args);
                            ("toVersion", lookup "toVersion" args);
                            ("totalCommits",
                             JNum (num_of_Z (Z.of_nat (List.length kept))));
                            ("commits", JArr (map summary_of kept))]))).
  { rewrite (git_document_with_repo env net args r owner repoName []
               Hrepo Hparts).
    rewrite Hf, Ht. unfold bind at 1. cbn [lift].
    unfold bind at 1. cbn [lift].
    unfold bind at 1. unfold axios_get.
    change (axios_outcome net (List.length []) _)
      with (axios_outcome net 0 request).
    rewrite Hnet. unfold list_commits, bind.
    cbn [lift getPath getProp bindR]. rewrite Hcommits.
    cbn [array_receiver]. rewrite filterM_upstream, mapM_upstream.
    fold kept. cbn [ret app]. unfold response_document.
    rewrite length_map. reflexivity. }
  split; [exact Hdoc | ].
  eexists. rewrite git_CallTool_with_args. unfold git_handler, bind.
  rewrite Hdoc. reflexivity.
Qed.

(** X8. Whatever the upstream sends for a commit, a summary that the
    handler manages to build has a [sha] of at most seven UTF-16 code
    units, which for an ASCII sha (as every real one is) is the beginning
    of the upstream's sha, and a [message] without a line feed that is the
    beginning of the upstream's message. *)
Theorem summary_is_short_and_single_line :
  forall c log log' v,
    summary eng c log = (log', Ok v) ->
    exists sha full_sha author message full_message html_url,
      v = JObj [("sha", JStr sha); ("author", author);
                ("message", JStr message); ("url", html_url)]
      /\ getPath eng c ["sha"] = Ok (JStr full_sha)
      /\ getPath eng c ["commit"; "message"] = Ok (JStr full_message)
      /\ (code_units sha <= 7)%nat
      /\ (is_ascii full_sha ->
          sha = substring 0 7 full_sha /\ String.prefix sha full_sha = true)
      /\ free_of (ascii_of_nat 10) message
      /\ String.prefix message full_message = true.
Proof.
  intros c log log' v H. unfold summary in H. invert_binds.
  repeat match goal with
         | Hl : lift _ _ = (_, Ok _) |- _ =>
             apply lift_ok_inv in Hl; destruct Hl as [Hl ?]; subst
         end.
  repeat match goal with
         | Hs : string_receiver _ _ _ = Ok _ |- _ =>
             apply string_receiver_inv in Hs; subst
         end.
  do 6 eexists. split; [reflexivity | ].
  repeat split; try eassumption.
  - apply substring_units_length.
  - now apply substring_units_ascii.
  - rewrite substring_units_ascii by assumption. apply substring_prefix.
  - apply split_hd_free.
  - apply split_hd_prefix.
Qed.

(** ** fetchWeather and fetchForecast *)

(** X9. For a city that converts and encodes to [q] (and days that
    convert to the number [n]), a response whose [ok] flag is false makes
    [fetchWeather] throw "Weather API error: <status> <statusText>" and
    [fetchForecast] throw "Forecast API error: <status> <statusText>",
    after the one request was issued; the body of the response is never
    read. *)
Theorem non_ok_response_is_thrown :
  forall env net c days q n log response,
    ok response = false ->
    encode_value eng c = Ok q ->
    (fetch_outcome net (List.length log)
       (WEATHER_API_BASE ++ "/weather?q=" ++ q ++ "&appid="
        ++ WEATHER_API_KEY env ++ "&units=metric") = Ok response ->
     fetchWeather eng env net c log =
     ((log ++ [GET (WEATHER_API_BASE ++ "/weather?q=" ++ q ++ "&appid="
                    ++ WEATHER_API_KEY env ++ "&units=metric")])%list,
      Throw (ErrorObj ("Weather API error: " ++ Z_to_string (status response)
                       ++ " " ++ statusText response))))
    /\ (days <> JUndefined ->
        ToNumber eng days = Ok n ->
        fetch_outcome net (List.length log)
          (WEATHER_API_BASE ++ "/forecast?q=" ++ q ++ "&appid="
           ++ WEATHER_API_KEY env ++ "&units=metric&cnt="
           ++ NumberToString eng (num_mul n (num_of_Z 8))) = Ok response ->
        fetchForecast eng env net c days log =
        ((log ++ [GET (WEATHER_API_BASE ++ "/forecast?q=" ++ q ++ "&appid="
                       ++ WEATHER_API_KEY env ++ "&units=metric&cnt="
                       ++ NumberToString eng (num_mul n (num_of_Z 8)))])%list,
         Throw (ErrorObj ("Forecast API error: " ++ Z_to_string (status response)
                          ++ " " ++ statusText response)))).
Proof.
  intros env net c days q n log response Hok Hq. split.
  - intro H. unfold fetchWeather, bind, fetch, lift. rewrite Hq.
    unfold weather_url. rewrite H, Hok. reflexivity.
  - intros Hdays Hn H. unfold fetchForecast.
    replace (match days with JUndefined => JNum (num_of_Z 5) | _ => days end)
      with days by (destruct days; congruence).
    unfold bind, fetch, lift. rewrite Hq, Hn.
    unfold forecast_url. rewrite H, Hok. reflexivity.
Qed.

(** X11. For a city that converts and encodes, [fetchWeather] succeeds as
    soon as the response is ok, its document is an object whose [main],
    [wind] and [sys] are objects and whose [weather] is an array that
    starts with an object, and the three leaves that are rounded convert
    to numbers: a missing leaf ([temp], [humidity], [name], ...) is read as
    undefined and is no failure. In particular a document without
    [main.temp] gives the temperature NaN. *)
Theorem missing_leaves_do_not_fail :
  forall env net c q log response props main w0 rest wind sys temp feels speed,
    encode_value eng c = Ok q ->
    fetch_outcome net (List.length log) (weather_url env q) = Ok response ->
    ok response = true ->
    json response = Ok (JObj props) ->
    lookup "main" props = JObj main ->
    lookup "weather" props = JArr (JObj w0 :: rest) ->
    lookup "wind" props = JObj wind ->
    lookup "sys" props = JObj sys ->
    ToNumber eng (lookup "temp" main) = Ok temp ->
    ToNumber eng (lookup "feels_like" main) = Ok feels ->
    ToNumber eng (lookup "speed" wind) = Ok speed ->
    fetchWeather eng env net c log =
    ((log ++ [GET (weather_url env q)])%list,
     Ok {| temperature := Math_round temp;
           feels_like := Math_round feels;
           condition := lookup "main" w0;
           description := lookup "description" w0;
           humidity := lookup "humidity" main;
           wind_speed := Math_round (num_mul speed three_point_six);
           city := lookup "name" props;
           country := lookup "country" sys |})
    /\ (omits main "temp" -> Math_round temp = S754_nan)
    /\ (omits main "feels_like" -> Math_round feels = S754_nan)
    /\ (omits wind "speed" ->
        Math_round (num_mul speed three_point_six) = S754_nan).
Proof.
  intros env net c q log response props main w0 rest wind sys temp feels speed
         Hq Hnet Hok Hjson Hmain Hweather Hwind Hsys Htemp Hfeels Hspeed.
  split; [ | split; [ | split]].
  - unfold fetchWeather, bind, fetch, get, lift. rewrite Hq, Hnet, Hok, Hjson.
    cbn [negb getPath getProp bindR]. rewrite Hmain, Hweather, Hwind, Hsys.
    cbn [getPath getProp bindR String.eqb Ascii.eqb Bool.eqb hd].
    rewrite Htemp, Hfeels, Hspeed. reflexivity.
  - intro Hom. rewrite (omitted_is_undefined _ _ Hom) in Htemp.
    injection Htemp as <-. reflexivity.
  - intro Hom. rewrite (omitted_is_undefined _ _ Hom) in Hfeels.
    injection Hfeels as <-. reflexivity.
  - intro Hom. rewrite (omitted_is_undefined _ _ Hom) in Hspeed.
    injection Hspeed as <-. reflexivity.
Qed.

(** ** The comparison of two cities *)

Lemma binary_round_sign sx mx ex :
  SFabs (binary_round 53 1024 sx mx ex) =
  SFabs (binary_round 53 1024 (negb sx) mx ex).
Proof.
  unfold binary_round.
  destruct (shl_align mx ex _) as [mz ez].
  unfold binary_round_aux.
  destruct (shr_fexp 53 1024 (Z.pos mz) ez loc_Exact) as [mrs' e'].
  destruct (shr_fexp 53 1024 _ e' loc_Exact) as [mrs'' e''].
  destruct (shr_m mrs''); try reflexivity.
  destruct (Z.leb e'' (1024 - 53)); reflexivity.
Qed.

Lemma binary_normalize_opp z e :
  SFabs (binary_normalize 53 1024 (- z) e false) =
  SFabs (binary_normalize 53 1024 z e false).
Proof.
  destruct z as [| p | p]; cbn [Z.opp binary_normalize]; try reflexivity.
  - symmetry. apply (binary_round_sign false).
  - apply (binary_round_sign false).
Qed.

(** The absolute difference does not depend on the order. *)
Lemma abs_sub_comm (x y : JsNumber) :
  Math_abs (num_sub x y) = Math_abs (num_sub y x).
Proof.
  unfold Math_abs, num_sub.
  destruct x as [sx | sx | | sx mx ex], y as [sy | sy | | sy my ey];
    try reflexivity;
    try (destruct sx; reflexivity);
    try (destruct sy; reflexivity);
    try (destruct sx, sy; reflexivity).
  cbn [SFsub]. rewrite (Z.min_comm ey ex).
  rewrite <- binary_normalize_opp. f_equal. f_equal. lia.
Qed.

Lemma different_numbers_warmer weather1 weather2 :
  different_numbers (temperature weather1) (temperature weather2) ->
  warmer weather1 weather2 = warmer weather2 weather1.
Proof.
  unfold different_numbers, warmer, num_gt, SFltb.
  rewrite (SFcompare_antisym (temperature weather1) (temperature weather2)).
  intros [H | H]; rewrite H; reflexivity.
Qed.

Lemma bindR_ok_inv {A B : Type} (r : Result A) (k : A -> Result B) b :
  bindR r k = Ok b -> exists a, r = Ok a /\ k a = Ok b.
Proof. destruct r as [a | e]; simpl; [eauto | discriminate]. Qed.

(** A comparison text ends with the comparison line. *)
Lemma comparison_text_ok_inv weather1 weather2 t :
  comparison_text eng weather1 weather2 = Ok t ->
  exists prefix name,
    ToString eng (warmer weather1 weather2) = Ok name
    /\ t = prefix ++ "📊 Comparison:" ++ nl ++ "  " ++ name ++ " is "
           ++ NumberToString eng (tempDiff weather1 weather2) ++ "°C warmer".
Proof.
  unfold comparison_text.
  destruct (ToString eng (city weather1)) as [name1 | ]; [ | discriminate].
  destruct (ToString eng (country weather1)) as [ctry1 | ]; [ | discriminate].
  destruct (ToString eng (condition weather1)) as [cond1 | ]; [ | discriminate].
  destruct (ToString eng (description weather1)) as [desc1 | ]; [ | discriminate].
  destruct (ToString eng (humidity weather1)) as [hum1 | ]; [ | discriminate].
  destruct (ToString eng (city weather2)) as [name2 | ]; [ | discriminate].
  destruct (ToString eng (country weather2)) as [ctry2 | ]; [ | discriminate].
  destruct (ToString eng (condition weather2)) as [cond2 | ]; [ | discriminate].
  destruct (ToString eng (description weather2)) as [desc2 | ]; [ | discriminate].
  destruct (ToString eng (humidity weather2)) as [hum2 | ]; [ | discriminate].
  destruct (ToString eng (warmer weather1 weather2)) as [name | ];
    [ | discriminate].
  cbn [bindR]. intro H. injection H as <-.
  exists ("Weather Comparison:" ++ nl ++ rule ++ nl ++ nl
          ++ name1 ++ ", " ++ ctry1 ++ ":" ++ nl
          ++ "  🌡️  " ++ NumberToString eng (temperature weather1)
          ++ "°C (feels like " ++ NumberToString eng (feels_like weather1)
          ++ "°C)" ++ nl
          ++ "  ☁️  " ++ cond1 ++ " - " ++ desc1 ++ nl
          ++ "  💧 " ++ hum1 ++ "% humidity" ++ nl
          ++ nl
          ++ name2 ++ ", " ++ ctry2 ++ ":" ++ nl
          ++ "  🌡️  " ++ NumberToString eng (temperature weather2)
          ++ "°C (feels like " ++ NumberToString eng (feels_like weather2)
          ++ "°C)" ++ nl
          ++ "  ☁️  " ++ cond2 ++ " - " ++ desc2 ++ nl
          ++ "  💧 " ++ hum2 ++ "% humidity" ++ nl
          ++ nl), name.
  split; [reflexivity | ].
  repeat rewrite append_assoc. reflexivity.
Qed.

(** X12. When the two temperatures are different numbers, the comparison
    does not depend on the order of the two cities: the same city is named
    as the warmer one, with the same difference, and the two texts end
    with the same comparison line. *)
Theorem comparison_is_symmetric :
  forall weather1 weather2,
    different_numbers (temperature weather1) (temperature weather2) ->
    warmer weather1 weather2 = warmer weather2 weather1
    /\ tempDiff weather1 weather2 = tempDiff weather2 weather1
    /\ forall t t',
        comparison_text eng weather1 weather2 = Ok t ->
        comparison_text eng weather2 weather1 = Ok t' ->
        exists prefix prefix' name,
          ToString eng (warmer weather1 weather2) = Ok name
          /\ t = prefix ++ "📊 Comparison:" ++ nl ++ "  " ++ name ++ " is "
                 ++ NumberToString eng (tempDiff weather1 weather2)
                 ++ "°C warmer"
          /\ t' = prefix' ++ "📊 Comparison:" ++ nl ++ "  " ++ name ++ " is "
                  ++ NumberToString eng (tempDiff weather1 weather2)
                  ++ "°C warmer".
Proof.
  intros weather1 weather2 Hdiff.
  pose proof (different_numbers_warmer weather1 weather2 Hdiff) as Hw.
  assert (Hd : tempDiff weather1 weather2 = tempDiff weather2 weather1)
    by apply abs_sub_comm.
  split; [exact Hw | ]. split; [exact Hd | ].
  intros t t' Ht Ht'.
  apply comparison_text_ok_inv in Ht as (prefix & name & Hn & ->).
  apply comparison_text_ok_inv in Ht' as (prefix' & name' & Hn' & ->).
  rewrite <- Hw, Hn in Hn'. injection Hn' as <-. rewrite <- Hd.
  exists prefix, prefix', name. auto.
Qed.

(** ** The forecast *)

Lemma forEach_day_extends days :
  forall index result log log' t,
    forEach_day eng index days result log = (log', Ok t) ->
    exists rest, t = result ++ rest.
Proof.
  induction days as [| day days IH]; intros index result log log' t H;
    simpl in H.
  - apply ret_ok_inv in H as [<- _]. exists "".
    induction result as [| ch r IHr]; simpl; congruence.
  - apply bind_ok_inv in H. destruct H as (d & log1 & _ & H).
    apply IH in H as [rest ->]. exists (d ++ rest).
    now rewrite append_assoc.
Qed.

Lemma twenty_four :
  NumberToString eng (num_mul (num_of_Z 3) (num_of_Z 8)) = "24".
Proof. reflexivity. Qed.

(** X13. When the [days] argument of get_weather_forecast is absent or
    falsy (undefined, null, false, 0, NaN or the empty string), three days
    are asked for: for a city that converts and encodes to [q] the one
    request carries cnt=24, and the text of a success envelope starts with
    "3-Day Weather Forecast for ". *)
Theorem forecast_days_default_to_three :
  forall env net args q,
    WEATHER_API_KEY env <> "" ->
    truthy (lookup "days" args) = false ->
    encode_value eng (lookup "city" args) = Ok q ->
    let r := weather_CallTool eng env net
               {| name := "get_weather_forecast"; arguments := Some args |} in
    fst r =
    [GET (WEATHER_API_BASE ++ "/forecast?q=" ++ q
          ++ "&appid=" ++ WEATHER_API_KEY env ++ "&units=metric&cnt=24")]
    /\ (forall t,
           snd r = Returned {| content := [{| type := "text"; text := t |}];
                               isError := None |} ->
           exists rest, t = "3-Day Weather Forecast for " ++ rest).
Proof.
  intros env net args q Hkey Hdays Hq r. subst r.
  rewrite weather_CallTool_with_args. cbv zeta. cbn [fst snd]. split.
  - rewrite (weather_handler_forecast_issues env net args Hkey []).
    rewrite Hdays. unfold forecast_requests. rewrite Hq. cbn [ToNumber app].
    unfold forecast_url. now rewrite twenty_four.
  - rewrite (weather_handler_forecast env net args Hkey). rewrite Hdays.
    cbv zeta. intros t Ht.
    match type of Ht with
    | Returned match snd (?m []) with _ => _ end = _ =>
        destruct (m []) as [log [e | error]] eqn:Hrun
    end; cbn [snd] in Ht; [ | discriminate Ht].
    injection Ht as ->. invert_binds.
    repeat match goal with
           | Hl : lift _ _ = (_, Ok _) |- _ =>
               apply lift_ok_inv in Hl; destruct Hl as [Hl ?]; subst
           end.
    match goal with
    | Hf : forEach_day _ _ _ _ _ = (_, Ok _) |- _ =>
        apply forEach_day_extends in Hf as [rest ->]
    end.
    match goal with
    | Hs : success _ = _ |- _ => injection Hs as <-
    end.
    match goal with
    | Hd : ToString eng (JNum (num_of_Z 3)) = Ok _ |- _ =>
        injection Hd as <-
    end.
    eexists. change (NumberToString eng (num_of_Z 3)) with "3".
    repeat rewrite append_assoc. reflexivity.
Qed.

Lemma existsb_on_dates date acc :
  forall dates,
    map entry_date acc = map Some dates ->
    existsb (fun d => match d with
                      | JObj props => strict_equals_string (lookup "date" props) date
                      | _ => false
                      end) acc =
    existsb (fun s => s =? date) dates.
Proof.
  induction acc as [| d acc IH]; intros [| s dates] H; simpl in H;
    try discriminate; [reflexivity | ].
  injection H as Hd Hrest. simpl. rewrite (IH dates Hrest). f_equal.
  unfold entry_date in Hd. destruct d; try discriminate.
  destruct (lookup "date" props); try discriminate.
  now injection Hd as ->.
Qed.

Lemma add_day_keeps_days_distinct acc item log log' acc' :
  add_day eng acc item log = (log', Ok acc') ->
  distinct_days acc -> distinct_days acc'.
Proof.
  unfold add_day. intros H [dates [Hmap Hnodup]].
  apply bind_ok_inv in H. destruct H as (dt_txt & log1 & _ & H).
  apply bind_ok_inv in H. destruct H as (s & log2 & _ & H).
  rewrite (existsb_on_dates _ _ _ Hmap) in H.
  destruct (existsb (fun s0 => s0 =? hd "" (split " " s)) dates) eqn:Hex.
  - apply ret_ok_inv in H as [<- _]. exists dates. auto.
  - invert_binds.
    exists (dates ++ [hd "" (split " " s)])%list. split.
    + rewrite !map_app, Hmap. reflexivity.
    + apply NoDup_app; [exact Hnodup | repeat constructor; intros [] | ].
      intros d Hin [Heq | []]. rewrite <- Heq in Hin.
      assert (Ht : existsb (fun s0 => s0 =? hd "" (split " " s)) dates = true).
      { apply existsb_exists. eexists. split; [exact Hin | ].
        apply String.eqb_refl. }
      congruence.
Qed.

Lemma reduce_keeps_days_distinct items :
  forall acc log log' acc',
    reduce eng acc items log = (log', Ok acc') ->
    distinct_days acc -> distinct_days acc'.
Proof.
  induction items as [| item items IH]; intros acc log log' acc' H Hacc;
    simpl in H.
  - apply ret_ok_inv in H as [<- _]. exact Hacc.
  - apply bind_ok_inv in H. destruct H as (acc1 & log1 & Hadd & H).
    apply (IH _ _ _ _ H).
    exact (add_day_keeps_days_distinct _ _ _ _ _ Hadd Hacc).
Qed.

Lemma firstn_keeps_days_distinct n entries :
  distinct_days entries -> distinct_days (firstn n entries).
Proof.
  intros [dates [Hmap Hnodup]]. exists (firstn n dates). split.
  - now rewrite <- !firstn_map, Hmap.
  - rewrite <- (firstn_skipn n dates) in Hnodup.
    exact (NoDup_app_remove_r _ _ Hnodup).
Qed.

(** What a successful [fetchForecast] returns: the city, the country and
    a slice of the day summaries that [reduce] collected. *)
Lemma fetchForecast_ok_inv env net c days log log' v :
  fetchForecast eng env net c days log = (log', Ok v) ->
  exists name ctry dailyData forecast,
    distinct_days dailyData
    /\ slice_to eng dailyData
         match days with
         | JUndefined => JNum (num_of_Z 5)
         | _ => days
         end = Ok forecast
    /\ v = JObj [("city", name); ("country", ctry);
                 ("forecast", JArr forecast)].
Proof.
  unfold fetchForecast. intro H.
  apply bind_ok_inv in H. destruct H as (q & log0 & _ & H).
  apply bind_ok_inv in H. destruct H as (n & log0' & _ & H).
  apply bind_ok_inv in H. destruct H as (response & log1 & _ & H).
  destruct (negb (ok response)); [discriminate H | ].
  apply bind_ok_inv in H. destruct H as (data & log2 & _ & H).
  apply bind_ok_inv in H. destruct H as (list & log3 & _ & H).
  apply bind_ok_inv in H. destruct H as (items & log4 & _ & H).
  apply bind_ok_inv in H. destruct H as (dailyData & log5 & Hred & H).
  apply bind_ok_inv in H. destruct H as (name & log6 & _ & H).
  apply bind_ok_inv in H. destruct H as (ctry & log7 & _ & H).
  apply bind_ok_inv in H. destruct H as (forecast & log8 & Hslice & H).
  apply lift_ok_inv in Hslice as [Hslice _].
  apply ret_ok_inv in H as [<- _].
  exists name, ctry, dailyData, forecast. split; [ | split; auto].
  apply (reduce_keeps_days_distinct _ _ _ _ _ Hred).
  exists []. split; [reflexivity | constructor].
Qed.

Lemma slice_to_is_firstn {A : Type} (items : list A) end_ l :
  slice_to eng items end_ = Ok l -> exists k, l = firstn k items.
Proof.
  unfold slice_to. intro H.
  apply bindR_ok_inv in H as (rel & _ & H). injection H as <-. eauto.
Qed.

(** X14. In every forecast that [fetchForecast] returns, each listed day
    carries a string date and no date is listed twice, whatever the
    upstream sent. *)
Theorem forecast_days_are_distinct :
  forall env net c days log log' v,
    fetchForecast eng env net c days log = (log', Ok v) ->
    exists name ctry entries,
      v = JObj [("city", name); ("country", ctry); ("forecast", JArr entries)]
      /\ distinct_days entries.
Proof.
  intros env net c days log log' v H.
  apply fetchForecast_ok_inv
    in H as (name & ctry & dailyData & forecast & Hd & Hslice & ->).
  do 3 eexists. split; [reflexivity | ].
  apply slice_to_is_firstn in Hslice as [k ->].
  apply firstn_keeps_days_distinct, Hd.
Qed.

(** X15. When [days] is a number that truncates to the non-negative
    integer [k], a forecast that [fetchForecast] returns lists at most [k]
    days, and the one request asked the upstream for days * 8 entries;
    nothing clamps the number to the documented range 1-5. *)
Theorem forecast_lists_at_most_days :
  forall env net c (n : JsNumber) (k : Z) log log' v,
    ToIntegerOrInfinity n = Finite k ->
    (0 <= k)%Z ->
    fetchForecast eng env net c (JNum n) log = (log', Ok v) ->
    (exists name ctry entries,
        v = JObj [("city", name); ("country", ctry); ("forecast", JArr entries)]
        /\ (List.length entries <= Z.to_nat k)%nat)
    /\ exists q,
        encode_value eng c = Ok q
        /\ log' = (log ++ [GET (WEATHER_API_BASE ++ "/forecast?q=" ++ q
                                ++ "&appid=" ++ WEATHER_API_KEY env
                                ++ "&units=metric&cnt="
                                ++ NumberToString eng
                                     (SFmul 53 1024 n (num_of_Z 8)))])%list.
Proof.
  intros env net c n k log log' v Hk Hpos H. split.
  - apply fetchForecast_ok_inv
      in H as (name & ctry & dailyData & forecast & _ & Hslice & ->).
    do 3 eexists. split; [reflexivity | ].
    unfold slice_to in Hslice. cbn [ToNumber bindR] in Hslice.
    rewrite Hk in Hslice. injection Hslice as <-.
    destruct (k <? 0)%Z eqn:E; [lia | ].
    rewrite length_firstn. lia.
  - pose proof (fetchForecast_issues env net c (JNum n)
                  ltac:(discriminate) log) as Hlog.
    rewrite H in Hlog. cbn [fst] in Hlog. unfold forecast_requests in Hlog.
    unfold fetchForecast in H.
    apply bind_ok_inv in H. destruct H as (q & log0 & Hq & _).
    apply lift_ok_inv in Hq as [Hq _].
    exists q. split; [exact Hq | ].
    rewrite Hq in Hlog. exact Hlog.
Qed.

Lemma slice_to_nil {A : Type} (end_ : JsVal) n :
  ToNumber eng end_ = Ok n -> slice_to eng (@nil A) end_ = Ok [].
Proof.
  unfold slice_to. intro H.
  destruct end_; rewrite ?H; cbn [bindR]; now rewrite firstn_nil.
Qed.

(** X16. When the upstream answers a forecast request with an empty
    [list], and the days, the city name and the country it sends convert
    to text, the envelope is a success envelope whose text is the header
    alone: no day is listed and nothing fails. *)
Theorem empty_forecast_is_header_only :
  forall env net args response props cprops q n days_text name ctry,
    WEATHER_API_KEY env <> "" ->
    let days := if truthy (lookup "days" args) then lookup "days" args
                else JNum (num_of_Z 3) in
    encode_value eng (lookup "city" args) = Ok q ->
    ToNumber eng days = Ok n ->
    ToString eng days = Ok days_text ->
    let u := WEATHER_API_BASE ++ "/forecast?q=" ++ q ++ "&appid="
             ++ WEATHER_API_KEY env ++ "&units=metric&cnt="
             ++ NumberToString eng (SFmul 53 1024 n (num_of_Z 8)) in
    fetch_outcome net 0 u = Ok response ->
    ok response = true ->
    json response = Ok (JObj props) ->
    lookup "list" props = JArr [] ->
    lookup "city" props = JObj cprops ->
    ToString eng (lookup "name" cprops) = Ok name ->
    ToString eng (lookup "country" cprops) = Ok ctry ->
    weather_CallTool eng env net
      {| name := "get_weather_forecast"; arguments := Some args |} =
    ([GET u],
     Returned {| content := [{| type := "text";
                                text := days_text
                                        ++ "-Day Weather Forecast for "
                                        ++ name ++ ", " ++ ctry ++ ":" ++ nl
                                        ++ "━━━━━━━━━━━━━━━━━━━━━━━━━━━━━━━"
                                        ++ nl ++ nl |}];
                 isError := None |}).
Proof.
  intros env net args response props cprops q n days_text name ctry Hkey days
         Hq Hn Hdt u Hnet Hok Hjson Hlist Hcity Hname Hctry.
  assert (Hdays : days <> JUndefined) by apply forecast_days_defined.
  assert (Hrun : weather_handler eng env net "get_weather_forecast" args [] =
                 ([GET u],
                  Ok (success (days_text ++ "-Day Weather Forecast for "
                               ++ name ++ ", " ++ ctry ++ ":" ++ nl ++ rule
                               ++ nl ++ nl)))).
  { rewrite (weather_handler_forecast env net args Hkey). cbv zeta.
    fold days. unfold bind at 1. unfold fetchForecast.
    replace (match days with JUndefined => JNum (num_of_Z 5) | _ => days end)
      with days by (destruct days; congruence).
    unfold bind at 1. unfold lift at 1. rewrite Hq.
    unfold bind at 1. unfold lift at 1. rewrite Hn.
    unfold bind at 1. unfold fetch, forecast_url, num_mul. fold u.
    change (fetch_outcome net (List.length []) u) with (fetch_outcome net 0 u).
    rewrite Hnet, Hok. cbn [negb]. unfold bind at 1. unfold lift at 1.
    rewrite Hjson. unfold bind, get, lift.
    cbn [getPath getProp bindR]. rewrite Hlist. cbn [array_receiver reduce ret].
    rewrite Hcity. cbn [getPath getProp bindR lookup String.eqb Ascii.eqb
                        Bool.eqb].
    rewrite (slice_to_nil days n Hn). rewrite Hdt.
    cbn [ret getPath getProp bindR lookup String.eqb Ascii.eqb Bool.eqb].
    rewrite Hname, Hctry.
    cbn [getPath getProp bindR lookup String.eqb Ascii.eqb Bool.eqb
         array_receiver forEach_day ret app].
    reflexivity. }
  rewrite weather_CallTool_with_args, Hrun. reflexivity.
Qed.

(** ** The query string *)





Lemma percent_encode_unreserved s :
  forallb is_uri_unreserved (list_ascii_of_string s) = true ->
  percent_encode s = s.
Proof.
  induction s as [| ch s IH]; simpl; [reflexivity | ].
  intro H. apply andb_true_iff in H as [Hc Hs].
  rewrite Hc, (IH Hs). reflexivity.
Qed.

Lemma unreserved_starts_no_surrogate c1 c2 :
  is_uri_unreserved c1 = true -> starts_lone_surrogate c1 c2 = false.
Proof.
  unfold starts_lone_surrogate.
  destruct (N.eqb_spec (N_of_ascii c1) 237) as [E | E]; [ | reflexivity].
  intro H. exfalso.
  assert (Hc : c1 = ascii_of_N 237)
    by (rewrite <- E; symmetry; apply ascii_N_embedding).
  subst c1. discriminate H.
Qed.

Lemma unreserved_has_no_lone_surrogate s :
  forallb is_uri_unreserved (list_ascii_of_string s) = true ->
  has_lone_surrogate s = false.
Proof.
  induction s as [| c1 s IH]; [reflexivity | ].
  cbn [list_ascii_of_string forallb has_lone_surrogate]. intro H.
  apply andb_true_iff in H as [Hc Hs]. rewrite (IH Hs).
  destruct s as [| c2 s']; [reflexivity | ].
  now rewrite (unreserved_starts_no_surrogate c1 c2 Hc).
Qed.

(** X18. A city name made of unreserved characters only (letters, digits
    and - _ . ! ~ * ' ( )) appears verbatim in the URL that [fetchWeather]
    requests, and [fetchWeather] requests that one URL whatever happens
    next. *)
Theorem plain_city_is_requested_verbatim :
  forall env net s log,
    forallb is_uri_unreserved (list_ascii_of_string s) = true ->
    fst (fetchWeather eng env net (JStr s) log) =
    (log ++ [GET (WEATHER_API_BASE ++ "/weather?q=" ++ s ++ "&appid="
                  ++ WEATHER_API_KEY env ++ "&units=metric")])%list.
Proof.
  intros env net s log Hs.
  rewrite (fetchWeather_issues env net (JStr s) log).
  unfold weather_requests, encode_value, encodeURIComponent.
  cbn [ToString bindR].
  rewrite (unreserved_has_no_lone_surrogate s Hs).
  now rewrite (percent_encode_unreserved s Hs).
Qed.

(** ** The catalog and the dispatch *)

(** X19. In the weather server with a non-empty API key, the tools that
    ListTools announces are exactly the tool names under which CallTool
    can reach the upstream: a listed name issues an outbound request for
    some arguments (the empty arguments object is enough), any other name
    issues none, whatever the arguments. *)
Theorem listed_tools_are_the_dispatched_ones :
  forall env net tool,
    WEATHER_API_KEY env <> "" ->
    (In tool (tool_names weather_tools) ->
     fst (weather_CallTool eng env net
            {| name := tool; arguments := Some [] |}) <> [])
    /\ (forall args,
           fst (weather_CallTool eng env net
                  {| name := tool; arguments := Some args |}) <> [] ->
           In tool (tool_names weather_tools)).
Proof.
  intros env net tool Hkey.
  change (tool_names weather_tools)
    with ["get_current_weather"; "get_weather_forecast"; "compare_weather"].
  split.
  - intros [<- | [<- | [<- | []]]];
      rewrite weather_CallTool_with_args; cbv zeta; cbn [fst].
    + rewrite (weather_handler_current_issues env net [] Hkey []). discriminate.
    + rewrite (weather_handler_forecast_issues env net [] Hkey []). discriminate.
    + rewrite (weather_handler_compare_issues env net [] Hkey []). discriminate.
  - intros args. rewrite weather_CallTool_with_args. cbv zeta. cbn [fst].
    destruct (String.eqb_spec tool "get_current_weather") as [-> | H1];
      [simpl; auto | ].
    destruct (String.eqb_spec tool "get_weather_forecast") as [-> | H2];
      [simpl; auto | ].
    destruct (String.eqb_spec tool "compare_weather") as [-> | H3];
      [simpl; auto | ].
    apply String.eqb_neq in H1, H2, H3.
    rewrite (weather_handler_unknown_silent env net tool args H1 H2 H3 []).
    intro H. now contradiction H.
Qed.

(** ** Grouping the forecast by day *)

Lemma add_day_upstream acc dates (i : ForecastItem) log :
  map entry_date acc = map Some dates ->
  add_day eng acc (upstream_item i) log =
  (log, Ok (if existsb (fun s => s =? item_date i) dates
            then acc
            else (acc ++ [day_of i])%list)).
Proof.
  intro Hmap. unfold add_day, bind, get, lift.
  cbn [upstream_item getPath getProp bindR lookup String.eqb Ascii.eqb Bool.eqb
       string_receiver].
  fold (item_date i). rewrite (existsb_on_dates _ _ _ Hmap).
  destruct (existsb (fun s => s =? item_date i) dates); reflexivity.
Qed.

Lemma entry_dates_of_days (ds : list ForecastItem) :
  map entry_date (map day_of ds) = map Some (map item_date ds).
Proof. induction ds as [| d ds IH]; simpl; [reflexivity | now rewrite IH]. Qed.

Lemma reduce_upstream items :
  forall (ds : list ForecastItem) log,
    reduce eng (map day_of ds) (map upstream_item items) log =
    (log, Ok (map day_of (ds ++ first_per_date (map item_date ds) items))).
Proof.
  induction items as [| i items IH]; intros ds log; simpl.
  - now rewrite app_nil_r.
  - unfold bind.
    rewrite (add_day_upstream _ _ i log (entry_dates_of_days ds)).
    destruct (existsb (fun s => s =? item_date i) (map item_date ds)).
    + apply IH.
    + replace (map day_of ds ++ [day_of i])%list with (map day_of (ds ++ [i]))
        by (now rewrite map_app).
      rewrite IH. rewrite (map_app item_date). cbn [map].
      rewrite <- app_assoc. reflexivity.
Qed.

(** X20. Grouping by day keeps, for each date, the first slot that the
    upstream lists for it: the day's temp_min, temp_max, condition and
    description are those of that slot, and later slots of the same date
    change nothing. *)
Theorem day_summary_is_the_first_slot :
  forall (items : list ForecastItem) log,
    reduce eng [] (map upstream_item items) log =
    (log, Ok (map day_of (first_per_date [] items))).
Proof. intros items log. exact (reduce_upstream items [] log). Qed.

(** ** Arguments that cannot be converted *)

(** X21. In the weather server with a non-empty API key, a city that
    cannot be converted to a string or encoded (an object with an own
    toString property, a string with an unpaired surrogate) makes
    get_current_weather and get_weather_forecast answer with an error
    envelope that carries the message of the conversion error, and no
    outbound request is issued. *)
Theorem unusable_city_is_rejected_without_request :
  forall env net args error,
    WEATHER_API_KEY env <> "" ->
    encode_value eng (lookup "city" args) = Throw error ->
    weather_CallTool eng env net
      {| name := "get_current_weather"; arguments := Some args |} =
    ([], Returned {| content := [{| type := "text";
                                    text := "Error: " ++ errorMessage error |}];
                     isError := Some true |})
    /\ weather_CallTool eng env net
         {| name := "get_weather_forecast"; arguments := Some args |} =
       ([], Returned {| content := [{| type := "text";
                                       text := "Error: " ++ errorMessage error |}];
                        isError := Some true |}).
Proof.
  intros env net args error Hkey Hq. split.
  - rewrite weather_CallTool_with_args.
    rewrite (weather_handler_current env net args Hkey).
    unfold bind, fetchWeather, lift. rewrite Hq. reflexivity.
  - rewrite weather_CallTool_with_args.
    rewrite (weather_handler_forecast env net args Hkey). cbv zeta.
    unfold bind, fetchForecast, lift.
    replace (match (if truthy (lookup "days" args) then lookup "days" args
                    else JNum (num_of_Z 3)) with
             | JUndefined => JNum (num_of_Z 5)
             | _ => if truthy (lookup "days" args) then lookup "days" args
                    else JNum (num_of_Z 3)
             end)
      with (if truthy (lookup "days" args) then lookup "days" args
            else JNum (num_of_Z 3)).
    + rewrite Hq. reflexivity.
    + pose proof (forecast_days_defined args) as Hd.
      destruct (if truthy (lookup "days" args) then lookup "days" args
                else JNum (num_of_Z 3)); congruence.
Qed.

(** X22. In the GitHub-diff server, with a usable [repo], a fromVersion or
    toVersion that cannot be converted to a string makes the invocation
    answer with an error envelope that carries the message of the
    conversion error, and no outbound request is issued. *)
Theorem unusable_version_is_rejected_without_request :
  forall env net tool args r owner repoName error,
    lookup "repo" args = JStr r ->
    repo_parts r = Some (owner, repoName) ->
    (ToString eng (lookup "fromVersion" args) = Throw error
     \/ (exists f, ToString eng (lookup "fromVersion" args) = Ok f)
        /\ ToString eng (lookup "toVersion" args) = Throw error) ->
    git_CallTool eng env net {| name := tool; arguments := Some args |} =
    ([], Returned {| content := [{| type := "text";
                                    text := "Error: " ++ errorMessage error |}];
                     isError := Some true |}).
Proof.
  intros env net tool args r owner repoName error Hrepo Hparts H.
  assert (Hdoc : git_document eng env net args [] = ([], Throw error)).
  { rewrite (git_document_with_repo env net args r owner repoName []
               Hrepo Hparts).
    unfold bind, lift.
    destruct H as [Hf | [[f Hf] Ht]]; rewrite Hf; [ | rewrite Ht];
      reflexivity. }
  rewrite git_CallTool_with_args. unfold git_handler, bind. rewrite Hdoc.
  reflexivity.
Qed.

End Properties.

(** * The properties at sample inputs *)

(** The fields the two listings mark as required. *)
Example required_fields_of_the_tools :
  required_fields weather_tools "get_current_weather" = ["city"]
  /\ required_fields weather_tools "get_weather_forecast" = ["city"]
  /\ required_fields weather_tools "compare_weather" = ["city1"; "city2"]
  /\ required_fields git_tools "git_changes_between_versions" =
     ["repo"; "fromVersion"; "toVersion"].
Proof. repeat split. Qed.

Lemma handler_failure_becomes_error_envelope_witness :
  weather_CallTool sample_engine env_with_key net_not_found
    {| name := "get_current_weather";
       arguments := Some [("city", JStr "Paris")] |} =
  ([GET "https://api.openweathermap.org/data/2.5/weather?q=Paris&appid=k&units=metric"],
   Returned {| content := [{| type := "text";
                              text := "Error: Weather API error: 404 Not Found" |}];
               isError := Some true |})
  /\ git_CallTool sample_engine env_with_key git_net_rejects
       {| name := "git_changes_between_versions";
          arguments := Some [("repo", JStr "o/r"); ("fromVersion", JStr "v1");
                             ("toVersion", JStr "v2")] |} =
     ([{| url := "https://api.github.com/repos/o/r/compare/v1...v2";
          headers := [("Authorization", "Bearer t");
                      ("Accept", "application/vnd.github+json")] |}],
      Returned {| content := [{| type := "text";
                                 text := "Error: Request failed with status code 404" |}];
                  isError := Some true |}).
Proof.
  split.
  - exact (proj1 (handler_failure_becomes_error_envelope sample_engine
                    env_with_key net_not_found git_net_rejects
                    "get_current_weather" [("city", JStr "Paris")])
             _ (ErrorObj "Weather API error: 404 Not Found") eq_refl).
  - exact (proj1 (proj2 (handler_failure_becomes_error_envelope sample_engine
                    env_with_key net_not_found git_net_rejects
                    "git_changes_between_versions"
                    [("repo", JStr "o/r"); ("fromVersion", JStr "v1");
                     ("toVersion", JStr "v2")]))
             _ (ErrorObj "Request failed with status code 404") eq_refl).
Defined.

(** The kinds of failure of a handler, each caught: a network failure, a
    malformed upstream document, a thrown value that is not an [Error],
    and an argument that cannot be converted to a string or encoded (no
    request is issued for it). *)
Example network_failure_is_caught :
  snd (weather_CallTool sample_engine env_with_key net_unreachable
         {| name := "get_current_weather";
            arguments := Some [("city", JStr "Paris")] |}) =
  Returned {| content := [{| type := "text"; text := "Error: fetch failed" |}];
              isError := Some true |}.
Proof. reflexivity. Qed.

Example malformed_document_is_caught :
  snd (weather_CallTool sample_engine env_with_key net_empty_document
         {| name := "get_current_weather";
            arguments := Some [("city", JStr "Paris")] |}) =
  Returned {| content := [{| type := "text";
                             text := "Error: Cannot read properties of undefined (reading 'temp')" |}];
              isError := Some true |}.
Proof. reflexivity. Qed.

Example non_error_value_is_caught :
  snd (weather_CallTool sample_engine env_with_key net_throws_non_error
         {| name := "get_weather_forecast";
            arguments := Some [("city", JStr "Paris")] |}) =
  Returned {| content := [{| type := "text";
                             text := "Error: Unknown error occurred" |}];
              isError := Some true |}.
Proof. reflexivity. Qed.

Example unprintable_city_is_not_requested :
  weather_CallTool sample_engine env_with_key net_A10_B15
    {| name := "get_current_weather";
       arguments := Some [("city", unprintable)] |} =
  ([], Returned {| content := [{| type := "text";
                                  text := "Error: Cannot convert object to primitive value" |}];
                   isError := Some true |}).
Proof. reflexivity. Qed.

Example lone_surrogate_city_is_not_requested :
  weather_CallTool sample_engine env_with_key net_A10_B15
    {| name := "get_current_weather";
       arguments := Some [("city", JStr lone_surrogate)] |} =
  ([], Returned {| content := [{| type := "text";
                                  text := "Error: URI malformed" |}];
                   isError := Some true |}).
Proof. reflexivity. Qed.

Example unprintable_first_city_leaves_one_request :
  weather_CallTool sample_engine env_with_key net_A10_B15
    {| name := "compare_weather";
       arguments := Some [("city1", unprintable); ("city2", JStr "B")] |} =
  ([GET "https://api.openweathermap.org/data/2.5/weather?q=B&appid=k&units=metric"],
   Returned {| content := [{| type := "text";
                              text := "Error: Cannot convert object to primitive value" |}];
               isError := Some true |}).
Proof. reflexivity. Qed.

Example unprintable_version_is_not_requested :
  git_CallTool sample_engine env_with_key git_net_two_commits
    {| name := "git_changes_between_versions";
       arguments := Some [("repo", JStr "o/r"); ("fromVersion", unprintable);
                          ("toVersion", JStr "v2")] |} =
  ([], Returned {| content := [{| type := "text";
                                  text := "Error: Cannot convert object to primitive value" |}];
                   isError := Some true |}).
Proof. reflexivity. Qed.

(** Without an arguments object the weather handler returns no envelope:
    the claim that it returns one with isError = true fails. *)
Lemma missing_arguments_counterexample :
  ~ is_error_envelope
      (snd (weather_CallTool sample_engine env_with_key net_A10_B15
              {| name := "get_current_weather"; arguments := None |})).
Proof. intros [e [H _]]. discriminate H. Qed.

(** get_current_weather with an empty arguments object and an upstream
    that answers: the fetch is issued (for the city "undefined") and the
    envelope is a success envelope. *)
Example current_weather_without_city :
  weather_CallTool sample_engine env_with_key net_A10_B15
    {| name := "get_current_weather"; arguments := Some [] |} =
  ([GET "https://api.openweathermap.org/data/2.5/weather?q=undefined&appid=k&units=metric"],
   Returned {| content := [{| type := "text";
                              text := "Current Weather in A, XX:" ++ nl
                                      ++ "━━━━━━━━━━━━━━━━━━━━━━━━━━━━━━━" ++ nl
                                      ++ "🌡️  Temperature: 10°C (feels like 9°C)" ++ nl
                                      ++ "☁️  Condition: Clouds - few clouds" ++ nl
                                      ++ "💧 Humidity: 40%" ++ nl
                                      ++ "💨 Wind Speed: 5 km/h" |}];
               isError := None |}).
Proof. vm_compute. reflexivity. Qed.

Lemma omitted_field_counterexample :
  ~ reports_missing_field "city"
      (weather_CallTool sample_engine env_with_key net_A10_B15
         {| name := "get_current_weather"; arguments := Some [] |}).
Proof. intros [Hlog _]. discriminate Hlog. Qed.

Lemma omitted_field_reads_as_undefined_witness :
  (weather_CallTool sample_engine env_with_key net_A10_B15
     {| name := "get_current_weather"; arguments := Some [] |} =
   weather_CallTool sample_engine env_with_key net_A10_B15
     {| name := "get_current_weather";
        arguments := Some [("city", JStr "undefined")] |}
   /\ fst (weather_CallTool sample_engine env_with_key net_A10_B15
             {| name := "get_current_weather"; arguments := Some [] |}) =
      [GET "https://api.openweathermap.org/data/2.5/weather?q=undefined&appid=k&units=metric"])
  /\ (exists rest,
         fst (weather_CallTool sample_engine env_with_key net_A10_B15
                {| name := "compare_weather";
                   arguments := Some [("city2", JStr "B")] |}) =
         GET "https://api.openweathermap.org/data/2.5/weather?q=undefined&appid=k&units=metric"
         :: rest)
  /\ git_CallTool sample_engine env_with_key git_net_two_commits
       {| name := "git_changes_between_versions";
          arguments := Some [("fromVersion", JStr "v1"); ("toVersion", JStr "v2")] |} =
     ([], Returned {| content := [{| type := "text";
                                     text := "Error: Cannot read properties of undefined (reading 'split')" |}];
                      isError := Some true |})
  /\ fst (git_CallTool sample_engine env_with_key git_net_two_commits
            {| name := "git_changes_between_versions";
               arguments := Some [("repo", JStr "o/r"); ("toVersion", JStr "v2")] |}) =
     [{| url := "https://api.github.com/repos/o/r/compare/undefined...v2";
         headers := [("Authorization", "Bearer t");
                     ("Accept", "application/vnd.github+json")] |}].
Proof.
  assert (Hkey : WEATHER_API_KEY env_with_key <> "") by discriminate.
  assert (Hnone : forall f, omits [] f) by (intros f []).
  split; [ | split; [ | split]].
  - destruct (proj1 (proj1 (omitted_field_reads_as_undefined sample_engine
                env_with_key net_A10_B15 git_net_two_commits "x" []) Hkey)
                (Hnone "city")) as (Hsame & Hlog & _).
    split; [exact Hsame | exact Hlog].
  - refine (proj2 (proj1 (proj2 (proj1 (omitted_field_reads_as_undefined
              sample_engine env_with_key net_A10_B15 git_net_two_commits "x"
              [("city2", JStr "B")]) Hkey)) _)).
    intros [H | []]. discriminate H.
  - refine (proj1 (proj2 (omitted_field_reads_as_undefined sample_engine
              env_with_key net_A10_B15 git_net_two_commits
              "git_changes_between_versions"
              [("fromVersion", JStr "v1"); ("toVersion", JStr "v2")])) _).
    intros [H | [H | []]]; discriminate H.
  - refine (proj1 (proj2 (proj2 (omitted_field_reads_as_undefined sample_engine
              env_with_key net_A10_B15 git_net_two_commits
              "git_changes_between_versions"
              [("repo", JStr "o/r"); ("toVersion", JStr "v2")]))
              "o/r" "o" "r" eq_refl eq_refl) _ "v2" eq_refl).
    intros [H | [H | []]]; discriminate H.
Defined.

(** With no API key an unknown tool name is answered with the
    informational envelope, not with an error envelope. *)
Lemma unknown_tool_counterexample :
  ~ is_error_envelope
      (snd (weather_CallTool sample_engine env_without_key net_A10_B15
              {| name := "no_such_tool"; arguments := Some [] |})).
Proof. intros [e [H1 H2]]. injection H1 as <-. discriminate H2. Qed.

Lemma unknown_tool_is_reported_witness :
  weather_CallTool sample_engine env_with_key net_A10_B15
    {| name := "no_such_tool"; arguments := Some [] |} =
  ([], Returned {| content := [{| type := "text";
                                  text := "Error: Unknown tool: no_such_tool" |}];
                   isError := Some true |}).
Proof.
  apply (unknown_tool_is_reported sample_engine env_with_key net_A10_B15
           "no_such_tool" []).
  - discriminate.
  - simpl. intros [H | [H | [H | []]]]; discriminate H.
Defined.

Lemma merge_commit_is_filtered_out_witness :
  git_CallTool sample_engine env_with_key git_net_two_commits
    {| name := "git_changes_between_versions";
       arguments := Some [("repo", JStr "o/r"); ("fromVersion", JStr "v1");
                          ("toVersion", JStr "v2")] |} =
  ([{| url := "https://api.github.com/repos/o/r/compare/v1...v2";
       headers := [("Authorization", "Bearer t");
                   ("Accept", "application/vnd.github+json")] |}],
   Returned
     {| content :=
          [{| type := "text";
              text :=
                "{" ++ nl
                ++ "  " ++ dq ++ "repository" ++ dq ++ ": "
                ++ dq ++ "o/r" ++ dq ++ "," ++ nl
                ++ "  " ++ dq ++ "fromVersion" ++ dq ++ ": "
                ++ dq ++ "v1" ++ dq ++ "," ++ nl
                ++ "  " ++ dq ++ "toVersion" ++ dq ++ ": "
                ++ dq ++ "v2" ++ dq ++ "," ++ nl
                ++ "  " ++ dq ++ "totalCommits" ++ dq ++ ": 1," ++ nl
                ++ "  " ++ dq ++ "commits" ++ dq ++ ": [" ++ nl
                ++ "    {" ++ nl
                ++ "      " ++ dq ++ "sha" ++ dq ++ ": "
                ++ dq ++ "0123456" ++ dq ++ "," ++ nl
                ++ "      " ++ dq ++ "author" ++ dq ++ ": "
                ++ dq ++ "Al" ++ dq ++ "," ++ nl
                ++ "      " ++ dq ++ "message" ++ dq ++ ": "
                ++ dq ++ "Fix the parser" ++ dq ++ "," ++ nl
                ++ "      " ++ dq ++ "url" ++ dq ++ ": "
                ++ dq ++ "https://github.com/o/r/commit/0123456789abcdef" ++ dq
                ++ nl
                ++ "    }" ++ nl
                ++ "  ]" ++ nl
                ++ "}" |}];
        isError := None |}).
Proof.
  apply (merge_commit_is_filtered_out sample_engine env_with_key
           git_net_two_commits false
           "0123456789abcdef" "Al" "Fix the parser"
           "https://github.com/o/r/commit/0123456789abcdef"
           "fedcba9876543210" "Bo" "Merge branch 'main'"
           "https://github.com/o/r/commit/fedcba9876543210");
    reflexivity.
Defined.

Lemma compare_weather_10_15_witness :
  exists prefix,
    weather_CallTool sample_engine env_with_key net_A10_B15
      {| name := "compare_weather";
         arguments := Some [("city1", JStr "A"); ("city2", JStr "B")] |} =
    ([GET "https://api.openweathermap.org/data/2.5/weather?q=A&appid=k&units=metric";
      GET "https://api.openweathermap.org/data/2.5/weather?q=B&appid=k&units=metric"],
     Returned {| content := [{| type := "text";
                                text := prefix ++ "📊 Comparison:" ++ nl
                                        ++ "  B is 5°C warmer" |}];
                 isError := None |}).
Proof.
  apply (compare_weather_10_15 sample_engine env_with_key net_A10_B15
           "A" "XX" (num_of_Z 9) (num_of_Z 40) (ratio 5 4) "Clouds" "few clouds"
           "B" "YY" (num_of_Z 14) (num_of_Z 50) (num_of_Z 2) "Clear" "clear sky").
  - discriminate.
  - reflexivity.
  - reflexivity.
Defined.

Lemma current_weather_without_key_witness :
  weather_CallTool sample_engine env_without_key net_A10_B15
    {| name := "get_current_weather";
       arguments := Some [("city", JStr "Paris")] |} =
  ([], Returned {| content := [{| type := "text";
                                  text := "Error: OPENWEATHER_API_KEY environment variable not set. Please get a free API key from https://openweathermap.org/api" |}];
                   isError := None |}).
Proof.
  apply (current_weather_without_key sample_engine env_without_key net_A10_B15
           [("city", JStr "Paris")] (JStr "Paris")).
  - left. reflexivity.
  - left. reflexivity.
Defined.


Lemma compare_weather_joins_both_fetches_witness :
  (fst (weather_CallTool sample_engine env_with_key net_first_not_found
          {| name := "compare_weather";
             arguments := Some [("city1", JStr "A"); ("city2", JStr "B")] |}) =
   [GET "https://api.openweathermap.org/data/2.5/weather?q=A&appid=k&units=metric";
    GET "https://api.openweathermap.org/data/2.5/weather?q=B&appid=k&units=metric"])
  /\ (exists e,
         (snd (fetchWeather sample_engine env_with_key net_first_not_found
                 (JStr "A") []) = Throw e
          \/ snd (fetchWeather sample_engine env_with_key net_first_not_found
                    (JStr "B")
                    [GET "https://api.openweathermap.org/data/2.5/weather?q=A&appid=k&units=metric"])
             = Throw e)
         /\ snd (weather_CallTool sample_engine env_with_key net_first_not_found
                   {| name := "compare_weather";
                      arguments := Some [("city1", JStr "A"); ("city2", JStr "B")] |}) =
            Returned {| content := [{| type := "text";
                                       text := "Error: " ++ errorMessage e |}];
                        isError := Some true |}).
Proof.
  assert (Hkey : WEATHER_API_KEY env_with_key <> "") by discriminate.
  pose proof (compare_weather_joins_both_fetches sample_engine env_with_key
                net_first_not_found
                [("city1", JStr "A"); ("city2", JStr "B")] Hkey) as H.
  cbv zeta in H. destruct H as [Hlog [_ Hfail]].
  split.
  - exact Hlog.
  - apply Hfail. left. eexists. reflexivity.
Defined.

(** A first city that is one unpaired surrogate cannot be encoded: its
    fetch is never issued, and the log holds the request for the second
    city alone. *)
Example unencodable_first_city_leaves_one_request :
  weather_CallTool sample_engine env_with_key net_A10_B15
    {| name := "compare_weather";
       arguments := Some [("city1", JStr lone_surrogate);
                          ("city2", JStr "B")] |} =
  ([GET "https://api.openweathermap.org/data/2.5/weather?q=B&appid=k&units=metric"],
   Returned {| content := [{| type := "text";
                              text := "Error: URI malformed" |}];
               isError := Some true |}).
Proof. reflexivity. Qed.

Lemma compare_weather_counterexample :
  ~ issues_two_fetches
      (weather_CallTool sample_engine env_with_key net_A10_B15
         {| name := "compare_weather";
            arguments := Some [("city1", JStr lone_surrogate);
                               ("city2", JStr "B")] |}).
Proof.
  intros [u1 [u2 H]].
  rewrite unencodable_first_city_leaves_one_request in H. discriminate H.
Qed.

(** Both cities answered, in order: the text reports city1's data first. *)
Example compare_weather_reports_both_cities :
  snd (weather_CallTool sample_engine env_with_key net_A10_B15
         {| name := "compare_weather";
            arguments := Some [("city1", JStr "A"); ("city2", JStr "B")] |}) =
  Returned
    {| content :=
         [{| type := "text";
             text := "Weather Comparison:" ++ nl
                     ++ "━━━━━━━━━━━━━━━━━━━━━━━━━━━━━━━" ++ nl
                     ++ nl
                     ++ "A, XX:" ++ nl
                     ++ "  🌡️  10°C (feels like 9°C)" ++ nl
                     ++ "  ☁️  Clouds - few clouds" ++ nl
                     ++ "  💧 40% humidity" ++ nl
                     ++ nl
                     ++ "B, YY:" ++ nl
                     ++ "  🌡️  15°C (feels like 14°C)" ++ nl
                     ++ "  ☁️  Clear - clear sky" ++ nl
                     ++ "  💧 50% humidity" ++ nl
                     ++ nl
                     ++ "📊 Comparison:" ++ nl
                     ++ "  B is 5°C warmer" |}];
       isError := None |}.
Proof. vm_compute. reflexivity. Qed.

Lemma prefix_refl s : String.prefix s s = true.
Proof.
  induction s as [| c s IH]; simpl; [reflexivity | ].
  destruct (Ascii.ascii_dec c c); [exact IH | congruence].
Qed.

Lemma contains_refl s : contains s s = true.
Proof. destruct s; cbn [contains]; now rewrite prefix_refl. Qed.

Lemma contains_append prefix s : contains (prefix ++ s) s = true.
Proof.
  induction prefix as [| c prefix IH]; [apply contains_refl | ].
  cbn [append contains]. rewrite IH. apply orb_true_r.
Qed.

(** Two cities at +Infinity degrees (the value of JSON text such as 1e999)
    have equal temperatures, and the comparison line reads NaN, not 0. *)
Example infinite_temperatures_differ_by_NaN :
  snd (weather_CallTool sample_engine env_with_key net_infinite_temperatures
         {| name := "compare_weather";
            arguments := Some [("city1", JStr "A"); ("city2", JStr "B")] |}) =
  Returned
    {| content :=
         [{| type := "text";
             text := "Weather Comparison:" ++ nl
                     ++ "━━━━━━━━━━━━━━━━━━━━━━━━━━━━━━━" ++ nl
                     ++ nl
                     ++ "A, XX:" ++ nl
                     ++ "  🌡️  Infinity°C (feels like 11°C)" ++ nl
                     ++ "  ☁️  Clouds - few clouds" ++ nl
                     ++ "  💧 40% humidity" ++ nl
                     ++ nl
                     ++ "B, YY:" ++ nl
                     ++ "  🌡️  Infinity°C (feels like 12°C)" ++ nl
                     ++ "  ☁️  Clear - clear sky" ++ nl
                     ++ "  💧 50% humidity" ++ nl
                     ++ nl
                     ++ "📊 Comparison:" ++ nl
                     ++ "  B is NaN°C warmer" |}];
       isError := None |}.
Proof. vm_compute. reflexivity. Qed.

(** With both rounded temperatures equal to +Infinity the output does not
    report a difference of 0. *)
Lemma equal_temperatures_counterexample :
  (exists weather1 weather2,
      snd (fetchWeather sample_engine env_with_key net_infinite_temperatures
             (JStr "A") []) = Ok weather1
      /\ snd (fetchWeather sample_engine env_with_key net_infinite_temperatures
                (JStr "B")
                [GET "https://api.openweathermap.org/data/2.5/weather?q=A&appid=k&units=metric"])
         = Ok weather2
      /\ SFeqb (temperature weather1) (temperature weather2) = true)
  /\ ~ names_warmer_by_zero "B"
         (snd (weather_CallTool sample_engine env_with_key
                 net_infinite_temperatures
                 {| name := "compare_weather";
                    arguments := Some [("city1", JStr "A");
                                       ("city2", JStr "B")] |})).
Proof.
  split.
  - do 2 eexists. split; [reflexivity | ]. split; reflexivity.
  - intros [prefix H]. rewrite infinite_temperatures_differ_by_NaN in H.
    injection H as H.
    assert (Hc : contains (prefix ++ "  B is 0°C warmer") "  B is 0°C warmer"
                 = true) by apply contains_append.
    rewrite <- H in Hc. vm_compute in Hc. discriminate Hc.
Qed.

Lemma equal_temperatures_name_city2_witness :
  exists prefix name2,
    ToString sample_engine (JStr "B") = Ok name2
    /\ snd (weather_CallTool sample_engine env_with_key net_equal_temperatures
              {| name := "compare_weather";
                 arguments := Some [("city1", JStr "A"); ("city2", JStr "B")] |}) =
       Returned {| content := [{| type := "text";
                                  text := prefix ++ "📊 Comparison:" ++ nl
                                          ++ "  " ++ name2 ++ " is 0°C warmer" |}];
                   isError := None |}.
Proof.
  refine (proj2 (equal_temperatures_name_city2 sample_engine env_with_key
                   net_equal_temperatures
                   [("city1", JStr "A"); ("city2", JStr "B")]
                   {| temperature := num_of_Z 12; feels_like := num_of_Z 11;
                      condition := JStr "Clouds"; description := JStr "few clouds";
                      humidity := JNum (num_of_Z 40); wind_speed := num_of_Z 4;
                      city := JStr "A"; country := JStr "XX" |}
                   {| temperature := num_of_Z 12; feels_like := num_of_Z 12;
                      condition := JStr "Clear"; description := JStr "clear sky";
                      humidity := JNum (num_of_Z 50); wind_speed := num_of_Z 7;
                      city := JStr "B"; country := JStr "YY" |}
                   _ _ _ _ _ _)).
  - discriminate.
  - vm_compute. reflexivity.
  - vm_compute. reflexivity.
  - reflexivity.
  - reflexivity.
  - intros v Hin. simpl in Hin.
    repeat (destruct Hin as [<- | Hin]; [eexists; reflexivity | ]).
    destruct Hin.
Defined.

(** * The further properties at sample inputs *)

Lemma invalid_repo_is_rejected_witness :
  git_CallTool sample_engine env_with_key git_net_two_commits
    {| name := "git_changes_between_versions";
       arguments := Some [("repo", JStr "norepo"); ("fromVersion", JStr "v1");
                          ("toVersion", JStr "v2")] |} =
  ([], Returned {| content := [{| type := "text";
                                  text := "Error: Invalid repo format. Use owner/repo" |}];
                   isError := Some true |}).
Proof.
  apply (invalid_repo_is_rejected sample_engine env_with_key git_net_two_commits
           "git_changes_between_versions" _ "norepo"); reflexivity.
Defined.

Lemma wellformed_repo_is_requested_verbatim_witness :
  fst (git_CallTool sample_engine env_with_key git_net_two_commits
         {| name := "git_changes_between_versions";
            arguments := Some [("repo", JStr "o/r"); ("fromVersion", JStr "v1");
                               ("toVersion", JStr "v2")] |}) =
  [{| url := "https://api.github.com/repos/o/r/compare/v1...v2";
      headers := [("Authorization", "Bearer t");
                  ("Accept", "application/vnd.github+json")] |}].
Proof.
  apply (wellformed_repo_is_requested_verbatim sample_engine env_with_key
           git_net_two_commits "git_changes_between_versions"
           [("repo", JStr "o/r"); ("fromVersion", JStr "v1");
            ("toVersion", JStr "v2")] "o" "r" "v1" "v2").
  - unfold free_of. simpl. intros [H | []]. discriminate H.
  - unfold free_of. simpl. intros [H | []]. discriminate H.
  - discriminate.
  - discriminate.
  - reflexivity.
  - reflexivity.
  - reflexivity.
Defined.

Lemma commits_are_filtered_and_counted_witness :
  git_document sample_engine env_with_key git_net_three_commits
    [("repo", JStr "o/r"); ("fromVersion", JStr "v1"); ("toVersion", JStr "v2")]
    [] =
  ([{| url := "https://api.github.com/repos/o/r/compare/v1...v2";
       headers := [("Authorization", "Bearer t");
                   ("Accept", "application/vnd.github+json")] |}],
   Ok (JObj [("repository", JStr "o/r");
             ("fromVersion", JStr "v1");
             ("toVersion", JStr "v2");
             ("totalCommits", JNum (num_of_Z 2));
             ("commits",
              JArr [JObj [("sha", JStr "0123456");
                          ("author", JStr "Al");
                          ("message", JStr "Fix the parser");
                          ("url", JStr "https://github.com/o/r/commit/0123456789abcdef")];
                    JObj [("sha", JStr "abc");
                          ("author", JStr "Cy");
                          ("message", JStr "merge the two tables");
                          ("url", JStr "https://github.com/o/r/commit/abc")]])])).
Proof.
  refine (proj1 (commits_are_filtered_and_counted sample_engine env_with_key
           git_net_three_commits "git_changes_between_versions"
           [("repo", JStr "o/r"); ("fromVersion", JStr "v1");
            ("toVersion", JStr "v2")]
           "o/r" "o" "r" "v1" "v2"
           [("commits", JArr (map upstream_commit_of sample_commits))]
           sample_commits _ _ _ _ _ _)); reflexivity.
Defined.

Lemma summary_is_short_and_single_line_witness :
  exists sha full_sha author message full_message html_url,
    JObj [("sha", JStr "0123456"); ("author", JStr "Al");
          ("message", JStr "Fix the parser");
          ("url", JStr "https://github.com/o/r/commit/0123456789abcdef")] =
    JObj [("sha", JStr sha); ("author", author);
          ("message", JStr message); ("url", html_url)]
    /\ getPath sample_engine
         (upstream_commit "0123456789abcdef" "Al"
            ("Fix the parser" ++ nl ++ nl ++ "Details follow.")
            "https://github.com/o/r/commit/0123456789abcdef") ["sha"] =
       Ok (JStr full_sha)
    /\ getPath sample_engine
         (upstream_commit "0123456789abcdef" "Al"
            ("Fix the parser" ++ nl ++ nl ++ "Details follow.")
            "https://github.com/o/r/commit/0123456789abcdef")
         ["commit"; "message"] = Ok (JStr full_message)
    /\ (code_units sha <= 7)%nat
    /\ (is_ascii full_sha ->
        sha = substring 0 7 full_sha /\ String.prefix sha full_sha = true)
    /\ free_of (ascii_of_nat 10) message
    /\ String.prefix message full_message = true.
Proof.
  apply (summary_is_short_and_single_line sample_engine
           (upstream_commit "0123456789abcdef" "Al"
              ("Fix the parser" ++ nl ++ nl ++ "Details follow.")
              "https://github.com/o/r/commit/0123456789abcdef") [] []).
  reflexivity.
Defined.

(** A sha cut inside a character outside the basic plane: the summary
    ends with the high surrogate of that character, which JSON text
    escapes. *)
Example sha_cut_inside_a_pair :
  exists emoji,
    code_units emoji = 2%nat
    /\ code_units (substring_units 7 ("abcdef" ++ emoji ++ "z")) = 7%nat
    /\ json_quote (substring_units 7 ("abcdef" ++ emoji ++ "z")) =
       dq ++ "abcdef\ud83c" ++ dq.
Proof. exists "🌡". vm_compute. repeat split. Qed.

Lemma non_ok_response_is_thrown_witness :
  fetchWeather sample_engine env_with_key net_not_found (JStr "Paris") [] =
  ([GET "https://api.openweathermap.org/data/2.5/weather?q=Paris&appid=k&units=metric"],
   Throw (ErrorObj "Weather API error: 404 Not Found"))
  /\ fetchForecast sample_engine env_with_key net_not_found (JStr "Paris")
       (JNum (num_of_Z 3)) [] =
     ([GET "https://api.openweathermap.org/data/2.5/forecast?q=Paris&appid=k&units=metric&cnt=24"],
      Throw (ErrorObj "Forecast API error: 404 Not Found")).
Proof.
  split.
  - exact (proj1 (non_ok_response_is_thrown sample_engine env_with_key
                    net_not_found (JStr "Paris") (JNum (num_of_Z 3)) "Paris"
                    (num_of_Z 3) [] not_found_response eq_refl eq_refl)
             eq_refl).
  - refine (proj2 (non_ok_response_is_thrown sample_engine env_with_key
                     net_not_found (JStr "Paris") (JNum (num_of_Z 3)) "Paris"
                     (num_of_Z 3) [] not_found_response eq_refl eq_refl)
              _ eq_refl eq_refl).
    discriminate.
Defined.

Lemma missing_leaves_do_not_fail_witness :
  fetchWeather sample_engine env_with_key net_no_leaves (JStr "Paris") [] =
  ([GET "https://api.openweathermap.org/data/2.5/weather?q=Paris&appid=k&units=metric"],
   Ok {| temperature := S754_nan; feels_like := S754_nan;
         condition := JUndefined; description := JUndefined;
         humidity := JUndefined; wind_speed := S754_nan;
         city := JUndefined; country := JUndefined |})
  /\ Math_round S754_nan = S754_nan.
Proof.
  destruct (missing_leaves_do_not_fail sample_engine env_with_key net_no_leaves
              (JStr "Paris") "Paris" [] _
              [("main", JObj []); ("weather", JArr [JObj []]);
               ("wind", JObj []); ("sys", JObj [])]
              [] [] [] [] [] S754_nan S754_nan S754_nan
              eq_refl eq_refl eq_refl eq_refl eq_refl eq_refl eq_refl eq_refl
              eq_refl eq_refl eq_refl)
    as [Hrun [Hnan _]].
  split.
  - exact Hrun.
  - apply Hnan. intros [].
Defined.

Lemma comparison_is_symmetric_witness :
  warmer (sample_weather "A" 10) (sample_weather "B" 15) = JStr "B"
  /\ warmer (sample_weather "B" 15) (sample_weather "A" 10) = JStr "B"
  /\ tempDiff (sample_weather "A" 10) (sample_weather "B" 15) =
     tempDiff (sample_weather "B" 15) (sample_weather "A" 10).
Proof.
  assert (Hdiff : different_numbers
                    (temperature (sample_weather "A" 10))
                    (temperature (sample_weather "B" 15)))
    by (left; reflexivity).
  destruct (comparison_is_symmetric sample_engine
              (sample_weather "A" 10) (sample_weather "B" 15) Hdiff)
    as (Hw & Hd & _).
  split; [reflexivity | ]. split; [rewrite <- Hw; reflexivity | exact Hd].
Defined.

Lemma forecast_days_default_to_three_witness :
  fst (weather_CallTool sample_engine env_with_key net_forecast
         {| name := "get_weather_forecast";
            arguments := Some [("city", JStr "Paris");
                               ("days", JNum (num_of_Z 0))] |}) =
  [GET "https://api.openweathermap.org/data/2.5/forecast?q=Paris&appid=k&units=metric&cnt=24"].
Proof.
  assert (Hkey : WEATHER_API_KEY env_with_key <> "") by discriminate.
  exact (proj1 (forecast_days_default_to_three sample_engine env_with_key
                  net_forecast
                  [("city", JStr "Paris"); ("days", JNum (num_of_Z 0))] "Paris"
                  Hkey eq_refl eq_refl)).
Defined.

(** The forecast at work: two days asked for, four slots over three dates
    answered, two days listed with rounded temperatures. *)
Example forecast_of_two_days :
  weather_CallTool sample_engine env_with_key net_forecast
    {| name := "get_weather_forecast";
       arguments := Some [("city", JStr "Paris"); ("days", JNum (num_of_Z 2))] |} =
  ([GET "https://api.openweathermap.org/data/2.5/forecast?q=Paris&appid=k&units=metric&cnt=16"],
   Returned {| content := [{| type := "text";
                              text := "2-Day Weather Forecast for Paris, FR:" ++ nl
                                      ++ "━━━━━━━━━━━━━━━━━━━━━━━━━━━━━━━" ++ nl
                                      ++ nl
                                      ++ "Day 1 (2024-01-01):" ++ nl
                                      ++ "  🌡️  1°C - 3°C" ++ nl
                                      ++ "  ☁️  Rain - light rain" ++ nl
                                      ++ nl
                                      ++ "Day 2 (2024-01-02):" ++ nl
                                      ++ "  🌡️  -3°C - 3°C" ++ nl
                                      ++ "  ☁️  Rain - light rain" ++ nl
                                      ++ nl |}];
               isError := None |}).
Proof. vm_compute. reflexivity. Qed.

Lemma forecast_days_are_distinct_witness :
  exists name ctry entries,
    snd (fetchForecast sample_engine env_with_key net_forecast (JStr "Paris")
           (JNum (num_of_Z 5)) []) =
    Ok (JObj [("city", name); ("country", ctry); ("forecast", JArr entries)])
    /\ distinct_days entries.
Proof.
  destruct (fetchForecast sample_engine env_with_key net_forecast (JStr "Paris")
              (JNum (num_of_Z 5)) []) as [log' [v | e]] eqn:Hrun;
    [ | vm_compute in Hrun; discriminate Hrun].
  destruct (forecast_days_are_distinct sample_engine env_with_key net_forecast
              (JStr "Paris") (JNum (num_of_Z 5)) [] log' v Hrun)
    as (name & ctry & entries & Hv & Hd).
  exists name, ctry, entries. split; [now rewrite Hv | exact Hd].
Defined.

Lemma forecast_lists_at_most_days_witness :
  exists name ctry entries,
    snd (fetchForecast sample_engine env_with_key net_forecast (JStr "Paris")
           (JNum (ratio 5 2)) []) =
    Ok (JObj [("city", name); ("country", ctry); ("forecast", JArr entries)])
    /\ (List.length entries <= 2)%nat.
Proof.
  destruct (fetchForecast sample_engine env_with_key net_forecast (JStr "Paris")
              (JNum (ratio 5 2)) []) as [log' [v | e]] eqn:Hrun;
    [ | vm_compute in Hrun; discriminate Hrun].
  destruct (forecast_lists_at_most_days sample_engine env_with_key net_forecast
              (JStr "Paris") (ratio 5 2) 2 [] log' v eq_refl ltac:(lia) Hrun)
    as [(name & ctry & entries & Hv & Hlen) _].
  exists name, ctry, entries. split; [now rewrite Hv | exact Hlen].
Defined.

Lemma empty_forecast_is_header_only_witness :
  weather_CallTool sample_engine env_with_key net_empty_forecast
    {| name := "get_weather_forecast";
       arguments := Some [("city", JStr "Paris"); ("days", JNum (num_of_Z 2))] |} =
  ([GET "https://api.openweathermap.org/data/2.5/forecast?q=Paris&appid=k&units=metric&cnt=16"],
   Returned {| content := [{| type := "text";
                              text := "2-Day Weather Forecast for Paris, FR:"
                                      ++ nl
                                      ++ "━━━━━━━━━━━━━━━━━━━━━━━━━━━━━━━"
                                      ++ nl ++ nl |}];
               isError := None |}).
Proof.
  apply (empty_forecast_is_header_only sample_engine env_with_key
           net_empty_forecast
           [("city", JStr "Paris"); ("days", JNum (num_of_Z 2))]
           (ok_response (JObj [("list", JArr []);
                               ("city", JObj [("name", JStr "Paris");
                                              ("country", JStr "FR")])]))
           [("list", JArr []);
            ("city", JObj [("name", JStr "Paris"); ("country", JStr "FR")])]
           [("name", JStr "Paris"); ("country", JStr "FR")]
           "Paris" (num_of_Z 2) "2" "Paris" "FR").
  - discriminate.
  - reflexivity.
  - reflexivity.
  - reflexivity.
  - reflexivity.
  - reflexivity.
  - reflexivity.
  - reflexivity.
  - reflexivity.
  - reflexivity.
  - reflexivity.
Defined.

Lemma plain_city_is_requested_verbatim_witness :
  fst (fetchWeather sample_engine env_with_key net_A10_B15 (JStr "Paris") []) =
  [GET "https://api.openweathermap.org/data/2.5/weather?q=Paris&appid=k&units=metric"].
Proof.
  apply (plain_city_is_requested_verbatim sample_engine env_with_key
           net_A10_B15 "Paris" []).
  reflexivity.
Defined.

(** A city with reserved characters: each is percent-encoded, byte by
    byte. *)
Example reserved_characters_are_encoded :
  fst (fetchWeather sample_engine env_with_key net_A10_B15
         (JStr "New York&appid=x") []) =
  [GET "https://api.openweathermap.org/data/2.5/weather?q=New%20York%26appid%3Dx&appid=k&units=metric"].
Proof. reflexivity. Qed.

Lemma listed_tools_are_the_dispatched_ones_witness :
  fst (weather_CallTool sample_engine env_with_key net_A10_B15
         {| name := "compare_weather"; arguments := Some [] |}) <> []
  /\ (fst (weather_CallTool sample_engine env_with_key net_A10_B15
             {| name := "compare_weather";
                arguments := Some [("city1", JStr "A"); ("city2", JStr "B")] |})
      <> [] ->
      In "compare_weather" (tool_names weather_tools)).
Proof.
  assert (Hkey : WEATHER_API_KEY env_with_key <> "") by discriminate.
  destruct (listed_tools_are_the_dispatched_ones sample_engine env_with_key
              net_A10_B15 "compare_weather" Hkey) as [Hlisted Hreached].
  split.
  - apply Hlisted. simpl. auto.
  - apply Hreached.
Defined.

(** The grouping at work: four slots over three dates give three days, the
    first of them with the values of the first slot. *)
Example sample_slots_grouped :
  first_per_date [] sample_slots =
  [sample_slot "2024-01-01 00:00:00" (num_of_Z 1) (ratio 5 2);
   sample_slot "2024-01-02 00:00:00" (ratio (-7) 2) (num_of_Z 3);
   sample_slot "2024-01-03 00:00:00" (num_of_Z 0) (num_of_Z 1)].
Proof. reflexivity. Qed.

Lemma unusable_city_is_rejected_without_request_witness :
  weather_CallTool sample_engine env_with_key net_A10_B15
    {| name := "get_current_weather";
       arguments := Some [("city", JStr lone_surrogate)] |} =
  ([], Returned {| content := [{| type := "text";
                                  text := "Error: URI malformed" |}];
                   isError := Some true |})
  /\ weather_CallTool sample_engine env_with_key net_forecast
       {| name := "get_weather_forecast";
          arguments := Some [("city", unprintable)] |} =
     ([], Returned {| content := [{| type := "text";
                                     text := "Error: Cannot convert object to primitive value" |}];
                      isError := Some true |}).
Proof.
  assert (Hkey : WEATHER_API_KEY env_with_key <> "") by discriminate.
  split.
  - exact (proj1 (unusable_city_is_rejected_without_request sample_engine
                    env_with_key net_A10_B15 [("city", JStr lone_surrogate)]
                    (ErrorObj "URI malformed") Hkey eq_refl)).
  - exact (proj2 (unusable_city_is_rejected_without_request sample_engine
                    env_with_key net_forecast [("city", unprintable)]
                    (ErrorObj "Cannot convert object to primitive value")
                    Hkey eq_refl)).
Defined.

Lemma unusable_version_is_rejected_without_request_witness :
  git_CallTool sample_engine env_with_key git_net_two_commits
    {| name := "git_changes_between_versions";
       arguments := Some [("repo", JStr "o/r"); ("fromVersion", JStr "v1");
                          ("toVersion", JArr [unprintable])] |} =
  ([], Returned {| content := [{| type := "text";
                                  text := "Error: Cannot convert object to primitive value" |}];
                   isError := Some true |}).
Proof.
  apply (unusable_version_is_rejected_without_request sample_engine
           env_with_key git_net_two_commits "git_changes_between_versions"
           [("repo", JStr "o/r"); ("fromVersion", JStr "v1");
            ("toVersion", JArr [unprintable])]
           "o/r" "o" "r" (ErrorObj "Cannot convert object to primitive value")).
  - reflexivity.
  - reflexivity.
  - right. split; [exists "v1" | ]; reflexivity.
Defined.

(** The JSON text of a string: the quote, the backslash and the line feed
    are escaped. *)
Example json_text_of_a_string :
  json_quote ("say " ++ dq ++ "hi" ++ dq ++ " \ " ++ nl) =
  dq ++ "say \" ++ dq ++ "hi\" ++ dq ++ " \\ \n" ++ dq.
Proof. reflexivity. Qed.

(** Numbers as the templates print them: the integers up to 2^53 in
    decimal, the rest as the engine prints them. *)
Example numbers_in_text :
  NumberToString sample_engine (num_of_Z (-40)) = "-40"
  /\ NumberToString sample_engine (S754_zero true) = "0"
  /\ NumberToString sample_engine (num_of_Z (2 ^ 53)) = "9007199254740992"
  /\ NumberToString sample_engine (num_of_Z (2 ^ 56)) = "?"
  /\ NumberToString sample_engine (ratio 1 2) = "?"
  /\ NumberToString sample_engine (S754_infinity true) = "-Infinity".
Proof. vm_compute. repeat split. Qed.

(** [Math.round] at the ties and around zero. *)
Example rounding_of_ties :
  Math_round (ratio 5 2) = num_of_Z 3
  /\ Math_round (ratio (-5) 2) = num_of_Z (-2)
  /\ Math_round (ratio (-1) 4) = S754_zero true
  /\ Math_round (ratio 1 4) = S754_zero false
  /\ Math_round (ratio 9 2) = num_of_Z 5.
Proof. vm_compute. repeat split. Qed.
